(** * pyneatR: the batch formatters of [numbers.py], [dates.py] and
    [strings.py]

    A shallow embedding of the number, percent, date, timestamp,
    weekday-name and text formatters and of the type inference of [f.py],
    followed by the properties proved about them.

    Conventions of the embedding.
    - A numpy [float64] is a [spec_float] at precision 53 and maximal
      exponent 1024, with the IEEE operations of [SpecFloat] (round to
      nearest, ties to even).  NaN carries no payload.
    - [np.log10] is the logarithm of the C library, whose last bits IEEE 754
      does not fix: it is a parameter of [nnumber], and the division by 3,
      [np.floor] and [astype(int)] applied to its result are computed as
      numpy computes them.
    - A numpy [datetime64] is [NaT] or an integer count of its unit since the
      epoch.  Counts are held in [Z]; the integer arithmetic the code does
      on them is that of [int64], which wraps around.
    - The system clock is a parameter of [nday]; the day it returns lies
      within [2^62] days of the epoch.
    - Arrays are one-dimensional ([list]); [ravel] and [reshape] are the
      identity on them.
    - A raised exception is the [Raise] branch of [result].
    - A text handed to [nstring] is the list of its code points; the case
      mappings of [str], which follow the Unicode database, are a
      parameter of the embedding. *)

From Stdlib Require Import ZArith List String Ascii Bool Lia Permutation Sorted.
From Stdlib Require Import Floats.SpecFloat.
Import ListNotations.

Local Open Scope list_scope.
Local Open Scope string_scope.
Local Open Scope Z_scope.

(* ================================================================== *)
(** * Python values: exceptions, strings, integers                     *)
(* ================================================================== *)

Module Py.

(** The exceptions the formatters can raise. *)
Inductive error : Type :=
| ValueError (msg : string)
| IndexError
| TypeError.

(** A call either returns or raises. *)
Inductive result (A : Type) : Type :=
| Ok (a : A)
| Raise (e : error).

Arguments Ok {A} a.
Arguments Raise {A} e.

Definition bind {A B : Type} (r : result A) (k : A -> result B) : result B :=
  match r with
  | Ok a => k a
  | Raise e => Raise e
  end.

(** [[f(x) for x in xs]] for an [f] that may raise: the first exception
    wins. *)
Fixpoint mapM {A B : Type} (f : A -> result B) (xs : list A) : result (list B) :=
  match xs with
  | [] => Ok []
  | x :: r =>
      bind (f x) (fun y => bind (mapM f r) (fun ys => Ok (y :: ys)))
  end.

(** [s[a:b]] for [0 <= a <= b]. *)
Definition slice (a b : nat) (s : string) : string :=
  substring a (b - a) s.

(** [s.replace(old, new)] for a one-character [old]. *)
Fixpoint replace (old : ascii) (new : string) (s : string) : string :=
  match s with
  | EmptyString => EmptyString
  | String c r =>
      if Ascii.eqb c old then new ++ replace old new r
      else String c (replace old new r)
  end.

(** The truth value of a string: non-empty. *)
Definition truthy (s : string) : bool :=
  match s with
  | EmptyString => false
  | String _ _ => true
  end.

Definition digit_char (d : Z) : ascii :=
  ascii_of_nat (48 + Z.to_nat d).

Fixpoint digits_acc (fuel : nat) (n : Z) (acc : string) : string :=
  match fuel with
  | O => acc
  | S f =>
      let acc' := String (digit_char (n mod 10)) acc in
      if n <? 10 then acc' else digits_acc f (n / 10) acc'
  end.

(** The decimal digits of [n >= 0].  A number has no more decimal digits
    than binary ones, which bounds the recursion. *)
Definition str_nat (n : Z) : string :=
  digits_acc (S (Z.to_nat (Z.log2 n))) n "".

Fixpoint zeros (n : nat) : string :=
  match n with
  | O => ""
  | S k => String "0" (zeros k)
  end.

(** [s.zfill(width)] for a string of digits. *)
Definition zfill (width : nat) (s : string) : string :=
  zeros (width - String.length s) ++ s.

(** C's [%0<w>d], which numpy uses for the fields of an ISO date: the sign
    counts in the width. *)
Definition fmt_0d (width : nat) (n : Z) : string :=
  if n <? 0 then String "-" (zfill (width - 1) (str_nat (- n)))
  else zfill width (str_nat n).

Definition digit_val (c : ascii) : option Z :=
  let n := Z.of_nat (nat_of_ascii c) in
  if (48 <=? n) && (n <=? 57) then Some (n - 48) else None.

Fixpoint parse_digits (s : string) (acc : Z) : option Z :=
  match s with
  | EmptyString => Some acc
  | String c r =>
      match digit_val c with
      | Some d => parse_digits r (10 * acc + d)
      | None => None
      end
  end.

(** [int(s)] on the texts the formatters hand it (slices of ISO dates): an
    optional sign followed by at least one digit; anything else is a
    [ValueError]. *)
Definition int (s : string) : result Z :=
  let bad := Raise (ValueError "invalid literal for int() with base 10") in
  match s with
  | EmptyString => bad
  | String "-" EmptyString => bad
  | String "+" EmptyString => bad
  | String "-" r =>
      match parse_digits r 0 with Some n => Ok (- n) | None => bad end
  | String "+" r =>
      match parse_digits r 0 with Some n => Ok n | None => bad end
  | _ =>
      match parse_digits s 0 with Some n => Ok n | None => bad end
  end.

(** [xs[i]] with Python's negative indices; out of range is an
    [IndexError]. *)
Definition getitem {A : Type} (xs : list A) (i : Z) : result A :=
  let n := Z.of_nat (List.length xs) in
  let j := if i <? 0 then i + n else i in
  if (0 <=? j) && (j <? n) then
    match nth_error xs (Z.to_nat j) with
    | Some x => Ok x
    | None => Raise IndexError
    end
  else Raise IndexError.

(** [d.get(key, default)] on a dict given as its items (the keys of a dict
    are distinct). *)
Fixpoint dict_get (d : list (string * string)) (key default : string) : string :=
  match d with
  | [] => default
  | (k, v) :: r => if String.eqb k key then v else dict_get r key default
  end.

(** [xs.index(x)] on an [xs] known to hold [x]: the first position. *)
Fixpoint index (xs : list string) (x : string) : nat :=
  match xs with
  | [] => O
  | y :: r => if String.eqb y x then O else S (index r x)
  end.

End Py.

Import Py.

Notation "x <- c ;; k" := (Py.bind c (fun x => k))
  (at level 61, c at next level, right associativity).


(* ================================================================== *)
(** * numpy: float64, array operations                                 *)
(* ================================================================== *)

Module np.

(** ** float64 *)

Definition float := spec_float.

Definition prec : Z := 53.
Definition emax : Z := 1024.

Definition nan : float := S754_nan.
Definition inf : float := S754_infinity false.

Definition mul : float -> float -> float := SFmul prec emax.
Definition div : float -> float -> float := SFdiv prec emax.
Definition abs : float -> float := SFabs.
Definition eq : float -> float -> bool := SFeqb.
Definition lt : float -> float -> bool := SFltb.
Definition le : float -> float -> bool := SFleb.
Definition ne (x y : float) : bool := negb (eq x y).
Definition gt (x y : float) : bool := lt y x.
Definition ge (x y : float) : bool := le y x.

(** The float64 nearest to an integer. *)
Definition of_Z (z : Z) : float := binary_normalize prec emax z 0 false.

(** A decimal literal [1e-k] of the source: the float64 nearest to
    [1 / 10^k], which a correctly rounded division of two exact operands
    yields. *)
Definition lit_1e_minus (k : nat) : float := div (of_Z 1) (of_Z (10 ^ Z.of_nat k)).

Definition isnan (x : float) : bool :=
  match x with
  | S754_nan => true
  | _ => false
  end.

Definition isfinite (x : float) : bool :=
  match x with
  | S754_nan | S754_infinity _ => false
  | _ => true
  end.

(** ** [np.floor], [astype(int)] and the arithmetic of [int64] *)

(** The largest integer that is not above the finite float of sign [s],
    mantissa [m] and exponent [e]. *)
Definition floor_Z (s : bool) (m : positive) (e : Z) : Z :=
  let z := if s then Zneg m else Zpos m in
  if 0 <=? e then z * 2 ^ e else z / 2 ^ (- e).

(** [np.floor(x)]: a float again; the floor of a value between -1 and 0 is
    -1, and a zero keeps its sign. *)
Definition floor (x : float) : float :=
  match x with
  | S754_finite s m e =>
      if 0 <=? e then x else binary_normalize prec emax (floor_Z s m e) 0 s
  | _ => x
  end.

(** [x.astype(int)] for a float64: the value without its fraction; NaN,
    the infinities and what does not fit an int64 give the least int64 (the
    result of the conversion on x86-64). *)
Definition astype_int (x : float) : Z :=
  match x with
  | S754_zero _ => 0
  | S754_finite s m e =>
      let a := if 0 <=? e then Zpos m * 2 ^ e else Zpos m / 2 ^ (- e) in
      let z := if s then - a else a in
      if (- 2 ^ 63 <=? z) && (z <? 2 ^ 63) then z else - 2 ^ 63
  | _ => - 2 ^ 63
  end.

(** The int64 that an integer operation returns for the exact result [z]:
    the operation wraps around. *)
Definition int64 (z : Z) : Z := (z + 2 ^ 63) mod 2 ^ 64 - 2 ^ 63.

Definition clip (v lo hi : Z) : Z := Z.min (Z.max v lo) hi.

(** ** Formatting a float with a [f] presentation type *)

Definition round_half_even (num den : Z) : Z :=
  let q := num / den in
  let r := num mod den in
  match 2 * r ?= den with
  | Lt => q
  | Gt => q + 1
  | Eq => if Z.even q then q else q + 1
  end.

(** [|v| * 10^digits] rounded to the nearest integer, ties to even, for the
    finite float of mantissa [m] and exponent [e]. *)
Definition scaled_digits (digits : nat) (m : positive) (e : Z) : Z :=
  let p := Zpos m * 10 ^ Z.of_nat digits in
  if 0 <=? e then p * 2 ^ e else round_half_even p (2 ^ (- e)).

Fixpoint list_of_string (s : string) : list ascii :=
  match s with
  | EmptyString => []
  | String c r => c :: list_of_string r
  end.

Fixpoint string_of_list (l : list ascii) : string :=
  match l with
  | [] => EmptyString
  | c :: r => String c (string_of_list r)
  end.

(** Digits from the least significant one, a comma after every third. *)
Fixpoint group3_rev (l : list ascii) (k : nat) : list ascii :=
  match l with
  | [] => []
  | c :: r =>
      match k with
      | 3%nat => ","%char :: c :: group3_rev r 1
      | _ => c :: group3_rev r (S k)
      end
  end.

Definition group3 (s : string) : string :=
  string_of_list (rev (group3_rev (rev (list_of_string s)) 0)).

(** The unsigned text of [n / 10^digits]: integer part (grouped by
    thousands when [grouping]), and a point and [digits] decimals when
    [digits > 0]. *)
Definition fixed_text (grouping : bool) (digits : nat) (n : Z) : string :=
  let s := zfill (S digits) (str_nat n) in
  let k := (String.length s - digits)%nat in
  let ip := substring 0 k s in
  let fp := substring k digits s in
  let ip' := if grouping then group3 ip else ip in
  match digits with
  | O => ip'
  | S _ => ip' ++ "." ++ fp
  end.

Definition sign_text (plus neg : bool) : string :=
  if neg then "-" else if plus then "+" else "".

(** [format(v, "[+][,].<digits>f")]: [plus] is the sign option [+],
    [grouping] the option [,]. *)
Definition format_f (plus grouping : bool) (digits : nat) (v : float) : string :=
  match v with
  | S754_nan => sign_text plus false ++ "nan"
  | S754_infinity s => sign_text plus s ++ "inf"
  | S754_zero s => sign_text plus s ++ fixed_text grouping digits 0
  | S754_finite s m e =>
      sign_text plus s ++ fixed_text grouping digits (scaled_digits digits m e)
  end.

(** ** Array operations *)

(** [np.full(n, v)]. *)
Definition full {A : Type} (n : nat) (v : A) : list A := repeat v n.

(** [np.any(mask)]. *)
Definition any (mask : list bool) : bool := existsb (fun b => b) mask.

(** An operation applied element by element to two arrays of one length. *)
Fixpoint map2 {A B C : Type} (f : A -> B -> C) (xs : list A) (ys : list B) : list C :=
  match xs, ys with
  | x :: xr, y :: yr => f x y :: map2 f xr yr
  | _, _ => []
  end.

(** [np.where(cond, a, b)] on arrays of one length. *)
Fixpoint where_ {A : Type} (cond : list bool) (a b : list A) : list A :=
  match cond, a, b with
  | c :: cr, x :: xr, y :: yr => (if c then x else y) :: where_ cr xr yr
  | _, _, _ => []
  end.

(** [np.char.add(a, b)] on two arrays, and with a scalar on either side. *)
Definition char_add (a b : list string) : list string := map2 String.append a b.
Definition char_add_l (s : string) (b : list string) : list string :=
  map (fun x => s ++ x) b.
Definition char_add_r (a : list string) (s : string) : list string :=
  map (fun x => x ++ s) a.

(** [np.char.replace(a, old, new)] for a one-character [old]. *)
Definition char_replace (a : list string) (old : ascii) (new : string) : list string :=
  map (Py.replace old new) a.

(** A string operation of [np.char] applied to [np.array(l)] for a list [l]
    of texts.  The array of an empty list is an array of floats, which the
    operation rejects (the class of the exception depends on the version of
    numpy). *)
Definition char_on_array (l : list string) (op : list string -> list string)
    : result (list string) :=
  match l with
  | [] => Raise TypeError
  | _ :: _ => Ok (op l)
  end.

(** [a[mask]]: the elements where the mask holds, in order. *)
Fixpoint boolean_index {A : Type} (a : list A) (mask : list bool) : list A :=
  match a, mask with
  | x :: xr, b :: mr =>
      if b then x :: boolean_index xr mr else boolean_index xr mr
  | _, _ => []
  end.

(** [a[mask] = vals]: the successive elements of [vals] go to the positions
    where the mask holds. *)
Fixpoint put_mask {A : Type} (a : list A) (mask : list bool) (vals : list A) : list A :=
  match a, mask with
  | x :: xr, b :: mr =>
      if b then
        match vals with
        | v :: vr => v :: put_mask xr mr vr
        | [] => x :: put_mask xr mr []
        end
      else x :: put_mask xr mr vals
  | _, _ => a
  end.

(** [a[mask] = v] for a scalar [v]. *)
Fixpoint put_mask_scalar {A : Type} (a : list A) (mask : list bool) (v : A) : list A :=
  match a, mask with
  | x :: xr, b :: mr => (if b then v else x) :: put_mask_scalar xr mr v
  | _, _ => a
  end.

(** [a[idx]] for an array of indices: an index out of range raises. *)
Definition take {A : Type} (a : list A) (idx : list nat) : result (list A) :=
  mapM (fun i => match nth_error a i with
                 | Some x => Ok x
                 | None => Raise IndexError
                 end) idx.

(** [a[idx]] for an array of (possibly negative) integer indices. *)
Definition take_int {A : Type} (a : list A) (idx : list Z) : result (list A) :=
  mapM (Py.getitem a) idx.

(** [np.bincount(xs)] for non-negative [xs]: how often each of
    [0 .. max xs] occurs. *)
Definition bincount (xs : list Z) : list nat :=
  let top := fold_right Z.max 0 xs in
  map (fun k => count_occ Z.eq_dec xs (Z.of_nat k)) (seq 0 (S (Z.to_nat top))).

(** First position of the largest element, scanning from position [i];
    [best] and [bi] are the largest element so far and its position. *)
Fixpoint argmax_from (xs : list nat) (i : nat) (best : nat) (bi : nat) : nat :=
  match xs with
  | [] => bi
  | x :: r =>
      if (best <? x)%nat then argmax_from r (S i) x i
      else argmax_from r (S i) best bi
  end.

(** [np.argmax(xs)]: the first position of the maximum. *)
Definition argmax (xs : list nat) : nat :=
  match xs with
  | [] => O
  | x :: r => argmax_from r 1 x 0
  end.

(** ** [np.unique(ar, return_inverse=True)] *)

Section Unique.
Context {A : Type}.
(** [before a b]: [a] sorts strictly before [b]. *)
Variable before : A -> A -> bool.
(** [same a b]: [np.unique] takes [a] and [b] for one value. *)
Variable same : A -> A -> bool.

Fixpoint insert (a : A) (l : list A) : list A :=
  match l with
  | [] => [a]
  | b :: r => if before a b then a :: l else b :: insert a r
  end.

(** A stable sort: equal elements keep the order of the input. *)
Definition sort (l : list A) : list A :=
  fold_left (fun acc x => insert x acc) l [].

(** Keeps the elements that differ from their predecessor. *)
Fixpoint uniq_from (prev : A) (l : list A) : list A :=
  match l with
  | [] => []
  | x :: r => if same prev x then uniq_from x r else x :: uniq_from x r
  end.

Definition uniq (l : list A) : list A :=
  match l with
  | [] => []
  | x :: r => x :: uniq_from x r
  end.

(** The position of the value of [x] among the distinct values. *)
Fixpoint find_index (x : A) (us : list A) : nat :=
  match us with
  | [] => O
  | u :: r => if same u x then O else S (find_index x r)
  end.

(** The sorted distinct values, and for every position of [ar] the
    position of its value among them. *)
Definition unique (ar : list A) : list A * list nat :=
  let uvals := uniq (sort ar) in
  (uvals, map (fun x => find_index x uvals) ar).
End Unique.

(** Sorting floats: [<], with NaN after everything else. *)
Definition float_before (a b : float) : bool :=
  match a, b with
  | S754_nan, _ => false
  | _, S754_nan => true
  | _, _ => lt a b
  end.

(** Merging floats: [==], and all NaNs are one value. *)
Definition float_same (a b : float) : bool :=
  eq a b || (isnan a && isnan b).

Definition unique_float : list float -> list float * list nat :=
  unique float_before float_same.

(** ** datetime64 *)

(** A [datetime64] value: not-a-time, or a count of the array's unit (days
    for [datetime64[D]], seconds for [datetime64[s]]) since 1970-01-01. *)
Inductive datetime64 : Type :=
| NaT
| DT (v : Z).

Definition isnat (d : datetime64) : bool :=
  match d with
  | NaT => true
  | DT _ => false
  end.

(** numpy's [days_to_yearsdays]: the year of a day count and the day within
    that year (from 0), by 400-, 100-, 4- and 1-year cycles counted from
    2000-01-01. *)
Definition days_to_yearsdays (days_ : Z) : Z * Z :=
  let days_per_400years := 400 * 365 + 100 - 4 + 1 in
  let days := days_ - (365 * 30 + 7) in
  let year := 400 * (days / days_per_400years) in
  let days := days mod days_per_400years in
  let '(year, days) :=
    if 366 <=? days then
      let year := year + 100 * ((days - 1) / (100 * 365 + 25 - 1)) in
      let days := (days - 1) mod (100 * 365 + 25 - 1) in
      if 365 <=? days then
        let year := year + 4 * ((days + 1) / (4 * 365 + 1)) in
        let days := (days + 1) mod (4 * 365 + 1) in
        if 366 <=? days then
          (year + (days - 1) / 365, (days - 1) mod 365)
        else (year, days)
      else (year, days)
    else (year, days) in
  (year + 2000, days).

Definition is_leapyear (year : Z) : bool :=
  (year mod 4 =? 0) && (negb (year mod 100 =? 0) || (year mod 400 =? 0)).

Definition days_per_month_table (leap : bool) : list Z :=
  if leap then [31; 29; 31; 30; 31; 30; 31; 31; 30; 31; 30; 31]
  else [31; 28; 31; 30; 31; 30; 31; 31; 30; 31; 30; 31].

(** The month (from [i + 1]) and day of the month of a day of the year. *)
Fixpoint month_day (month_lengths : list Z) (i : Z) (days : Z) : Z * Z :=
  match month_lengths with
  | [] => (i, days + 1)
  | len :: r =>
      if days <? len then (i + 1, days + 1)
      else
        match r with
        | [] => (i + 1, days + 1)
        | _ => month_day r (i + 1) (days - len)
        end
  end.

(** numpy's [set_datetimestruct_days]: year, month and day of a day
    count. *)
Definition civil_of_days (days : Z) : Z * Z * Z :=
  let '(year, yday) := days_to_yearsdays days in
  let '(month, day) := month_day (days_per_month_table (is_leapyear year)) 0 yday in
  (year, month, day).

(** [np.datetime_as_string(d, unit='D')] for a day count. *)
Definition datetime_as_string_D (days : Z) : string :=
  let '(year, month, day) := civil_of_days days in
  fmt_0d 4 year ++ "-" ++ fmt_0d 2 month ++ "-" ++ fmt_0d 2 day.

(** [np.datetime_as_string(t, unit='s')] for a count of seconds. *)
Definition datetime_as_string_s (secs : Z) : string :=
  let sod := secs mod 86400 in
  datetime_as_string_D (secs / 86400) ++ "T" ++ fmt_0d 2 (sod / 3600) ++ ":"
    ++ fmt_0d 2 (sod mod 3600 / 60) ++ ":" ++ fmt_0d 2 (sod mod 60).

End np.

(* ================================================================== *)
(** * utils.py                                                         *)
(* ================================================================== *)

(** [utils.py] is not among the sources; its three helpers are used by
    every formatter.  [_check_singleton(value, name, type)] checks that an
    option is a single value of its type: the options below are typed, so
    the check always passes and has no counterpart here. *)

Module utils.

(** Modelled from the spec: [_sandwich] of [utils.py], which is missing.
    "wrap with prefix/suffix if provided (prefix and suffix are applied
    after unit suffixing ...)": every string of the array is wrapped.  This
    is the wrap of an array of strings; [nnumber] applies it as a string
    operation of [np.char], which an array that holds no strings does not
    admit. *)
Definition _sandwich (x : list string) (prefix suffix : string) : list string :=
  np.char_add_r (np.char_add_l prefix x) suffix.

Section UniqueOptimization.
Context {A : Type}.
Variable before : A -> A -> bool.
Variable same : A -> A -> bool.

(** Modelled from the spec: the decorator [_unique_optimization] of
    [utils.py], which is missing.  "compute (distinct, inverse) such that
    inverse has length N and distinct[inverse[i]] == batch[i]; compute
    formatted_distinct = map(fmt, distinct); return
    formatted_distinct[inverse[i]] for i in 0..N": the decorated
    formatter is handed the distinct values, and its result is gathered
    back through the inverse map. *)
Definition _unique_optimization
    (func : list A -> result (list string)) (batch : list A)
    : result (list string) :=
  let '(distinct, inverse) := np.unique before same batch in
  formatted_distinct <- func distinct ;;
  np.take formatted_distinct inverse.
End UniqueOptimization.

End utils.

(* ================================================================== *)
(** * numbers.py                                                       *)
(* ================================================================== *)

Module numbers.

Import utils.

(** An element of the input of a number formatter, before
    [np.asanyarray(.., dtype=float)]. *)
Inductive pyobj : Type :=
| PyFloat (x : np.float)   (* a number *)
| PyNone                   (* None *)
| PyStr (s : string).      (* a text that does not read as a number *)

(** [np.asanyarray(xs, dtype=float)]: [None] becomes NaN, a text that is
    not a number raises. *)
Definition asanyarray_float (xs : list pyobj) : result (list np.float) :=
  mapM (fun o =>
          match o with
          | PyFloat x => Ok x
          | PyNone => Ok np.nan
          | PyStr s => Raise (ValueError "could not convert string to float")
          end) xs.

Definition zero : np.float := S754_zero false.

Definition _nround (x : np.float) (digits : nat) : string :=
  np.format_f false false digits x.

(** [(x != 0) & np.isfinite(x)]. *)
Definition nonzero_finite (x : np.float) : bool :=
  np.ne x zero && np.isfinite x.

Section Log10.

(** [np.log10]: the logarithm of the C library, whose last bits IEEE 754
    does not fix. *)
Variable log10 : np.float -> np.float.

(** [np.clip(np.floor(np.log10(np.abs(x)) / 3).astype(int), 0, limit)] for
    one element. *)
Definition clipped_magnitude (limit : Z) (x : np.float) : Z :=
  np.clip
    (np.astype_int (np.floor (np.div (log10 (np.abs x)) (np.of_Z 3)))) 0 limit.

Definition nnumber (number : list pyobj) (digits : nat) (unit : string)
    (unit_labels : list (string * string))
    (prefix suffix thousand_separator : string) : result (list string) :=
  let labels := [""; dict_get unit_labels "thousand" "K";
                 dict_get unit_labels "million" "Mn";
                 dict_get unit_labels "billion" "Bn";
                 dict_get unit_labels "trillion" "Tn"] in
  let factors := [np.of_Z 1; np.lit_1e_minus 3; np.lit_1e_minus 6;
                  np.lit_1e_minus 9; np.lit_1e_minus 12] in
  x_arr <- asanyarray_float number ;;
  let x_flat := x_arr in
  mode <-
    (if String.eqb unit "auto" then
       let nonzero := map nonzero_finite x_flat in
       let mode_mx :=
         if negb (np.any nonzero) then O
         else
           let limit := Z.of_nat (List.length labels) - 1 in
           let mx := map (clipped_magnitude limit) (np.boolean_index x_flat nonzero) in
           let counts := np.bincount mx in
           np.argmax counts in
       Ok (mode_mx, true)
     else if String.eqb unit "custom" then Ok (O, false)
     else if existsb (String.eqb unit) labels then Ok (Py.index labels unit, true)
     else Raise (ValueError "Invalid unit")) ;;
  let '(final_unit_idx, fixed_unit) := mode in
  let '(uvals, inverse) := np.unique_float x_flat in
  let indices :=
    if fixed_unit then np.full (List.length uvals) final_unit_idx
    else
      let nonzero := map nonzero_finite uvals in
      let indices := np.full (List.length uvals) O in
      if np.any nonzero then
        let limit := Z.of_nat (List.length labels) - 1 in
        let vals := map (clipped_magnitude limit) (np.boolean_index uvals nonzero) in
        np.put_mask indices nonzero (map Z.to_nat vals)
      else indices in
  scales <- np.take factors indices ;;
  unit_lbls <- np.take labels indices ;;
  let scaled_vals := np.map2 np.mul uvals scales in
  let formatted_list := map (np.format_f false true digits) scaled_vals in
  let formatted_arr := formatted_list in
  formatted_arr <-
    (if negb (String.eqb thousand_separator ",") then
       if String.eqb thousand_separator "." then
         formatted_arr <-
           np.char_on_array formatted_arr (fun a => np.char_replace a "," "X") ;;
         let formatted_arr := np.char_replace formatted_arr "." "," in
         Ok (np.char_replace formatted_arr "X" ".")
       else
         np.char_on_array formatted_arr
           (fun a => np.char_replace a "," thousand_separator)
     else Ok formatted_arr) ;;
  let has_unit := map (fun l => negb (String.eqb l "")) unit_lbls in
  let formatted_arr :=
    if np.any has_unit then
      let suffixes :=
        np.where_ has_unit (np.char_add_l " " unit_lbls)
                  (np.full (List.length has_unit) "") in
      np.char_add formatted_arr suffixes
    else formatted_arr in
  let formatted_uvals := formatted_arr in
  formatted_uvals <-
    (if truthy prefix || truthy suffix then
       np.char_on_array formatted_uvals (fun a => _sandwich a prefix suffix)
     else Ok formatted_uvals) ;;
  np.take formatted_uvals inverse.

(** The public [nnumber] is the decorated function; the decorator sees the
    batch as numbers. *)
Definition nnumber_decorated (number : list np.float) (digits : nat)
    (unit : string) (unit_labels : list (string * string))
    (prefix suffix thousand_separator : string) : result (list string) :=
  _unique_optimization np.float_before np.float_same
    (fun distinct =>
       nnumber (map PyFloat distinct) digits unit unit_labels
               prefix suffix thousand_separator)
    number.

End Log10.

Definition npercent (percent : list pyobj) (is_ratio : bool) (digits : nat)
    (show_plus_sign show_growth_factor show_bps : bool) : result (list string) :=
  x <- asanyarray_float percent ;;
  let x := if is_ratio then map (fun v => np.mul v (np.of_Z 100)) x else x in
  if (List.length x =? 0)%nat then Ok []
  else
    let s_list := map (np.format_f false false digits) x in
    let s_list := map (np.format_f false false digits) x in
    let s_arr := s_list in
    let s_arr :=
      if show_plus_sign then
        np.where_ (map (fun v => np.gt v zero) x) (np.char_add_l "+" s_arr) s_arr
      else s_arr in
    let s_arr := np.char_add_r s_arr "%" in
    let s_arr :=
      if show_growth_factor || show_bps then
        let n := List.length x in
        let extras_arr := np.full n "" in
        let extras_arr :=
          if show_growth_factor then
            let gtemp := map (fun v => np.div v (np.of_Z 100)) x in
            let gtemp_abs := map np.abs gtemp in
            let g_fmt_arr := map (np.format_f false false 1) gtemp_abs in
            let growth_lbl := np.char_add_l " (" (np.char_add_r g_fmt_arr "x Growth)") in
            let drop_lbl := np.char_add_l " (" (np.char_add_r g_fmt_arr "x Drop)") in
            let small_lbl :=
              np.where_ (map (fun g => np.gt g zero) gtemp)
                        (np.full n " (Growth)") (np.full n " (Drop)") in
            let small_lbl :=
              np.where_ (map (fun g => np.eq g zero) gtemp)
                        (np.full n " (Flat)") small_lbl in
            let f_lbl :=
              np.where_ (map (fun g => np.le g (np.of_Z (-1))) gtemp)
                        drop_lbl small_lbl in
            let f_lbl :=
              np.where_ (map (fun g => np.ge g (np.of_Z 1)) gtemp)
                        growth_lbl f_lbl in
            np.char_add extras_arr f_lbl
          else extras_arr in
        let extras_arr :=
          if show_bps then
            let bps := map (fun v => np.mul v (np.of_Z 100)) x in
            let bps_list :=
              map (fun b => if np.ne b zero then np.format_f true false 0 b
                            else "0") bps in
            let bps_lbl := np.char_add_l " (" (np.char_add_r bps_list " bps)") in
            let extras_arr := np.char_add extras_arr bps_lbl in
            let extras_arr := np.char_add extras_arr bps_lbl in
            extras_arr
          else extras_arr in
        np.char_add s_arr extras_arr
      else s_arr in
    Ok s_arr.

End numbers.

(* ================================================================== *)
(** * dates.py                                                         *)
(* ================================================================== *)

Module dates.

(** An element of a list (or object array) handed to a date formatter. *)
Inductive cell : Type :=
| CInstant (v : Z)   (* a date, a datetime or an ISO text: the count numpy
                        converts it to, in the unit asked for *)
| CNone              (* None, or whatever numpy reads as not-a-time *)
| CText (s : string).  (* a text numpy cannot read as a date *)

(** The input of a date formatter: an array whose dtype is [datetime64]
    (its values counted in the unit the formatter works in), or anything
    else. *)
Inductive array : Type :=
| Datetime64 (a : list np.datetime64)
| Object (a : list cell).

(** [np.size(x)]. *)
Definition size (x : array) : nat :=
  match x with
  | Datetime64 a => List.length a
  | Object a => List.length a
  end.

(** [np.issubdtype(x.dtype, np.datetime64)]. *)
Definition is_datetime64 (x : array) : bool :=
  match x with
  | Datetime64 _ => true
  | Object _ => false
  end.

(** [np.asanyarray(x).astype('datetime64[..]')]: the whole conversion
    raises when one element cannot be read. *)
Definition astype_datetime64 (x : array) : result array :=
  match x with
  | Datetime64 a => Ok (Datetime64 a)
  | Object a =>
      a' <- mapM (fun c =>
                    match c with
                    | CInstant v => Ok (np.DT v)
                    | CNone => Ok np.NaT
                    | CText s => Raise (ValueError "Error parsing datetime string")
                    end) a ;;
      Ok (Datetime64 a')
  end.

(** [try: x = f(x) except: pass]. *)
Definition try_or_keep (x : array) (r : result array) : array :=
  match r with
  | Ok y => y
  | Raise _ => x
  end.

(** The unit of a [datetime64] array. *)
Inductive time_unit : Type := unit_D | unit_s.

(** [dt64.astype('datetime64[D]').astype(int)] for one element: the day
    count, rounded down; not-a-time is the least int64. *)
Definition days_of (u : time_unit) (d : np.datetime64) : Z :=
  match d with
  | np.NaT => - 2 ^ 63
  | np.DT v =>
      match u with
      | unit_D => v
      | unit_s => v / 86400
      end
  end.

(** The count of a valid element. *)
Definition count_of (d : np.datetime64) : Z :=
  match d with
  | np.NaT => - 2 ^ 63
  | np.DT v => v
  end.

(** [days] is an array of int64: the sum [days + 3] wraps around for the
    three largest day counts. *)
Definition _get_weekday_name_vec (u : time_unit) (dt64 : list np.datetime64)
    : result (list string) :=
  let days := map (days_of u) dt64 in
  let idx := map (fun d => np.int64 (d + 3) mod 7) days in
  let labels := ["Mon"; "Tue"; "Wed"; "Thu"; "Fri"; "Sat"; "Sun"] in
  np.take_int labels idx.

(** The system clock: [c k] is the day [np.datetime64('today')] returns at
    the [k]-th reading; a call threads the number of readings made so far.
    The day is the date of the C library's [struct tm], whose year is an
    [int]: its count stays, by far, within [2^62] of the epoch. *)
Record clock : Type := {
  today_at :> nat -> Z;
  today_in_range : forall k, - 2 ^ 62 <= today_at k <= 2 ^ 62
}.

Definition datetime64_today (c : clock) (reads : nat) : Z * nat :=
  (c reads, S reads).

(** The difference [today_day - d_day] is a [timedelta64], an int64 that
    wraps around; divided by one day it is a float64, which [astype(int)]
    turns into an int64 again: the differences from -8 to 8, the only ones
    the masks look for, pass unchanged, and no other one becomes one of
    them (the least int64 is not-a-time as a [timedelta64] and NaN as a
    float64, which [astype(int)] turns into the least int64 on x86-64). *)
Definition nday (date : array) (show_relative_day : bool)
    (c : clock) (reads : nat) : result (list string) * nat :=
  if (size date =? 0)%nat then (Ok [], reads)
  else
    let date :=
      if negb (is_datetime64 date) then try_or_keep date (astype_datetime64 date)
      else date in
    match date with
    | Object a => (Ok (np.full (List.length a) "NaT"), reads)
    | Datetime64 date =>
        let mask := map (fun d => negb (np.isnat d)) date in
        let result := np.full (List.length date) "NaT" in
        if negb (np.any mask) then (Ok result, reads)
        else
          let valid_dates := np.boolean_index date mask in
          match _get_weekday_name_vec unit_D valid_dates with
          | Raise e => (Raise e, reads)
          | Ok day_str =>
              if show_relative_day then
                let '(today, reads) := datetime64_today c reads in
                let d_day := map (days_of unit_D) valid_dates in
                let today_day := today in
                let diff := map (fun d => np.int64 (today_day - d)) d_day in
                let alias := np.full (List.length diff) "" in
                let alias :=
                  np.put_mask_scalar alias
                    (map (fun d => (2 <=? d) && (d <=? 8)) diff) "Last " in
                let alias :=
                  np.put_mask_scalar alias (map (fun d => d =? 1) diff) "Yesterday, " in
                let alias :=
                  np.put_mask_scalar alias (map (fun d => d =? 0) diff) "Today, " in
                let alias :=
                  np.put_mask_scalar alias (map (fun d => d =? -1) diff) "Tomorrow, " in
                let alias :=
                  np.put_mask_scalar alias
                    (map (fun d => (-8 <=? d) && (d <=? -2)) diff) "Coming " in
                let day_str := np.char_add alias day_str in
                (Ok (np.put_mask result mask day_str), reads)
              else (Ok (np.put_mask result mask day_str), reads)
          end
    end.

Definition months_full : list string :=
  [""; "Jan"; "Feb"; "Mar"; "Apr"; "May"; "Jun";
   "Jul"; "Aug"; "Sep"; "Oct"; "Nov"; "Dec"].

Definition ndate (date : array) (show_weekday show_month_year : bool)
    : result (list string) :=
  if (size date =? 0)%nat then Ok []
  else
    let date :=
      if negb (is_datetime64 date) then try_or_keep date (astype_datetime64 date)
      else date in
    match date with
    | Object a => Ok (np.full (List.length a) "NaT")
    | Datetime64 date =>
        let mask := map (fun d => negb (np.isnat d)) date in
        let result := np.full (List.length date) "NaT" in
        if negb (np.any mask) then Ok result
        else
          let valid_dates := np.boolean_index date mask in
          let iso := map (fun d => np.datetime_as_string_D (count_of d)) valid_dates in
          s <-
            (if show_month_year then
               let months_arr := months_full in
               mm <- mapM (fun s => Py.int (Py.slice 5 7 s)) iso ;;
               let yy := map (Py.slice 2 4) iso in
               mon_str <- np.take_int months_arr mm ;;
               Ok (np.char_add (np.char_add_r mon_str "'") yy)
             else
               let months_arr := months_full in
               let yyyy := map (Py.slice 0 4) iso in
               mm <- mapM (fun s => Py.int (Py.slice 5 7 s)) iso ;;
               let dd := map (Py.slice 8 10) iso in
               mon_str <- np.take_int months_arr mm ;;
               let p1 := np.char_add_r mon_str " " in
               let p2 := np.char_add p1 dd in
               let p3 := np.char_add_r p2 ", " in
               let s := np.char_add p3 yyyy in
               if show_weekday then
                 wd <- _get_weekday_name_vec unit_D valid_dates ;;
                 let w_part := np.char_add_l " (" (np.char_add_r wd ")") in
                 Ok (np.char_add s w_part)
               else Ok s) ;;
          Ok (np.put_mask result mask s)
    end.

(** [[f"{i:02d}" for i in range(13)]]. *)
Definition hours_labels : list string :=
  map (fun i => fmt_0d 2 (Z.of_nat i)) (seq 0 13).

Definition ntimestamp (timestamp : array)
    (show_weekday show_date show_hours show_minutes show_seconds
     show_timezone : bool) : result (list string) :=
  if (size timestamp =? 0)%nat then Ok []
  else
    let timestamp :=
      if negb (is_datetime64 timestamp) then
        try_or_keep timestamp (astype_datetime64 timestamp)
      else timestamp in
    match timestamp with
    | Object a => Ok (np.full (List.length a) "NaT")
    | Datetime64 timestamp =>
        let mask := map (fun d => negb (np.isnat d)) timestamp in
        let result := np.full (List.length timestamp) "NaT" in
        if negb (np.any mask) then Ok result
        else
          let valid_ts := np.boolean_index timestamp mask in
          let iso := map (fun d => np.datetime_as_string_s (count_of d)) valid_ts in
          let parts_list : list (list string) := [] in
          parts_list <-
            (if show_date then
               let months_arr := months_full in
               let yyyy := map (Py.slice 0 4) iso in
               mm <- mapM (fun s => Py.int (Py.slice 5 7 s)) iso ;;
               let dd := map (Py.slice 8 10) iso in
               mon_str <- np.take_int months_arr mm ;;
               let d_str := np.char_add_r mon_str " " in
               let d_str := np.char_add d_str dd in
               let d_str := np.char_add_r d_str ", " in
               let d_str := np.char_add d_str yyyy in
               let d_str := np.char_add_r d_str " " in
               Ok (parts_list ++ [d_str])%list
             else Ok parts_list) ;;
          let hh_str := map (Py.slice 11 13) iso in
          let mm_str := map (Py.slice 14 16) iso in
          let ss_str := map (Py.slice 17 19) iso in
          hh_int <- mapM Py.int hh_str ;;
          let is_pm := map (fun h => 12 <=? h) hh_int in
          let hh_12 := hh_int in
          let hh_12 := map (fun h => if h =? 0 then 12 else h) hh_12 in
          let hh_12 := map (fun h => if 12 <? h then h - 12 else h) hh_12 in
          hh_12_str <- np.take_int hours_labels hh_12 ;;
          let parts_list :=
            if show_hours then (parts_list ++ [np.char_add_r hh_12_str "H"])%list
            else parts_list in
          let parts_list :=
            if show_minutes then
              (parts_list ++ [np.char_add_l " " (np.char_add_r mm_str "M")])%list
            else parts_list in
          let parts_list :=
            if show_seconds then
              (parts_list ++ [np.char_add_l " " (np.char_add_r ss_str "S")])%list
            else parts_list in
          let ampm_arr :=
            np.where_ is_pm (np.full (List.length is_pm) " PM")
                      (np.full (List.length is_pm) " AM") in
          let parts_list := (parts_list ++ [ampm_arr])%list in
          let combined := fold_left np.char_add (tl parts_list) (hd [] parts_list) in
          combined <-
            (if show_weekday then
               wd <- _get_weekday_name_vec unit_s valid_ts ;;
               let w_part := np.char_add_l " (" (np.char_add_r wd ")") in
               Ok (np.char_add combined w_part)
             else Ok combined) ;;
          Ok (np.put_mask result mask combined)
    end.

End dates.

(* ================================================================== *)
(** * Python text: [str] over code points                              *)
(* ================================================================== *)

Module PyText.

(** A Python [str]: its code points. *)
Definition str : Type := list N.

(** The text of an ASCII literal. *)
Definition of_string (s : string) : str :=
  map N_of_ascii (np.list_of_string s).

(** [c.isspace()], which is also what [\s] matches in a [str] pattern. *)
Definition isspace (c : N) : bool :=
  ((9 <=? c) && (c <=? 13) || (28 <=? c) && (c <=? 32) || (c =? 133) || (c =? 160)
   || (c =? 5760) || (8192 <=? c) && (c <=? 8202) || (c =? 8232) || (c =? 8233)
   || (c =? 8239) || (c =? 8287) || (c =? 12288))%N.

(** The truth value of a text: non-empty. *)
Definition truthy (s : str) : bool :=
  match s with
  | [] => false
  | _ :: _ => true
  end.

(** [re.sub("[^...]", "", s)] for a negated character class: the characters
    of the class stay. *)
Definition re_sub_outside (class : N -> bool) (s : str) : str :=
  filter class s.

(** [re.sub(r"\s+", " ", s)]: [in_run] says that the previous character was
    whitespace, whose run has been replaced already. *)
Fixpoint sub_spaces_from (s : str) (in_run : bool) : str :=
  match s with
  | [] => []
  | c :: r =>
      if isspace c then
        if in_run then sub_spaces_from r true else 32%N :: sub_spaces_from r true
      else c :: sub_spaces_from r false
  end.

Definition sub_spaces (s : str) : str := sub_spaces_from s false.

(** [s.lstrip()], [s.rstrip()] and [s.strip()]. *)
Fixpoint lstrip (s : str) : str :=
  match s with
  | [] => []
  | c :: r => if isspace c then lstrip r else s
  end.

Fixpoint rstrip (s : str) : str :=
  match s with
  | [] => []
  | c :: r =>
      match rstrip r with
      | [] => if isspace c then [] else [c]
      | r' => c :: r'
      end
  end.

Definition strip (s : str) : str := rstrip (lstrip s).

(** [s.split()]: the maximal runs of characters that are not whitespace;
    [word] is the run being read, last character first. *)
Fixpoint split_from (s : str) (word : str) : list str :=
  match s with
  | [] =>
      match word with
      | [] => []
      | _ => [rev word]
      end
  | c :: r =>
      if isspace c then
        match word with
        | [] => split_from r []
        | _ => rev word :: split_from r []
        end
      else split_from r (c :: word)
  end.

Definition split (s : str) : list str := split_from s [].

(** [sep.join(words)]. *)
Fixpoint join (sep : str) (words : list str) : str :=
  match words with
  | [] => []
  | w :: r =>
      match r with
      | [] => w
      | _ => (w ++ sep ++ join sep r)%list
      end
  end.

(** The case mappings of [str], which follow the Unicode database of the
    interpreter: [s.lower()], [s.upper()], [s.title()] and
    [s.capitalize()]. *)
Record casing : Type := {
  lower : str -> str;
  upper : str -> str;
  title : str -> str;
  capitalize : str -> str
}.

End PyText.

(* ================================================================== *)
(** * strings.py                                                       *)
(* ================================================================== *)

Module strings.

Import PyText.

(** The class [a-zA-Z0-9]. *)
Definition alnum (c : N) : bool :=
  ((97 <=? c) && (c <=? 122) || (65 <=? c) && (c <=? 90)
   || (48 <=? c) && (c <=? 57))%N.

(** The class [a-zA-Z0-9\s] extended with [re.escape(keep_chars)]: escaped,
    every character of [keep_chars] stands for itself. *)
Definition clean_text_class (keep_chars : str) (c : N) : bool :=
  alnum c || isspace c || existsb (N.eqb c) keep_chars.

(** The class [\x20-\x7E]. *)
Definition english_class (c : N) : bool :=
  ((32 <=? c) && (c <=? 126))%N.

Definition _clean_text_single (text : str) (keep_chars : str) : str :=
  if negb (truthy text) then []
  else re_sub_outside (clean_text_class keep_chars) text.

Definition _clean_space_single (text : str) : str :=
  if negb (truthy text) then []
  else strip (sub_spaces text).

Definition _strip_non_english_single (text : str) : str :=
  if negb (truthy text) then []
  else re_sub_outside english_class text.

Section Casing.
Variable U : casing.

Definition _string_start_case (text : str) : str :=
  join (of_string " ") (map (capitalize U) (split text)).

Definition _convert_case_single (text : str) (case : string) : str :=
  if String.eqb case "lower" then lower U text
  else if String.eqb case "upper" then upper U text
  else if String.eqb case "title" then title U text
  else if String.eqb case "start" then _string_start_case text
  else if String.eqb case "initcap" then capitalize U text
  else text.

(** The elements of [text] are texts, on which [str(s)] is the identity;
    [case] is [None] or a keyword. *)
Definition nstring (text : list str) (case : option string)
    (remove_specials : bool) (keep_chars : str) (ascii_only : bool) : list str :=
  map (fun s =>
         let s :=
           match case with
           | Some c => if Py.truthy c then _convert_case_single s c else s
           | None => s
           end in
         let s :=
           if remove_specials then re_sub_outside (clean_text_class keep_chars) s
           else s in
         let s := if ascii_only then re_sub_outside english_class s else s in
         strip (sub_spaces s))
      text.
End Casing.

End strings.

(* ================================================================== *)
(** * f.py: the inference of the format type                           *)
(* ================================================================== *)

Module f_py.

(** [sub in s] for two texts. *)
Fixpoint contains (sub s : string) : bool :=
  String.prefix sub s
  || match s with
     | EmptyString => false
     | String _ r => contains sub r
     end.

(** A numpy dtype, as far as [_infer_type] tells dtypes apart. *)
Inductive dtype : Type :=
| datetime64 (unit : option string)  (* [datetime64[unit]], or the generic
                                        [datetime64] *)
| number          (* a subtype of [np.number]: integers, floats, complex
                     and [timedelta64] *)
| character       (* [str_] and [bytes_] *)
| object_
| other.          (* [bool_], [void] *)

(** [str(dtype)] for a [datetime64] dtype. *)
Definition str_datetime64 (unit : option string) : string :=
  match unit with
  | None => "datetime64"
  | Some u => "datetime64[" ++ u ++ "]"
  end.

(** The argument of [_infer_type], as far as the function looks at it. *)
Inductive any : Type :=
| a_datetime                        (* a [datetime.datetime] *)
| a_datetime64 (unit : option string)  (* a [np.datetime64] scalar *)
| a_date                            (* a [datetime.date] that is no
                                       [datetime.datetime] *)
| a_array (dt : result dtype).      (* anything else: the dtype of
                                       [np.asanyarray(x)], or the exception
                                       the conversion raises *)

Definition _infer_type (x : any) : result string :=
  match x with
  | a_datetime => Ok "ts"
  | a_datetime64 unit =>
      if contains "datetime64[D]" (str_datetime64 unit) then Ok "date"
      else Ok "ts"
  | a_date => Ok "date"
  | a_array r =>
      dt <- r ;;
      match dt with
      | datetime64 unit =>
          if contains "[D]" (str_datetime64 unit) then Ok "date" else Ok "ts"
      | number => Ok "number"
      | character | object_ => Ok "string"
      | other => Ok "string"
      end
  end.

End f_py.

(* ================================================================== *)
(** * Element-wise readings of the formatters                          *)
(* ================================================================== *)

(** The formatters work on whole arrays.  The definitions of this part say
    what one element of the result is, in the words of the specification;
    the theorems below relate the array code to them. *)

Import numbers dates.

(** ** Numbers *)

(** The unit labels of a call: none, thousand, million, billion,
    trillion. *)
Definition labels_of (unit_labels : list (string * string)) : list string :=
  [""; dict_get unit_labels "thousand" "K"; dict_get unit_labels "million" "Mn";
   dict_get unit_labels "billion" "Bn"; dict_get unit_labels "trillion" "Tn"].

(** The scale factors 1, 1e-3, 1e-6, 1e-9, 1e-12. *)
Definition factors : list np.float :=
  [np.of_Z 1; np.lit_1e_minus 3; np.lit_1e_minus 6; np.lit_1e_minus 9;
   np.lit_1e_minus 12].

(** The unit keywords [nnumber] accepts. *)
Definition recognized_unit (unit : string) (unit_labels : list (string * string)) : Prop :=
  unit = "auto" \/ unit = "custom" \/ In unit (labels_of unit_labels).

(** The distinct values of a batch, as [np.unique] orders them. *)
Definition distinct_values (batch : list np.float) : list np.float :=
  fst (np.unique_float batch).

(** The distinct value that stands for [x] in the batch [xs]:
    [distinct[inverse[i]]] for a position [i] holding [x]. *)
Definition representative (xs : list np.float) (x : np.float) : np.float :=
  let uvals := fst (np.unique_float xs) in
  nth (np.find_index np.float_same x uvals) uvals x.

Definition is_zero (x : np.float) : bool :=
  match x with
  | S754_zero _ => true
  | _ => false
  end.

(** bucket(v) = clamp(floor(log10(|v|) / 3), 0, 4), as the code computes
    it: the logarithm of the library, a float64 division, [np.floor],
    [astype(int)] and [np.clip]. *)
Definition bucket (log10 : np.float -> np.float) (v : np.float) : Z :=
  np.clip (np.astype_int (np.floor (np.div (log10 (np.abs v)) (np.of_Z 3)))) 0 4.

(** The bucket of a value on its own: zero and non-finite values get 0. *)
Definition custom_bucket (log10 : np.float -> np.float) (v : np.float) : nat :=
  if nonzero_finite v then Z.to_nat (bucket log10 v) else O.

(** [k] is the most frequent element of [l], the smallest one among the
    most frequent. *)
Definition is_mode (k : nat) (l : list Z) : Prop :=
  (forall j : nat,
      (count_occ Z.eq_dec l (Z.of_nat j) <= count_occ Z.eq_dec l (Z.of_nat k))%nat)
  /\ (forall j : nat,
         (j < k)%nat ->
         (count_occ Z.eq_dec l (Z.of_nat j) < count_occ Z.eq_dec l (Z.of_nat k))%nat).

(** The buckets of the non-zero finite values of a list. *)
Definition buckets_of (log10 : np.float -> np.float) (vs : list np.float) : list Z :=
  map (bucket log10) (filter nonzero_finite vs).

(** The bucket [nnumber] picks in unit mode [auto] for the values it is
    handed: the first most frequent bucket of the non-zero finite ones. *)
Definition auto_bucket (log10 : np.float -> np.float) (xs : list np.float) : nat :=
  if negb (np.any (map nonzero_finite xs)) then O
  else np.argmax (np.bincount (map (bucket log10) (filter nonzero_finite xs))).

(** The grouping separator put in place of the comma. *)
Definition regroup (thousand_separator : string) (s : string) : string :=
  if String.eqb thousand_separator "," then s
  else if String.eqb thousand_separator "." then
    Py.replace "X" "." (Py.replace "." "," (Py.replace "," "X" s))
  else Py.replace "," thousand_separator s.

Definition unit_suffix (label : string) : string :=
  if String.eqb label "" then "" else " " ++ label.

(** One number scaled by the unit of bucket [k] and rendered. *)
Definition render_number (unit_labels : list (string * string)) (digits : nat)
    (prefix suffix thousand_separator : string) (k : nat) (v : np.float) : string :=
  prefix
  ++ regroup thousand_separator
       (np.format_f false true digits (np.mul v (nth k factors zero)))
  ++ unit_suffix (nth k (labels_of unit_labels) "")
  ++ suffix.

(** The literal token of a non-finite value. *)
Definition token (v : np.float) : string :=
  match v with
  | S754_infinity true => "-inf"
  | S754_infinity false => "inf"
  | _ => "nan"
  end.

(** The value [np.asanyarray(.., dtype=float)] gives an element that is not
    a text. *)
Definition value_of (o : pyobj) : np.float :=
  match o with
  | PyFloat x => x
  | _ => np.nan
  end.

Definition is_text (o : pyobj) : bool :=
  match o with
  | PyStr _ => true
  | _ => false
  end.

(** The default unit labels of [nnumber]. *)
Definition default_labels : list (string * string) :=
  [("thousand", "K"); ("million", "Mn"); ("billion", "Bn"); ("trillion", "Tn")].

(** The place of a float in the order [np.unique] sorts by: the class of
    the value (negative infinity, negative, zero, positive, positive
    infinity, NaN), then exponent and mantissa as the comparison of floats
    reads them.  The zeros of both signs share one place. *)
Definition sort_key (x : np.float) : Z * Z * Z :=
  match x with
  | S754_nan => (3, 0, 0)
  | S754_infinity false => (2, 0, 0)
  | S754_infinity true => (-2, 0, 0)
  | S754_zero _ => (0, 0, 0)
  | S754_finite false m e => (1, e, Zpos m)
  | S754_finite true m e => (-1, - e, - Zpos m)
  end.

(** The lexicographic order of the places. *)
Definition key_lt (a b : Z * Z * Z) : Prop :=
  fst (fst a) < fst (fst b)
  \/ (fst (fst a) = fst (fst b)
      /\ (snd (fst a) < snd (fst b)
          \/ (snd (fst a) = snd (fst b) /\ snd a < snd b))).

Definition key_le (a b : Z * Z * Z) : Prop := a = b \/ key_lt a b.

(** ** Percentages *)

(** The growth-factor annotation of the ratio [g]. *)
Definition growth_label (g : np.float) : string :=
  if np.ge g (np.of_Z 1) then
    " (" ++ np.format_f false false 1 (np.abs g) ++ "x Growth)"
  else if np.le g (np.of_Z (-1)) then
    " (" ++ np.format_f false false 1 (np.abs g) ++ "x Drop)"
  else if np.eq g zero then " (Flat)"
  else if np.gt g zero then " (Growth)"
  else " (Drop)".

(** The basis-points annotation of the percentage [x]. *)
Definition bps_label (x : np.float) : string :=
  let b := np.mul x (np.of_Z 100) in
  " (" ++ (if np.ne b zero then np.format_f true false 0 b else "0") ++ " bps)".

(** One element of the result of [npercent], for the percentage [x]: the
    code appends the basis-points annotation twice. *)
Definition percent_text (digits : nat)
    (show_plus_sign show_growth_factor show_bps : bool) (x : np.float) : string :=
  (if show_plus_sign && np.gt x zero then "+" else "")
  ++ np.format_f false false digits x ++ "%"
  ++ (if show_growth_factor then growth_label (np.div x (np.of_Z 100)) else "")
  ++ (if show_bps then bps_label x ++ bps_label x else "").

(** ** Dates and timestamps *)

(** [P] holds for [fuel] successive integers from [z]. *)
Fixpoint holds_from (fuel : nat) (P : Z -> bool) (z : Z) : bool :=
  match fuel with
  | O => true
  | S f => P z && holds_from f P (z + 1)
  end.

(** Two and four decimal digits, as characters. *)
Definition two_chars (n : Z) : string :=
  String (digit_char (n / 10)) (String (digit_char (n mod 10)) "").

Definition four_chars (n : Z) : string :=
  String (digit_char (n / 1000))
    (String (digit_char (n / 100 mod 10)) (two_chars (n mod 100))).


Definition weekday_table : list string :=
  ["Mon"; "Tue"; "Wed"; "Thu"; "Fri"; "Sat"; "Sun"].

(** table[(epoch_day + 3) mod 7]. *)
Definition weekday_name (epoch_day : Z) : string :=
  nth (Z.to_nat ((epoch_day + 3) mod 7)) weekday_table "".

(** The prefix for diff = today - date, in whole days. *)
Definition relative_prefix (diff : Z) : string :=
  if diff =? 0 then "Today, "
  else if diff =? 1 then "Yesterday, "
  else if (2 <=? diff) && (diff <=? 8) then "Last "
  else if diff =? -1 then "Tomorrow, "
  else if (-8 <=? diff) && (diff <=? -2) then "Coming "
  else "".

(** One element of the result of [nday], in exact arithmetic. *)
Definition day_text (show_relative_day : bool) (today : Z) (d : np.datetime64) : string :=
  match d with
  | np.NaT => "NaT"
  | np.DT v =>
      (if show_relative_day then relative_prefix (today - v) else "")
      ++ weekday_name v
  end.

(** The weekday name as the code computes it: the sum [epoch_day + 3] is
    an int64. *)
Definition weekday_name_int64 (epoch_day : Z) : string :=
  nth (Z.to_nat (np.int64 (epoch_day + 3) mod 7)) weekday_table "".

(** One element of the result of [nday], as the code computes it: the sum
    and the difference are int64. *)
Definition day_text_int64 (show_relative_day : bool) (today : Z) (d : np.datetime64)
    : string :=
  match d with
  | np.NaT => "NaT"
  | np.DT v =>
      (if show_relative_day then relative_prefix (np.int64 (today - v)) else "")
      ++ weekday_name_int64 v
  end.

(** A day count within [2^62] days of the epoch: its sum with 3 and its
    difference with the day of the clock are int64. *)
Definition day_in_range (v : Z) : Prop := - 2 ^ 62 < v < 2 ^ 62.

Definition year_of (days : Z) : Z := fst (fst (np.civil_of_days days)).
Definition month_of (days : Z) : Z := snd (fst (np.civil_of_days days)).
Definition day_of (days : Z) : Z := snd (np.civil_of_days days).

(** The year is written with four digits in an ISO date. *)
Definition four_digit_year (days : Z) : Prop :=
  0 <= year_of days <= 9999.

Definition month_name (m : Z) : string :=
  nth (Z.to_nat m) months_full "".

(** "<Mon> <DD>, <YYYY>". *)
Definition long_date (days : Z) : string :=
  month_name (month_of days) ++ " " ++ fmt_0d 2 (day_of days) ++ ", "
  ++ fmt_0d 4 (year_of days).

(** One valid element of the result of [ndate]. *)
Definition date_text (show_weekday show_month_year : bool) (days : Z) : string :=
  if show_month_year then
    month_name (month_of days) ++ "'" ++ fmt_0d 2 (year_of days mod 100)
  else
    long_date days
    ++ (if show_weekday then " (" ++ weekday_name days ++ ")" else "").

Definition hour_of (secs : Z) : Z := secs mod 86400 / 3600.
Definition minute_of (secs : Z) : Z := secs mod 86400 mod 3600 / 60.
Definition second_of (secs : Z) : Z := secs mod 86400 mod 60.

(** Hour 0 is 12, hours 1 to 12 stay, hours 13 to 23 lose 12. *)
Definition hour12 (h : Z) : Z :=
  if h =? 0 then 12 else if 12 <? h then h - 12 else h.

(** One valid element of the result of [ntimestamp]: date, hour, minute,
    second, AM/PM marker, weekday, in this order. *)
Definition timestamp_text
    (show_weekday show_date show_hours show_minutes show_seconds : bool)
    (secs : Z) : string :=
  (if show_date then long_date (secs / 86400) ++ " " else "")
  ++ (if show_hours then fmt_0d 2 (hour12 (hour_of secs)) ++ "H" else "")
  ++ (if show_minutes then " " ++ fmt_0d 2 (minute_of secs) ++ "M" else "")
  ++ (if show_seconds then " " ++ fmt_0d 2 (second_of secs) ++ "S" else "")
  ++ (if 12 <=? hour_of secs then " PM" else " AM")
  ++ (if show_weekday then " (" ++ weekday_name (secs / 86400) ++ ")" else "").

(** One element of the result of [ndate]. *)
Definition date_cell_text (show_weekday show_month_year : bool) (d : np.datetime64) : string :=
  match d with
  | np.NaT => "NaT"
  | np.DT v => date_text show_weekday show_month_year v
  end.

(** One element of the result of [ntimestamp]. *)
Definition timestamp_cell_text
    (show_weekday show_date show_hours show_minutes show_seconds : bool)
    (d : np.datetime64) : string :=
  match d with
  | np.NaT => "NaT"
  | np.DT v =>
      timestamp_text show_weekday show_date show_hours show_minutes show_seconds v
  end.

(** [~np.isnat(x)] for one element. *)
Definition valid (d : np.datetime64) : bool := negb (np.isnat d).

(** What the conversion makes of a readable element. *)
Definition to_datetime64 (cl : cell) : np.datetime64 :=
  match cl with
  | CInstant v => np.DT v
  | _ => np.NaT
  end.

(** The element is a text that cannot be read as a date. *)
Definition is_ctext (cl : cell) : bool :=
  match cl with
  | CText _ => true
  | _ => false
  end.

(** The string holds the character [c]. *)
Fixpoint has_char (c : ascii) (s : string) : bool :=
  match s with
  | EmptyString => false
  | String x r => Ascii.eqb x c || has_char c r
  end.

(** The array a date formatter works on once the input is normalized:
    [None] when the conversion of the batch fails. *)
Definition normalized (x : array) : option (list np.datetime64) :=
  match astype_datetime64 x with
  | Ok (Datetime64 a) => Some a
  | _ => None
  end.

(** Element [i] of the batch cannot be read as a date at all. *)
Definition unreadable_at (x : array) (i : nat) : Prop :=
  match x with
  | Datetime64 _ => False
  | Object a => exists s, nth_error a i = Some (CText s)
  end.

(** Element [i] of the batch is not-a-time. *)
Definition not_a_time_at (x : array) (i : nat) : Prop :=
  match x with
  | Datetime64 a => nth_error a i = Some np.NaT
  | Object a => nth_error a i = Some CNone
  end.

(** Element [i] of the batch fails normalization. *)
Definition fails_normalization (x : array) (i : nat) : Prop :=
  unreadable_at x i \/ not_a_time_at x i.

(** The batch holds an element that cannot be read as a date. *)
Definition has_unreadable (x : array) : Prop :=
  exists i, unreadable_at x i.

(** The valid day counts of a normalized batch. *)
Definition instants (a : list np.datetime64) : list Z :=
  flat_map (fun d => match d with np.NaT => [] | np.DT v => [v] end) a.

(** ** Separators *)

(** A decimal digit. *)
Definition digit (c : ascii) : bool :=
  match digit_val c with
  | Some _ => true
  | None => false
  end.

(** Every character of [s] satisfies [P]. *)
Definition all_chars (P : ascii -> bool) (s : string) : bool :=
  forallb P (np.list_of_string s).

(** The text with its commas and points exchanged. *)
Definition swap_char (c : ascii) : ascii :=
  if Ascii.eqb c "," then "."%char
  else if Ascii.eqb c "." then ","%char
  else c.

Fixpoint swap_separators (s : string) : string :=
  match s with
  | EmptyString => EmptyString
  | String c r => String (swap_char c) (swap_separators r)
  end.

(** The characters of a formatted number. *)
Definition number_char (c : ascii) : bool :=
  digit c || Ascii.eqb c "," || Ascii.eqb c "." || Ascii.eqb c "-"
  || Ascii.eqb c "n" || Ascii.eqb c "a" || Ascii.eqb c "i" || Ascii.eqb c "f".

(** The sign bit of a float is clear, and the float is a number. *)
Definition positive_sign (v : np.float) : bool :=
  match v with
  | S754_zero s | S754_infinity s | S754_finite s _ _ => negb s
  | S754_nan => false
  end.

(** The bucket [nnumber] gives the distinct value [u] of a batch of values
    [xs]: the batch-wide one in unit mode [auto], its own in [custom], and
    the one of the label for a fixed unit. *)
Definition unit_bucket (log10 : np.float -> np.float) (unit : string)
    (unit_labels : list (string * string)) (xs : list np.float) (u : np.float) : nat :=
  if String.eqb unit "auto" then auto_bucket log10 xs
  else if String.eqb unit "custom" then custom_bucket log10 u
  else Py.index (labels_of unit_labels) unit.

(** ** Texts *)

(** Every whitespace character of [s] is one U+0020 that does not follow
    another whitespace character; [after_space] says that the character
    before [s] was whitespace. *)
Fixpoint single_spaced (s : PyText.str) (after_space : bool) : bool :=
  match s with
  | [] => true
  | c :: r =>
      if PyText.isspace c then
        negb after_space && (c =? 32)%N && single_spaced r true
      else single_spaced r false
  end.

(** The first character of a text, and its last one, is whitespace. *)
Definition starts_with_space (s : PyText.str) : bool :=
  match s with
  | [] => false
  | c :: _ => PyText.isspace c
  end.

Fixpoint ends_with_space (s : PyText.str) : bool :=
  match s with
  | [] => false
  | [c] => PyText.isspace c
  | _ :: r => ends_with_space r
  end.

(** What [nstring] does to one text once its case is settled, in terms of
    the single-text helpers of the module. *)
Definition cleaned (remove_specials : bool) (keep_chars : PyText.str)
    (ascii_only : bool) (s : PyText.str) : PyText.str :=
  let s := if remove_specials then strings._clean_text_single s keep_chars else s in
  let s := if ascii_only then strings._strip_non_english_single s else s in
  strings._clean_space_single s.

(** The case mappings on texts of ASCII characters, which is all the tests
    of the repository use: the letters are [A-Z] and [a-z], and every other
    character is left as it is. *)
Definition ascii_upper_char (c : N) : N :=
  if ((97 <=? c) && (c <=? 122))%N then (c - 32)%N else c.

Definition ascii_lower_char (c : N) : N :=
  if ((65 <=? c) && (c <=? 90))%N then (c + 32)%N else c.

Definition ascii_letter (c : N) : bool :=
  ((97 <=? c) && (c <=? 122) || (65 <=? c) && (c <=? 90))%N.

Fixpoint ascii_title_from (s : PyText.str) (previous_is_cased : bool) : PyText.str :=
  match s with
  | [] => []
  | c :: r =>
      (if previous_is_cased then ascii_lower_char c else ascii_upper_char c)
      :: ascii_title_from r (ascii_letter c)
  end.

Definition ascii_casing : PyText.casing :=
  {| PyText.lower := map ascii_lower_char;
     PyText.upper := map ascii_upper_char;
     PyText.title := fun s => ascii_title_from s false;
     PyText.capitalize := fun s =>
       match s with
       | [] => []
       | c :: r => ascii_upper_char c :: map ascii_lower_char r
       end |}.

(** ** Inputs of the tests of the repository *)

(** The number written [n / 10^k] in decimal, as Python reads it: the
    nearest float64 (for [|n| < 2^53], the quotient of two exact floats). *)
Definition decimal (n : Z) (k : nat) : pyobj :=
  PyFloat (np.div (np.of_Z n) (np.of_Z (10 ^ Z.of_nat k))).

Definition integer (n : Z) : pyobj := PyFloat (np.of_Z n).

(** A [datetime64] array of valid counts. *)
Definition datetime64_array (counts : list Z) : array :=
  Datetime64 (map np.DT counts).

(** A clock that stands still on day [d] (on the nearest day within
    [2^62] days of the epoch). *)
Definition clock_at (d : Z) : clock.
Proof.
  refine {| today_at := fun _ => Z.max (- 2 ^ 62) (Z.min (2 ^ 62) d) |}.
  intros _. lia.
Defined.

(** How often [den] can be multiplied by 10 without exceeding [num],
    counted from [k]; and how often [num] must be, to reach [den]. *)
Fixpoint tens_up (fuel : nat) (num den k : Z) : Z :=
  match fuel with
  | O => k
  | S f => if 10 * den <=? num then tens_up f num (10 * den) (k + 1) else k
  end.

Fixpoint tens_down (fuel : nat) (num den k : Z) : Z :=
  match fuel with
  | O => k
  | S f => if den <=? num then k else tens_down f (10 * num) den (k - 1)
  end.

(** A logarithm to evaluate examples with: the decimal logarithm rounded
    down to a whole number.  It is exact at the powers of ten, and
    [floor(log10_whole(a) / 3)] is the floor of the third of the exact
    logarithm of [a]. *)
Definition log10_whole (x : np.float) : np.float :=
  match x with
  | S754_zero _ => S754_infinity true
  | S754_infinity false => x
  | S754_finite false m e =>
      let num := if 0 <=? e then Zpos m * 2 ^ e else Zpos m in
      let den := if 0 <=? e then 1 else 2 ^ (- e) in
      np.of_Z (if den <=? num then tens_up 400 num den 0
               else tens_down 400 num den 0)
  | _ => np.nan
  end.

(* ================================================================== *)
(** * Array operations as element-wise maps                            *)
(* ================================================================== *)

Lemma holds_from_spec (fuel : nat) (P : Z -> bool) :
  forall z0, holds_from fuel P z0 = true ->
             forall z, z0 <= z < z0 + Z.of_nat fuel -> P z = true.
Proof.
  induction fuel as [|f IH]; intros z0 H z Hz.
  - lia.
  - cbn [holds_from] in H. apply andb_true_iff in H. destruct H as [H0 H1].
    destruct (Z.eq_dec z z0) as [-> | Hne]; [exact H0|].
    apply (IH (z0 + 1) H1). lia.
Qed.

(** A property checked on every natural number below a bound holds below
    it. *)
Lemma forall_below (P : Z -> bool) (n : Z) :
  holds_from (Z.to_nat n) P 0 = true ->
  forall z, 0 <= z < n -> P z = true.
Proof.
  intros H z Hz. apply (holds_from_spec _ _ 0 H). lia.
Qed.

Lemma mapM_ok {A B : Type} (f : A -> result B) (g : A -> B) (xs : list A) :
  (forall x, In x xs -> f x = Ok (g x)) -> mapM f xs = Ok (map g xs).
Proof.
  induction xs as [|x r IH]; intros H; simpl.
  - reflexivity.
  - rewrite (H x (or_introl eq_refl)). simpl.
    rewrite IH by (intros y Hy; apply H; now right).
    reflexivity.
Qed.

Lemma mapM_raise {A B : Type} (f : A -> result B) (xs : list A) (e : error) :
  (forall x, In x xs -> f x = Raise e \/ exists y, f x = Ok y) ->
  (exists x, In x xs /\ f x = Raise e) ->
  mapM f xs = Raise e.
Proof.
  induction xs as [|x r IH]; intros Hall [x0 [Hin Hx0]].
  - destruct Hin.
  - simpl. destruct (Hall x (or_introl eq_refl)) as [Hx | [y Hy]].
    + now rewrite Hx.
    + rewrite Hy. simpl.
      destruct Hin as [-> | Hin]; [congruence|].
      rewrite IH; [reflexivity| |].
      * intros z Hz. apply Hall. now right.
      * now exists x0.
Qed.

Lemma full_as_map {A B : Type} (v : B) (l : list A) :
  np.full (List.length l) v = map (fun _ => v) l.
Proof.
  unfold np.full. induction l as [|x r IH]; simpl; [reflexivity|now rewrite IH].
Qed.

Lemma map2_map {A B C D : Type} (f : B -> C -> D) (g : A -> B) (h : A -> C) (l : list A) :
  np.map2 f (map g l) (map h l) = map (fun x => f (g x) (h x)) l.
Proof.
  induction l as [|x r IH]; simpl; [reflexivity|now rewrite IH].
Qed.

Lemma char_add_map {A : Type} (g h : A -> string) (l : list A) :
  np.char_add (map g l) (map h l) = map (fun x => g x ++ h x) l.
Proof. apply map2_map. Qed.

Lemma where_map {A B : Type} (c : A -> bool) (a b : A -> B) (l : list A) :
  np.where_ (map c l) (map a l) (map b l) = map (fun x => if c x then a x else b x) l.
Proof.
  induction l as [|x r IH]; simpl; [reflexivity|now rewrite IH].
Qed.

Lemma put_mask_scalar_map {A B : Type} (c : A -> bool) (a : A -> B) (v : B) (l : list A) :
  np.put_mask_scalar (map a l) (map c l) v = map (fun x => if c x then v else a x) l.
Proof.
  induction l as [|x r IH]; simpl; [reflexivity|now rewrite IH].
Qed.

Lemma any_map_false {A : Type} (p : A -> bool) (l : list A) :
  np.any (map p l) = false -> forall x, In x l -> p x = false.
Proof.
  unfold np.any. induction l as [|y r IH]; simpl; intros H x Hin.
  - destruct Hin.
  - apply orb_false_iff in H. destruct H as [Hy Hr].
    destruct Hin as [<- | Hin]; [exact Hy | now apply IH].
Qed.

Lemma boolean_index_filter {A : Type} (p : A -> bool) (l : list A) :
  np.boolean_index l (map p l) = filter p l.
Proof.
  induction l as [|x r IH]; simpl; [reflexivity|].
  destruct (p x); now rewrite IH.
Qed.

(** [a[mask] = f(x[mask])] on an array filled with [d]: the masked
    positions get their image, the others keep [d]. *)
Lemma put_mask_map {A B : Type} (p : A -> bool) (f : A -> B) (d : B) (l : list A) :
  np.put_mask (map (fun _ => d) l) (map p l) (map f (filter p l))
  = map (fun x => if p x then f x else d) l.
Proof.
  induction l as [|x r IH]; simpl; [reflexivity|].
  destruct (p x); simpl; now rewrite IH.
Qed.

Lemma take_map {A B : Type} (a : list B) (ix : A -> nat) (d : B) (l : list A) :
  (forall x, In x l -> (ix x < List.length a)%nat) ->
  np.take a (map ix l) = Ok (map (fun x => nth (ix x) a d) l).
Proof.
  intros H. unfold np.take.
  induction l as [|x r IH]; simpl; [reflexivity|].
  destruct (nth_error a (ix x)) as [y|] eqn:E.
  - simpl. rewrite IH by (intros z Hz; apply H; now right). simpl.
    now rewrite (nth_error_nth _ _ d E).
  - apply nth_error_None in E. specialize (H x (or_introl eq_refl)). lia.
Qed.

Lemma string_app_nil_r (s : string) : s ++ "" = s.
Proof. induction s as [|c r IH]; simpl; [reflexivity|now rewrite IH]. Qed.

Lemma string_app_assoc (a b c : string) : (a ++ b) ++ c = a ++ b ++ c.
Proof. induction a as [|x r IH]; simpl; [reflexivity|now rewrite IH]. Qed.

(* ================================================================== *)
(** * [np.unique]: every element has its distinct value                *)
(* ================================================================== *)

Section UniqueFacts.
Context {A : Type}.
Variable before : A -> A -> bool.
Variable same : A -> A -> bool.
Hypothesis same_refl : forall a, same a a = true.
Hypothesis same_trans :
  forall a b c, same a b = true -> same b c = true -> same a c = true.

Lemma in_insert (a y : A) (l : list A) :
  In y (np.insert before a l) <-> y = a \/ In y l.
Proof.
  induction l as [|b r IH]; simpl.
  - intuition.
  - destruct (before a b); simpl; rewrite ?IH; intuition.
Qed.

Lemma in_sort (y : A) (l : list A) : In y (np.sort before l) <-> In y l.
Proof.
  unfold np.sort.
  assert (G : forall acc, In y (fold_left (fun acc x => np.insert before x acc) l acc)
                          <-> In y acc \/ In y l).
  { induction l as [|x r IH]; intros acc; simpl.
    - intuition.
    - rewrite IH, in_insert. intuition. }
  rewrite G. simpl. intuition.
Qed.

Lemma uniq_from_covers (l : list A) :
  forall prev y, In y l ->
    same prev y = true \/ exists u, In u (np.uniq_from same prev l) /\ same u y = true.
Proof.
  induction l as [|x r IH]; intros prev y Hin; [destruct Hin|].
  simpl. destruct Hin as [<- | Hin].
  - destruct (same prev x) eqn:E; [now left|].
    right. exists x. split; [now left | apply same_refl].
  - destruct (IH x y Hin) as [Hxy | [u [Hu Huy]]].
    + destruct (same prev x) eqn:E.
      * left. now apply same_trans with x.
      * right. exists x. split; [now left | exact Hxy].
    + right. exists u. split; [|exact Huy].
      destruct (same prev x); [exact Hu | now right].
Qed.

Lemma uniq_covers (l : list A) (y : A) :
  In y l -> exists u, In u (np.uniq same l) /\ same u y = true.
Proof.
  destruct l as [|x r]; intros Hin; [destruct Hin|].
  simpl. destruct Hin as [<- | Hin].
  - exists x. split; [now left | apply same_refl].
  - destruct (uniq_from_covers r x y Hin) as [H | [u [Hu Huy]]].
    + exists x. split; [now left | exact H].
    + exists u. split; [now right | exact Huy].
Qed.

Lemma find_index_found (x : A) (us : list A) :
  (exists u, In u us /\ same u x = true) ->
  (np.find_index same x us < List.length us)%nat
  /\ forall d, same (nth (np.find_index same x us) us d) x = true.
Proof.
  induction us as [|u r IH]; intros [u0 [Hin Hs]]; [destruct Hin|].
  simpl. destruct (same u x) eqn:E.
  - split; [lia | intros d; exact E].
  - destruct Hin as [-> | Hin]; [congruence|].
    destruct IH as [Hlt Hnth]; [now exists u0|].
    split; [lia | exact Hnth].
Qed.

(** The invariant of the unique index: [distinct[inverse[i]]] is the
    value of [batch[i]]. *)
Lemma unique_inverse (ar : list A) (x : A) :
  In x ar ->
  let uvals := fst (np.unique before same ar) in
  (np.find_index same x uvals < List.length uvals)%nat
  /\ forall d, same (nth (np.find_index same x uvals) uvals d) x = true.
Proof.
  intros Hin. simpl. apply find_index_found.
  apply uniq_covers. now apply in_sort.
Qed.

Lemma unique_inverse_length (ar : list A) :
  List.length (snd (np.unique before same ar)) = List.length ar.
Proof. simpl. apply length_map. Qed.
End UniqueFacts.

(** ** Floats: what [np.unique] merges *)

Lemma SFeqb_true (a b : np.float) :
  np.eq a b = true -> a = b \/ (is_zero a = true /\ is_zero b = true).
Proof.
  unfold np.eq, SFeqb.
  destruct a as [sa|sa| |sa ma ea], b as [sb|sb| |sb mb eb]; simpl;
    try discriminate; try (now right); try (destruct sa; discriminate);
    try (destruct sb; discriminate).
  - destruct sa, sb; try discriminate; now left.
  - destruct sa, sb; try discriminate; intros H; left;
      destruct (Z.compare_spec ea eb) as [-> | |]; try discriminate;
      change (Pos.compare_cont Eq ma mb) with (Pos.compare ma mb) in H;
      destruct (Pos.compare_spec ma mb) as [-> | |]; try discriminate;
      reflexivity.
Qed.

Lemma float_same_true (a b : np.float) :
  np.float_same a b = true <-> a = b \/ (is_zero a = true /\ is_zero b = true).
Proof.
  unfold np.float_same. split.
  - intros H. apply orb_true_iff in H. destruct H as [H | H].
    + now apply SFeqb_true.
    + apply andb_true_iff in H. destruct H as [Ha Hb].
      destruct a, b; try discriminate. now left.
  - intros [<- | [Ha Hb]].
    + destruct a as [s|s| |s m e]; try reflexivity.
      * now destruct s.
      * unfold np.eq, SFeqb. simpl.
        change (Pos.compare_cont Eq m m) with (Pos.compare m m).
        destruct s; now rewrite Z.compare_refl, Pos.compare_refl.
    + destruct a, b; try discriminate. reflexivity.
Qed.

Lemma float_same_refl (a : np.float) : np.float_same a a = true.
Proof. apply float_same_true. now left. Qed.

Lemma float_same_trans (a b c : np.float) :
  np.float_same a b = true -> np.float_same b c = true -> np.float_same a c = true.
Proof.
  rewrite !float_same_true.
  intros [-> | [Ha Hb]] [<- | [Hb' Hc]]; auto.
Qed.

(** The distinct value of an element is the element itself, unless the
    element is a zero: [0.0] and [-0.0] are one value for [np.unique]. *)
Lemma representative_same (xs : list np.float) (x : np.float) :
  In x xs ->
  np.float_same (representative xs x) x = true
  /\ (is_zero x = false -> representative xs x = x).
Proof.
  intros Hin. unfold representative.
  destruct (unique_inverse np.float_before np.float_same float_same_refl
              float_same_trans xs x Hin) as [_ H].
  specialize (H x). split; [exact H|].
  intros Hz. apply float_same_true in H.
  destruct H as [H | [_ H]]; [exact H | congruence].
Qed.

Lemma in_uniq_from {A : Type} (same : A -> A -> bool) (l : list A) :
  forall prev u, In u (np.uniq_from same prev l) -> In u l.
Proof.
  induction l as [|x r IH]; intros prev u H; [destruct H|].
  cbn [np.uniq_from] in H. destruct (same prev x).
  - right. now apply (IH x).
  - destruct H as [<- | H]; [now left | right; now apply (IH x)].
Qed.

Lemma in_uniq {A : Type} (same : A -> A -> bool) (l : list A) (u : A) :
  In u (np.uniq same l) -> In u l.
Proof.
  destruct l as [|x r]; [auto|]. cbn [np.uniq].
  intros [<- | H]; [now left | right; now apply in_uniq_from in H].
Qed.

Lemma distinct_values_in (xs : list np.float) (u : np.float) :
  In u (distinct_values xs) -> In u xs.
Proof.
  unfold distinct_values, np.unique_float, np.unique. cbn [fst]. intros H.
  apply in_uniq in H. now apply in_sort in H.
Qed.

(** ** The distinct values are sorted, and no two of them are the same *)

Lemma key_lt_trans (a b c : Z * Z * Z) : key_lt a b -> key_lt b c -> key_lt a c.
Proof.
  destruct a as [[a1 a2] a3], b as [[b1 b2] b3], c as [[c1 c2] c3].
  unfold key_lt. cbn [fst snd]. lia.
Qed.

Lemma key_lt_irrefl (a : Z * Z * Z) : ~ key_lt a a.
Proof. destruct a as [[a1 a2] a3]. unfold key_lt. cbn [fst snd]. lia. Qed.

Lemma key_trichotomy (a b : Z * Z * Z) : a = b \/ key_lt a b \/ key_lt b a.
Proof.
  destruct a as [[a1 a2] a3], b as [[b1 b2] b3]. unfold key_lt. cbn [fst snd].
  destruct (Z.lt_trichotomy a1 b1) as [H | [-> | H]]; [lia | | lia].
  destruct (Z.lt_trichotomy a2 b2) as [H | [-> | H]]; [lia | | lia].
  destruct (Z.lt_trichotomy a3 b3) as [H | [-> | H]]; [lia | | lia].
  now left.
Qed.

Section SortedFacts.
Context {A : Type}.
Variable before : A -> A -> bool.
Variable same : A -> A -> bool.
Variable key : A -> Z * Z * Z.
Hypothesis before_key : forall a b, before a b = true <-> key_lt (key a) (key b).
Hypothesis same_key : forall a b, same a b = true <-> key a = key b.

Lemma insert_sorted (a : A) (l : list A) :
  StronglySorted (fun x y => key_le (key x) (key y)) l ->
  StronglySorted (fun x y => key_le (key x) (key y)) (np.insert before a l).
Proof.
  induction l as [|b r IH]; intros H; cbn [np.insert].
  - constructor; constructor.
  - inversion H as [|? ? Hr Hb]; subst. destruct (before a b) eqn:E.
    + apply before_key in E. constructor; [exact H|]. constructor.
      * now right.
      * apply (Forall_impl _ (P := fun y => key_le (key b) (key y))); [|exact Hb].
        intros y [Hy | Hy]; right; [now rewrite <- Hy|].
        now apply key_lt_trans with (key b).
    + constructor; [now apply IH|].
      apply Forall_forall. intros y Hy. apply in_insert in Hy.
      destruct Hy as [-> | Hy].
      * destruct (key_trichotomy (key b) (key a)) as [H1 | [H1 | H1]].
        -- now left.
        -- now right.
        -- apply before_key in H1. congruence.
      * rewrite Forall_forall in Hb. now apply Hb.
Qed.

Lemma sort_sorted (l : list A) :
  StronglySorted (fun x y => key_le (key x) (key y)) (np.sort before l).
Proof.
  unfold np.sort.
  assert (G : forall acc,
             StronglySorted (fun x y => key_le (key x) (key y)) acc ->
             StronglySorted (fun x y => key_le (key x) (key y))
               (fold_left (fun acc x => np.insert before x acc) l acc)).
  { induction l as [|x r IH]; intros acc H; cbn [fold_left]; [exact H|].
    apply IH. now apply insert_sorted. }
  apply G. constructor.
Qed.

Lemma uniq_from_sorted (l : list A) :
  forall prev,
    StronglySorted (fun x y => key_le (key x) (key y)) (prev :: l) ->
    StronglySorted (fun x y => key_lt (key x) (key y)) (np.uniq_from same prev l)
    /\ Forall (fun y => key_lt (key prev) (key y)) (np.uniq_from same prev l).
Proof.
  induction l as [|x r IH]; intros prev H; cbn [np.uniq_from].
  - split; constructor.
  - inversion H as [|? ? Hs Hf]; subst.
    destruct (IH x Hs) as [IH1 IH2].
    inversion Hf as [|? ? Hpx _]; subst.
    destruct (same prev x) eqn:E.
    + apply same_key in E. split; [exact IH1|]. now rewrite E.
    + assert (Hlt : key_lt (key prev) (key x)).
      { destruct Hpx as [Hpx | Hpx]; [|exact Hpx].
        apply same_key in Hpx. congruence. }
      split.
      * now constructor.
      * constructor; [exact Hlt|].
        apply (Forall_impl _ (P := fun y => key_lt (key x) (key y))); [|exact IH2].
        intros y Hy. now apply key_lt_trans with (key x).
Qed.

Lemma unique_sorted (l : list A) :
  StronglySorted (fun x y => key_lt (key x) (key y)) (fst (np.unique before same l)).
Proof.
  unfold np.unique. cbn [fst].
  pose proof (sort_sorted l) as H.
  destruct (np.sort before l) as [|x r]; cbn [np.uniq]; [constructor|].
  destruct (uniq_from_sorted r x H). now constructor.
Qed.

Lemma sorted_nth (l : list A) :
  StronglySorted (fun x y => key_lt (key x) (key y)) l ->
  forall i j u w,
    (i < j)%nat -> nth_error l i = Some u -> nth_error l j = Some w ->
    key_lt (key u) (key w).
Proof.
  induction 1 as [|x r Hs IH Hf]; intros i j u w Hij Hi Hj.
  - destruct i; discriminate.
  - destruct j as [|j]; [lia|]. cbn [nth_error] in Hj. destruct i as [|i].
    + cbn in Hi. inversion Hi. subst.
      rewrite Forall_forall in Hf. apply Hf. eapply nth_error_In; eauto.
    + cbn [nth_error] in Hi. apply (IH i j); [lia | exact Hi | exact Hj].
Qed.

(** Two positions of the distinct values hold values that [np.unique]
    tells apart. *)
Lemma unique_distinct (l : list A) (i j : nat) (u w : A) :
  nth_error (fst (np.unique before same l)) i = Some u ->
  nth_error (fst (np.unique before same l)) j = Some w ->
  i <> j -> same u w = false.
Proof.
  intros Hi Hj Hij. destruct (same u w) eqn:E; [|reflexivity].
  apply same_key in E. exfalso.
  destruct (Nat.lt_total i j) as [H | [H | H]]; [| contradiction |].
  - pose proof (sorted_nth _ (unique_sorted l) i j u w H Hi Hj) as C.
    rewrite E in C. now apply key_lt_irrefl in C.
  - pose proof (sorted_nth _ (unique_sorted l) j i w u H Hj Hi) as C.
    rewrite E in C. now apply key_lt_irrefl in C.
Qed.
End SortedFacts.

Lemma float_before_key (a b : np.float) :
  np.float_before a b = true <-> key_lt (sort_key a) (sort_key b).
Proof.
  unfold key_lt.
  destruct a as [sa|sa| |sa ma ea], b as [sb|sb| |sb mb eb];
    try destruct sa; try destruct sb;
    cbn [np.float_before np.lt SFltb SFcompare sort_key fst snd];
    try (split; [discriminate | lia]);
    try (split; [lia | reflexivity]).
  - change (Pos.compare_cont Eq ma mb) with (Pos.compare ma mb).
    destruct (Z.compare_spec ea eb); destruct (Pos.compare_spec ma mb);
      cbn [CompOpp]; split; intros; try discriminate; try reflexivity; lia.
  - change (Pos.compare_cont Eq ma mb) with (Pos.compare ma mb).
    destruct (Z.compare_spec ea eb); destruct (Pos.compare_spec ma mb);
      split; intros; try discriminate; try reflexivity; lia.
Qed.

Lemma float_same_key (a b : np.float) :
  np.float_same a b = true <-> sort_key a = sort_key b.
Proof.
  rewrite float_same_true. split.
  - intros [-> | [Ha Hb]]; [reflexivity|].
    destruct a, b; try discriminate. reflexivity.
  - destruct a as [sa|sa| |sa ma ea], b as [sb|sb| |sb mb eb];
      try destruct sa; try destruct sb; cbn [sort_key]; intros H;
      try discriminate; try (now left); try (right; now split).
    + inversion H. left. f_equal. lia.
    + inversion H. now left.
Qed.

(** The distinct values of a batch are values of the batch, every value of
    the batch is one of them up to [np.unique]'s comparison, and no two of
    them compare the same. *)
Lemma distinct_values_distinct (batch : list np.float) :
  (forall u, In u (distinct_values batch) -> In u batch)
  /\ (forall x, In x batch ->
        exists u, In u (distinct_values batch) /\ np.float_same u x = true)
  /\ (forall i j u w,
        nth_error (distinct_values batch) i = Some u ->
        nth_error (distinct_values batch) j = Some w ->
        i <> j -> np.float_same u w = false).
Proof.
  split; [apply distinct_values_in|]. split.
  - intros x Hx. unfold distinct_values, np.unique_float, np.unique. cbn [fst].
    apply (uniq_covers np.float_same float_same_refl float_same_trans).
    now apply in_sort.
  - intros i j u w. unfold distinct_values, np.unique_float.
    apply (unique_distinct np.float_before np.float_same sort_key
             float_before_key float_same_key).
Qed.

(* ================================================================== *)
(** * [nnumber], element by element                                   *)
(* ================================================================== *)

Lemma map2_map_r {A C D : Type} (f : A -> C -> D) (h : A -> C) (l : list A) :
  np.map2 f l (map h l) = map (fun x => f x (h x)) l.
Proof.
  induction l as [|x r IH]; simpl; [reflexivity|now rewrite IH].
Qed.

Lemma nth_map_in {A B : Type} (f : A -> B) (l : list A) (i : nat) (d : B) (d' : A) :
  (i < List.length l)%nat -> nth i (map f l) d = f (nth i l d').
Proof.
  intros H. rewrite (nth_indep _ d (f d')) by (now rewrite length_map).
  apply map_nth.
Qed.

Lemma custom_indices (log10 : np.float -> np.float) (uvals : list np.float) :
  (let nonzero := map nonzero_finite uvals in
   let indices := np.full (List.length uvals) O in
   if np.any nonzero then
     let limit := Z.of_nat (List.length [""; ""; ""; ""; ""]) - 1 in
     let vals := map (clipped_magnitude log10 limit) (np.boolean_index uvals nonzero) in
     np.put_mask indices nonzero (map Z.to_nat vals)
   else indices) = map (custom_bucket log10) uvals.
Proof.
  cbv zeta. rewrite full_as_map.
  destruct (np.any (map nonzero_finite uvals)) eqn:E.
  - rewrite boolean_index_filter, map_map.
    rewrite (put_mask_map nonzero_finite). reflexivity.
  - apply map_ext_in. intros u Hu. unfold custom_bucket.
    now rewrite (any_map_false _ _ E u Hu).
Qed.

Lemma labels_length ul : List.length (labels_of ul) = 5%nat.
Proof. reflexivity. Qed.

Lemma custom_bucket_bound log10 v : (custom_bucket log10 v < 5)%nat.
Proof.
  unfold custom_bucket, bucket, np.clip. destruct (nonzero_finite v); lia.
Qed.

Lemma index_in (l : list string) (x : string) :
  In x l -> (Py.index l x < List.length l)%nat /\ nth (Py.index l x) l "" = x.
Proof.
  induction l as [|y r IH]; intros H; [destruct H|].
  simpl. destruct (String.eqb_spec y x) as [-> | Hne].
  - split; [lia | reflexivity].
  - destruct H as [-> | H]; [congruence|].
    destruct (IH H). split; [lia | assumption].
Qed.

Lemma existsb_eqb_in (unit : string) (l : list string) :
  existsb (String.eqb unit) l = true <-> In unit l.
Proof.
  rewrite existsb_exists. split.
  - intros [x [Hin He]]. apply String.eqb_eq in He. now subst.
  - intros H. exists unit. split; [exact H | apply String.eqb_refl].
Qed.

Lemma argmax_from_bound xs : forall i best bi,
  (bi < i)%nat -> (np.argmax_from xs i best bi < i + List.length xs)%nat.
Proof.
  induction xs as [|x r IH]; intros i best bi H; simpl.
  - lia.
  - destruct (best <? x)%nat.
    + specialize (IH (S i) x i). lia.
    + specialize (IH (S i) best bi). lia.
Qed.

Lemma argmax_bound xs : xs <> [] -> (np.argmax xs < List.length xs)%nat.
Proof.
  destruct xs as [|x r]; [congruence|]. intros _. simpl.
  pose proof (argmax_from_bound r 1 x 0). lia.
Qed.

Lemma fold_max_bound (l : list Z) (hi : Z) :
  0 <= hi -> (forall x, In x l -> x <= hi) -> 0 <= fold_right Z.max 0 l <= hi.
Proof.
  intros Hhi. induction l as [|x r IH]; simpl; intros H.
  - lia.
  - assert (x <= hi) by (apply H; now left).
    assert (0 <= fold_right Z.max 0 r <= hi) by (apply IH; intros; apply H; now right).
    lia.
Qed.

Lemma bucket_range log10 v : 0 <= bucket log10 v <= 4.
Proof. unfold bucket, np.clip. lia. Qed.

Lemma auto_bucket_bound log10 xs : (auto_bucket log10 xs < 5)%nat.
Proof.
  unfold auto_bucket. destruct (negb _); [lia|].
  set (mx := map (bucket log10) (filter nonzero_finite xs)).
  assert (L : (List.length (np.bincount mx) <= 5)%nat).
  { unfold np.bincount. rewrite length_map, length_seq.
    assert (0 <= fold_right Z.max 0 mx <= 4).
    { apply fold_max_bound; [lia|]. intros x Hx. unfold mx in Hx.
      apply in_map_iff in Hx. destruct Hx as [v [<- _]]. apply bucket_range. }
    lia. }
  assert (np.bincount mx <> []).
  { unfold np.bincount. simpl. discriminate. }
  pose proof (argmax_bound _ H). lia.
Qed.

Lemma char_on_array_map {A : Type} (f : A -> string) (l : list A)
    (op : list string -> list string) :
  l <> [] -> np.char_on_array (map f l) op = Ok (op (map f l)).
Proof. destruct l; [congruence | reflexivity]. Qed.

Lemma distinct_values_not_nil (xs : list np.float) :
  xs <> [] -> fst (np.unique_float xs) <> [].
Proof.
  destruct xs as [|x r]; [congruence|]. intros _ E.
  destruct (unique_inverse np.float_before np.float_same float_same_refl
              float_same_trans (x :: r) x (or_introl eq_refl)) as [H _].
  unfold np.unique_float in E. rewrite E in H. cbn in H. lia.
Qed.

(** A batch that is not empty, element by element: [ix] gives the bucket
    of a distinct value. *)
Lemma nnumber_elementwise
    (log10 : np.float -> np.float)
    (number : list pyobj) (xs : list np.float) (digits : nat) (unit : string)
    (unit_labels : list (string * string)) (prefix suffix thousand_separator : string)
    (ix : np.float -> nat) :
  asanyarray_float number = Ok xs ->
  xs <> [] ->
  (unit = "auto" /\ ix = (fun _ => auto_bucket log10 xs))
  \/ (unit = "custom" /\ ix = custom_bucket log10)
  \/ (unit <> "auto" /\ unit <> "custom" /\ In unit (labels_of unit_labels)
      /\ ix = (fun _ => Py.index (labels_of unit_labels) unit)) ->
  nnumber log10 number digits unit unit_labels prefix suffix thousand_separator
  = Ok (map (fun x =>
               render_number unit_labels digits prefix suffix thousand_separator
                 (ix (representative xs x)) (representative xs x)) xs).
Proof.
  intros Hconv Hne Hmode.
  unfold nnumber. rewrite Hconv. cbn [Py.bind].
  fold (labels_of unit_labels). fold factors.
  match goal with |- Py.bind _ ?k = _ => set (tail := k) end.
  assert (Tail : forall (idx : nat) (fixed : bool),
             (forall u, (ix u < 5)%nat) ->
             (if fixed return Prop then ix = (fun _ => idx)
              else ix = custom_bucket log10) ->
             tail (idx, fixed)
             = Ok (map (fun x =>
                          render_number unit_labels digits prefix suffix
                            thousand_separator
                            (ix (representative xs x)) (representative xs x)) xs)).
  { intros idx fixed Hbound Hix. unfold tail. clear tail.
    pose proof (distinct_values_not_nil xs Hne) as Hun.
    unfold np.unique_float, np.unique in Hun |- *. cbn [fst] in Hun. cbv zeta.
    set (uvals := np.uniq np.float_same (np.sort np.float_before xs)) in *.
    assert (Hind :
              (if fixed then np.full (List.length uvals) idx
               else
                 if np.any (map nonzero_finite uvals) then
                   np.put_mask (np.full (List.length uvals) O)
                     (map nonzero_finite uvals)
                     (map Z.to_nat
                        (map (clipped_magnitude log10
                                (Z.of_nat (List.length (labels_of unit_labels)) - 1))
                           (np.boolean_index uvals (map nonzero_finite uvals))))
                 else np.full (List.length uvals) O)
              = map ix uvals).
    { destruct fixed.
      - rewrite Hix. apply full_as_map.
      - rewrite Hix. apply (custom_indices log10 uvals). }
    rewrite Hind. clear Hind.
    rewrite (take_map factors ix zero uvals)
      by (intros; apply Hbound).
    cbn [Py.bind].
    rewrite (take_map (labels_of unit_labels) ix "" uvals)
      by (intros; rewrite labels_length; apply Hbound).
    cbn [Py.bind].
    rewrite map2_map_r, !map_map.
    set (core := fun u : np.float =>
                   regroup thousand_separator
                     (np.format_f false true digits (np.mul u (nth (ix u) factors zero)))).
    match goal with
    | |- context [if negb (String.eqb thousand_separator ",") then ?a else ?b] =>
        replace (if negb (String.eqb thousand_separator ",") then a else b)
          with (Ok (map core uvals))
    end.
    2:{ unfold core, regroup, np.char_replace.
        destruct (String.eqb thousand_separator ","); cbn [negb].
        - reflexivity.
        - destruct (String.eqb thousand_separator ".");
            rewrite (char_on_array_map _ uvals _ Hun); cbn [Py.bind];
            now rewrite !map_map. }
    cbn [Py.bind].
    set (lab := fun u : np.float => nth (ix u) (labels_of unit_labels) "").
    match goal with
    | |- context [if np.any ?m then ?a else ?b] =>
        replace (if np.any m then a else b)
          with (map (fun u => core u ++ unit_suffix (lab u)) uvals)
    end.
    2:{ destruct (np.any _) eqn:E.
        - unfold np.char_add_l. rewrite length_map, full_as_map, !map_map.
          rewrite (where_map (fun u => negb (String.eqb (lab u) ""))
                     (fun u => " " ++ lab u) (fun _ => "")).
          rewrite char_add_map. apply map_ext. intros u. unfold unit_suffix.
          now destruct (String.eqb (lab u) "").
        - apply map_ext_in. intros u Hu.
          pose proof (any_map_false _ _ E u Hu) as Hf. cbv beta in Hf.
          unfold unit_suffix. fold (lab u).
          apply negb_false_iff in Hf. fold (lab u) in Hf. rewrite Hf.
          now rewrite string_app_nil_r. }
    match goal with
    | |- context [if truthy prefix || truthy suffix then ?a else ?b] =>
        replace (if truthy prefix || truthy suffix then a else b)
          with (Ok (map (fun u => render_number unit_labels digits prefix suffix
                                    thousand_separator (ix u) u) uvals))
    end.
    2:{ unfold render_number. fold core.
        destruct (truthy prefix || truthy suffix) eqn:E.
        - rewrite (char_on_array_map _ uvals _ Hun).
          unfold utils._sandwich, np.char_add_l, np.char_add_r. rewrite !map_map.
          f_equal. apply map_ext. intros u. fold (core u). fold (lab u).
          now rewrite !string_app_assoc.
        - apply orb_false_iff in E. destruct E as [Ep Es].
          destruct prefix; [|discriminate]. destruct suffix; [|discriminate].
          f_equal. apply map_ext. intros u. fold (core u). fold (lab u).
          cbn [String.append]. now rewrite string_app_nil_r. }
    cbn [Py.bind].
    rewrite (take_map _ (fun x => np.find_index np.float_same x uvals) "" xs).
    2:{ intros x Hx. rewrite length_map.
        apply (unique_inverse np.float_before np.float_same float_same_refl
                 float_same_trans xs x Hx). }
    f_equal. apply map_ext_in. intros x Hx.
    rewrite (nth_map_in _ uvals _ "" x).
    2:{ apply (unique_inverse np.float_before np.float_same float_same_refl
                 float_same_trans xs x Hx). }
    reflexivity. }
  destruct Hmode as [[Hu Hix] | [[Hu Hix] | [Hna [Hnc [Hin Hix]]]]].
  - subst unit. cbn [String.eqb Ascii.eqb Bool.eqb].
    cbn [Py.bind]. apply Tail.
    + intros u. rewrite Hix. apply auto_bucket_bound.
    + rewrite Hix. unfold auto_bucket.
      rewrite boolean_index_filter. reflexivity.
  - subst unit. cbn [String.eqb Ascii.eqb Bool.eqb]. cbn [Py.bind]. apply Tail.
    + intros u. rewrite Hix. apply custom_bucket_bound.
    + exact Hix.
  - apply String.eqb_neq in Hna, Hnc. rewrite Hna, Hnc.
    apply existsb_eqb_in in Hin as Hex. rewrite Hex. cbn [Py.bind]. apply Tail.
    + intros u. rewrite Hix. rewrite <- (labels_length unit_labels).
      now apply index_in.
    + exact Hix.
Qed.

(** The empty batch: with the separator "," and neither prefix nor suffix
    no string operation is applied to the array of the empty list, and the
    result is empty; otherwise the first such operation raises. *)
Lemma nnumber_empty
    (log10 : np.float -> np.float) (digits : nat) (unit : string)
    (unit_labels : list (string * string)) (prefix suffix thousand_separator : string) :
  recognized_unit unit unit_labels ->
  nnumber log10 [] digits unit unit_labels prefix suffix thousand_separator
  = if negb (String.eqb thousand_separator ",") || truthy prefix || truthy suffix
    then Raise TypeError else Ok [].
Proof.
  intros Hunit. unfold nnumber. cbn [asanyarray_float mapM Py.bind].
  fold (labels_of unit_labels).
  assert (Hmode : exists m,
             (if String.eqb unit "auto" then
                Ok (if negb (np.any (map nonzero_finite [])) then O
                    else np.argmax
                           (np.bincount
                              (map (clipped_magnitude log10
                                      (Z.of_nat (List.length (labels_of unit_labels)) - 1))
                                 (np.boolean_index [] (map nonzero_finite [])))), true)
              else if String.eqb unit "custom" then Ok (O, false)
              else if existsb (String.eqb unit) (labels_of unit_labels)
                   then Ok (Py.index (labels_of unit_labels) unit, true)
                   else Raise (ValueError "Invalid unit")) = Ok m).
  { destruct (String.eqb unit "auto") eqn:Ea; [eauto|].
    destruct (String.eqb unit "custom") eqn:Ec; [eauto|].
    destruct (existsb (String.eqb unit) (labels_of unit_labels)) eqn:El; [eauto|].
    exfalso. destruct Hunit as [H | [H | H]].
    - apply String.eqb_eq in H. congruence.
    - apply String.eqb_eq in H. congruence.
    - apply existsb_eqb_in in H. congruence. }
  destruct Hmode as [[idx fixed] Hm]. rewrite Hm. cbn [Py.bind].
  destruct fixed;
    destruct (String.eqb thousand_separator ","),
      (String.eqb thousand_separator "."), prefix, suffix; reflexivity.
Qed.

(** ** The mode of the buckets *)

Lemma argmax_from_spec (r : list nat) :
  forall (pre : list nat) (best bi : nat),
    (bi < List.length pre)%nat ->
    nth bi pre O = best ->
    (forall j, (j < List.length pre)%nat -> (nth j pre O <= best)%nat) ->
    (forall j, (j < bi)%nat -> (nth j pre O < best)%nat) ->
    let k := np.argmax_from r (List.length pre) best bi in
    let l := (pre ++ r)%list in
    (k < List.length l)%nat
    /\ (forall j, (j < List.length l)%nat -> (nth j l O <= nth k l O)%nat)
    /\ (forall j, (j < k)%nat -> (nth j l O < nth k l O)%nat).
Proof.
  induction r as [|x r IH]; intros pre best bi Hbi Hbest Hmax Hfirst; cbn zeta.
  - simpl. rewrite app_nil_r. rewrite Hbest. auto.
  - simpl np.argmax_from.
    assert (E : (pre ++ x :: r)%list = ((pre ++ [x]) ++ r)%list)
      by (now rewrite <- app_assoc).
    rewrite E.
    assert (L : List.length (pre ++ [x]) = S (List.length pre))
      by (rewrite length_app; simpl; lia).
    assert (Hpre : forall j, (j < List.length pre)%nat ->
                             nth j (pre ++ [x]) O = nth j pre O)
      by (intros j Hj; now rewrite app_nth1).
    assert (Hx : nth (List.length pre) (pre ++ [x]) O = x)
      by (rewrite app_nth2, Nat.sub_diag by lia; reflexivity).
    destruct (Nat.ltb_spec best x) as [Hlt | Hge].
    + rewrite <- L. apply IH.
      * lia.
      * exact Hx.
      * intros j Hj. rewrite L in Hj.
        destruct (Nat.eq_dec j (List.length pre)) as [-> | Hne].
        -- rewrite Hx. lia.
        -- rewrite Hpre by lia. specialize (Hmax j). lia.
      * intros j Hj. rewrite Hpre by lia. specialize (Hmax j). lia.
    + rewrite <- L. apply IH.
      * lia.
      * rewrite Hpre by lia. exact Hbest.
      * intros j Hj. rewrite L in Hj.
        destruct (Nat.eq_dec j (List.length pre)) as [-> | Hne].
        -- rewrite Hx. lia.
        -- rewrite Hpre by lia. apply Hmax. lia.
      * intros j Hj. rewrite Hpre by lia. now apply Hfirst.
Qed.

(** [np.argmax] returns the first position of the maximum. *)
Lemma argmax_spec (l : list nat) :
  l <> [] ->
  (np.argmax l < List.length l)%nat
  /\ (forall j, (j < List.length l)%nat -> (nth j l O <= nth (np.argmax l) l O)%nat)
  /\ (forall j, (j < np.argmax l)%nat -> (nth j l O < nth (np.argmax l) l O)%nat).
Proof.
  destruct l as [|x r]; [congruence|]. intros _.
  apply (argmax_from_spec r [x] x 0); simpl.
  - lia.
  - reflexivity.
  - intros j Hj. assert (j = 0)%nat by lia. subst. simpl. lia.
  - intros j Hj. lia.
Qed.

Lemma fold_max_ge (l : list Z) (x : Z) :
  In x l -> x <= fold_right Z.max 0 l.
Proof.
  induction l as [|y r IH]; simpl; intros H; [destruct H|].
  destruct H as [-> | H]; [lia|]. specialize (IH H). lia.
Qed.

(** [np.bincount] counts the occurrences of every value. *)
Lemma bincount_nth (xs : list Z) (j : nat) :
  (forall x, In x xs -> 0 <= x) ->
  nth j (np.bincount xs) O = count_occ Z.eq_dec xs (Z.of_nat j).
Proof.
  intros Hpos. unfold np.bincount.
  set (n := S (Z.to_nat (fold_right Z.max 0 xs))).
  destruct (Nat.lt_ge_cases j n) as [Hlt | Hge].
  - rewrite (nth_map_in _ (seq 0 n) j O O) by (now rewrite length_seq).
    now rewrite seq_nth.
  - rewrite nth_overflow by (now rewrite length_map, length_seq).
    symmetry. apply count_occ_not_In. intros Hin.
    pose proof (fold_max_ge xs _ Hin). pose proof (Hpos _ Hin). unfold n in Hge. lia.
Qed.

Lemma filter_nil_of_any_false {A : Type} (p : A -> bool) (l : list A) :
  np.any (map p l) = false -> filter p l = [].
Proof.
  intros H. induction l as [|x r IH]; [reflexivity|].
  simpl. rewrite (any_map_false p (x :: r) H x (or_introl eq_refl)).
  apply IH. unfold np.any in *. simpl in H. now apply orb_false_iff in H.
Qed.

(** In unit mode [auto] the bucket is the most frequent one among the
    non-zero finite values handed to [nnumber], the smallest in a tie. *)
Lemma auto_bucket_is_mode (log10 : np.float -> np.float) (xs : list np.float) :
  is_mode (auto_bucket log10 xs) (buckets_of log10 xs).
Proof.
  unfold auto_bucket, buckets_of.
  destruct (np.any (map nonzero_finite xs)) eqn:E; cbn [negb].
  - set (mx := map (bucket log10) (filter nonzero_finite xs)).
    assert (Hpos : forall x, In x mx -> 0 <= x).
    { intros x Hx. unfold mx in Hx. apply in_map_iff in Hx.
      destruct Hx as [v [<- _]]. apply bucket_range. }
    assert (Hne : np.bincount mx <> []) by (unfold np.bincount; simpl; discriminate).
    destruct (argmax_spec _ Hne) as [Hk [Hmax Hfirst]].
    split.
    + intros j. rewrite <- !bincount_nth by exact Hpos.
      destruct (Nat.lt_ge_cases j (List.length (np.bincount mx))) as [Hj | Hj].
      * now apply Hmax.
      * rewrite (nth_overflow _ _ Hj). lia.
    + intros j Hj. rewrite <- !bincount_nth by exact Hpos. now apply Hfirst.
  - rewrite (filter_nil_of_any_false _ _ E). unfold is_mode. simpl.
    split; intros; lia.
Qed.

(** Two modes of one list are equal: the selected bucket is determined by
    the counts. *)
Lemma is_mode_unique (l : list Z) (k k' : nat) :
  is_mode k l -> is_mode k' l -> k = k'.
Proof.
  intros [Hmax Hfirst] [Hmax' Hfirst'].
  destruct (Nat.lt_trichotomy k k') as [H | [H | H]]; [|exact H|].
  - specialize (Hfirst' k H). specialize (Hmax k'). lia.
  - specialize (Hfirst k' H). specialize (Hmax' k). lia.
Qed.

(* ================================================================== *)
(** * Properties of [nnumber]                                          *)
(* ================================================================== *)

Lemma mapM_length {A B : Type} (f : A -> result B) (xs : list A) (ys : list B) :
  mapM f xs = Ok ys -> List.length ys = List.length xs.
Proof.
  revert ys. induction xs as [|x r IH]; intros ys H; simpl in H.
  - now inversion H.
  - destruct (f x); [|discriminate]. simpl in H.
    destruct (mapM f r) as [zs|]; [|discriminate]. simpl in H. inversion H. simpl.
    now rewrite (IH zs).
Qed.

Lemma asanyarray_float_not_nil (number : list pyobj) (xs : list np.float) :
  asanyarray_float number = Ok xs -> number <> [] -> xs <> [].
Proof.
  intros H Hne ->. apply mapM_length in H. destruct number; [congruence | discriminate].
Qed.

Lemma asanyarray_float_values (number : list pyobj) :
  (forall o, In o number -> is_text o = false) ->
  asanyarray_float number = Ok (map value_of number).
Proof.
  intros H. apply mapM_ok. intros o Ho. specialize (H o Ho).
  destruct o; [reflexivity | reflexivity | discriminate].
Qed.

Lemma asanyarray_float_text (number : list pyobj) :
  (exists s, In (PyStr s) number) ->
  asanyarray_float number = Raise (ValueError "could not convert string to float").
Proof.
  intros [s Hs]. apply mapM_raise.
  - intros o _. destruct o; eauto.
  - exists (PyStr s). now split.
Qed.

Lemma representative_single (u : np.float) : representative [u] u = u.
Proof.
  unfold representative. simpl. now rewrite float_same_refl.
Qed.

(** A recognized unit always yields a result for a batch that is not
    empty, element by element. *)
Lemma nnumber_total
    (log10 : np.float -> np.float)
    (number : list pyobj) (xs : list np.float) (digits : nat) (unit : string)
    (unit_labels : list (string * string)) (prefix suffix thousand_separator : string) :
  asanyarray_float number = Ok xs ->
  xs <> [] ->
  recognized_unit unit unit_labels ->
  exists ix : np.float -> nat,
    ((unit = "auto" /\ ix = (fun _ => auto_bucket log10 xs))
     \/ (unit = "custom" /\ ix = custom_bucket log10)
     \/ (unit <> "auto" /\ unit <> "custom" /\ In unit (labels_of unit_labels)
         /\ ix = (fun _ => Py.index (labels_of unit_labels) unit)))
    /\ nnumber log10 number digits unit unit_labels prefix suffix thousand_separator
       = Ok (map (fun x =>
                    render_number unit_labels digits prefix suffix thousand_separator
                      (ix (representative xs x)) (representative xs x)) xs).
Proof.
  intros Hconv Hne Hunit.
  assert (Hcases :
            exists ix : np.float -> nat,
              (unit = "auto" /\ ix = (fun _ => auto_bucket log10 xs))
              \/ (unit = "custom" /\ ix = custom_bucket log10)
              \/ (unit <> "auto" /\ unit <> "custom" /\ In unit (labels_of unit_labels)
                  /\ ix = (fun _ => Py.index (labels_of unit_labels) unit))).
  { destruct (string_dec unit "auto") as [Ha | Ha].
    - exists (fun _ => auto_bucket log10 xs). now left.
    - destruct (string_dec unit "custom") as [Hc | Hc].
      + exists (custom_bucket log10). right. now left.
      + exists (fun _ => Py.index (labels_of unit_labels) unit). right. right.
        destruct Hunit as [H | [H | H]]; [congruence | congruence | auto]. }
  destruct Hcases as [ix Hix]. exists ix. split; [exact Hix|].
  now apply nnumber_elementwise.
Qed.

(** An unrecognized unit raises once the batch has been converted. *)
Lemma nnumber_invalid_unit
    (log10 : np.float -> np.float)
    (number : list pyobj) (xs : list np.float) (digits : nat) (unit : string)
    (unit_labels : list (string * string)) (prefix suffix thousand_separator : string) :
  asanyarray_float number = Ok xs ->
  ~ recognized_unit unit unit_labels ->
  nnumber log10 number digits unit unit_labels prefix suffix thousand_separator
  = Raise (ValueError "Invalid unit").
Proof.
  intros Hconv Hunit. unfold nnumber. rewrite Hconv. cbn [Py.bind].
  fold (labels_of unit_labels).
  assert (Ha : String.eqb unit "auto" = false).
  { apply String.eqb_neq. intros H. apply Hunit. now left. }
  assert (Hc : String.eqb unit "custom" = false).
  { apply String.eqb_neq. intros H. apply Hunit. right. now left. }
  assert (Hl : existsb (String.eqb unit) (labels_of unit_labels) = false).
  { destruct (existsb _ _) eqn:E; [|reflexivity].
    apply existsb_eqb_in in E. exfalso. apply Hunit. right. now right. }
  rewrite Ha, Hc, Hl. reflexivity.
Qed.

(** A text element raises before the unit is looked at. *)
Lemma nnumber_text_raises
    (log10 : np.float -> np.float)
    (number : list pyobj) (digits : nat) (unit : string)
    (unit_labels : list (string * string)) (prefix suffix thousand_separator : string) :
  (exists s, In (PyStr s) number) ->
  nnumber log10 number digits unit unit_labels prefix suffix thousand_separator
  = Raise (ValueError "could not convert string to float").
Proof.
  intros H. unfold nnumber. now rewrite (asanyarray_float_text number H).
Qed.

Lemma factor_positive (k : nat) :
  (k < 5)%nat -> exists m e, nth k factors zero = S754_finite false m e.
Proof.
  intros H.
  do 5 (destruct k as [|k]; [vm_compute; eauto|]). lia.
Qed.

Lemma regroup_token (thousand_separator : string) (v : np.float) :
  regroup thousand_separator (token v) = token v.
Proof.
  unfold regroup.
  destruct (String.eqb thousand_separator ","); [reflexivity|].
  destruct (String.eqb thousand_separator ".");
    destruct v as [s|[|]| |s m e]; reflexivity.
Qed.

(** A non-finite value scaled by any unit renders as its literal token. *)
Lemma render_number_nonfinite
    (unit_labels : list (string * string)) (digits : nat)
    (prefix suffix thousand_separator : string) (k : nat) (v : np.float) :
  (k < 5)%nat -> np.isfinite v = false ->
  render_number unit_labels digits prefix suffix thousand_separator k v
  = prefix ++ token v ++ unit_suffix (nth k (labels_of unit_labels) "") ++ suffix.
Proof.
  intros Hk Hv. unfold render_number.
  destruct (factor_positive k Hk) as [m [e ->]].
  destruct v as [s|s| |s m' e']; try discriminate.
  - replace (np.format_f false true digits (np.mul (S754_infinity s) (S754_finite false m e)))
      with (token (S754_infinity s)) by (now destruct s).
    now rewrite regroup_token.
  - change (np.format_f false true digits (np.mul S754_nan (S754_finite false m e)))
      with (token S754_nan).
    now rewrite regroup_token.
Qed.

Lemma asanyarray_float_numbers (xs : list np.float) :
  asanyarray_float (map PyFloat xs) = Ok xs.
Proof.
  rewrite <- (map_id xs) at 2. rewrite <- (map_map PyFloat value_of).
  apply asanyarray_float_values. intros o Ho.
  apply in_map_iff in Ho. destruct Ho as [x [<- _]]. reflexivity.
Qed.

Lemma representative_in (xs : list np.float) (x : np.float) :
  In x xs -> In (representative xs x) (distinct_values xs).
Proof.
  intros Hin. unfold representative, distinct_values. apply nth_In.
  apply (unique_inverse np.float_before np.float_same float_same_refl
           float_same_trans xs x Hin).
Qed.

(** ** The bucket of a value whose logarithm is known *)

(** The division by 3, [np.floor] and [astype(int)] on the multiples of 1/8
    between -400 and 400: the third, rounded down. *)
Lemma floor_third_of_eighths (q : Z) :
  -3200 <= q <= 3200 ->
  np.astype_int (np.floor (np.div (np.div (np.of_Z q) (np.of_Z 8)) (np.of_Z 3)))
  = q / 24.
Proof.
  intros H. apply Z.eqb_eq.
  apply (holds_from_spec (Z.to_nat 6401)
           (fun q => np.astype_int
                       (np.floor (np.div (np.div (np.of_Z q) (np.of_Z 8)) (np.of_Z 3)))
                     =? q / 24) (-3200));
    [vm_compute; reflexivity | lia].
Qed.

Lemma floor_third_of_whole (n : Z) :
  -400 <= n <= 400 ->
  np.astype_int (np.floor (np.div (np.of_Z n) (np.of_Z 3))) = n / 3.
Proof.
  intros H. apply Z.eqb_eq.
  apply (holds_from_spec (Z.to_nat 801)
           (fun n => np.astype_int (np.floor (np.div (np.of_Z n) (np.of_Z 3)))
                     =? n / 3) (-400));
    [vm_compute; reflexivity | lia].
Qed.

(** A value whose logarithm the library gives as [q / 8] is in the bucket
    clamp(floor(q / 24), 0, 4). *)
Lemma bucket_of_eighths (log10 : np.float -> np.float) (v : np.float) (q : Z) :
  -3200 <= q <= 3200 ->
  log10 (np.abs v) = np.div (np.of_Z q) (np.of_Z 8) ->
  bucket log10 v = Z.min (Z.max (q / 24) 0) 4.
Proof.
  intros Hq H. unfold bucket, np.clip. now rewrite H, floor_third_of_eighths.
Qed.

(** A value whose logarithm the library gives as the whole number [n] is in
    the bucket clamp(floor(n / 3), 0, 4). *)
Lemma bucket_of_whole (log10 : np.float -> np.float) (v : np.float) (n : Z) :
  -400 <= n <= 400 ->
  log10 (np.abs v) = np.of_Z n ->
  bucket log10 v = Z.min (Z.max (n / 3) 0) 4.
Proof.
  intros Hn H. unfold bucket, np.clip. now rewrite H, floor_third_of_whole.
Qed.

(** The whole powers of ten from 10 to 1e9 are non-zero finite floats that
    are their own magnitude. *)
Lemma power_of_ten_float (k : Z) :
  1 <= k <= 9 ->
  nonzero_finite (np.of_Z (10 ^ k)) = true
  /\ np.abs (np.of_Z (10 ^ k)) = np.of_Z (10 ^ k).
Proof.
  intros H.
  pose (P := fun k => nonzero_finite (np.of_Z (10 ^ k))
                      && SFeqb (np.abs (np.of_Z (10 ^ k))) (np.of_Z (10 ^ k))
                      && negb (is_zero (np.of_Z (10 ^ k)))).
  assert (C : P k = true)
    by (apply (holds_from_spec 9 P 1); [vm_compute; reflexivity | lia]).
  unfold P in C. apply andb_true_iff in C. destruct C as [C Hz].
  apply andb_true_iff in C. destruct C as [C1 C2]. split; [exact C1|].
  apply SFeqb_true in C2. destruct C2 as [C2 | [_ C2]]; [exact C2|].
  rewrite C2 in Hz. discriminate.
Qed.

(** With a logarithm that is exact at the powers of ten from 10 to 1e9,
    the bucket of [10^k] is [k / 3]. *)
Lemma custom_bucket_power_of_ten (log10 : np.float -> np.float) :
  (forall k, 1 <= k <= 9 -> log10 (np.of_Z (10 ^ k)) = np.of_Z k) ->
  forall k, 1 <= k <= 9 -> custom_bucket log10 (np.of_Z (10 ^ k)) = Z.to_nat (k / 3).
Proof.
  intros Hlog k Hk. unfold custom_bucket.
  destruct (power_of_ten_float k Hk) as [N1 N2]. rewrite N1. f_equal.
  rewrite (bucket_of_whole log10 _ k) by (try lia; rewrite N2; now apply Hlog).
  assert (0 <= k / 3 <= 3) by (split; [apply Z.div_pos; lia | apply Z.div_le_upper_bound; lia]).
  lia.
Qed.

(** The scenario of the specification, for every logarithm that is exact
    at the powers of ten from 10 to 1e9. *)
Lemma nnumber_custom_scenario (log10 : np.float -> np.float) :
  (forall k, 1 <= k <= 9 -> log10 (np.of_Z (10 ^ k)) = np.of_Z k) ->
  nnumber log10
    (map (fun z => PyFloat (np.of_Z z))
         [10; 100; 1000; 10000; 100000; 1000000; 10000000; 100000000;
          1000000000])
    1 "custom" default_labels "" "" ","
  = Ok ["10.0"; "100.0"; "1.0 K"; "10.0 K"; "100.0 K"; "1.0 Mn"; "10.0 Mn";
        "100.0 Mn"; "1.0 Bn"].
Proof.
  intros Hlog.
  pose proof (custom_bucket_power_of_ten log10 Hlog) as B.
  set (xs := map np.of_Z [10; 100; 1000; 10000; 100000; 1000000; 10000000;
                          100000000; 1000000000]).
  assert (Hconv : asanyarray_float
                     (map (fun z => PyFloat (np.of_Z z))
                          [10; 100; 1000; 10000; 100000; 1000000; 10000000;
                           100000000; 1000000000]) = Ok xs) by reflexivity.
  rewrite (nnumber_elementwise log10 _ xs 1 "custom" default_labels "" "" ","
             (custom_bucket log10) Hconv);
    [| unfold xs; cbn [map]; discriminate | right; left; split; reflexivity].
  assert (R : forall x, In x xs -> representative xs x = x).
  { intros x Hx. unfold xs in Hx. cbn [map In] in Hx.
    repeat (destruct Hx as [<- | Hx]; [vm_compute; reflexivity|]). destruct Hx. }
  rewrite (map_ext_in _ (fun x => render_number default_labels 1 "" "" ","
                                    (custom_bucket log10 x) x))
    by (intros x Hx; now rewrite (R x Hx)).
  unfold xs. cbn [map].
  pose proof (B 1 ltac:(lia)) as B1. pose proof (B 2 ltac:(lia)) as B2.
  pose proof (B 3 ltac:(lia)) as B3. pose proof (B 4 ltac:(lia)) as B4.
  pose proof (B 5 ltac:(lia)) as B5. pose proof (B 6 ltac:(lia)) as B6.
  pose proof (B 7 ltac:(lia)) as B7. pose proof (B 8 ltac:(lia)) as B8.
  pose proof (B 9 ltac:(lia)) as B9.
  change (10 ^ 1) with 10 in B1. change (10 ^ 2) with 100 in B2.
  change (10 ^ 3) with 1000 in B3. change (10 ^ 4) with 10000 in B4.
  change (10 ^ 5) with 100000 in B5. change (10 ^ 6) with 1000000 in B6.
  change (10 ^ 7) with 10000000 in B7. change (10 ^ 8) with 100000000 in B8.
  change (10 ^ 9) with 1000000000 in B9.
  rewrite B1, B2, B3, B4, B5, B6, B7, B8, B9.
  vm_compute. reflexivity.
Qed.

(** [log10_whole] is exact at the powers of ten from 10 to 1e9. *)
Lemma log10_whole_powers (k : Z) :
  1 <= k <= 9 -> log10_whole (np.of_Z (10 ^ k)) = np.of_Z k.
Proof.
  intros H.
  pose (P := fun k => SFeqb (log10_whole (np.of_Z (10 ^ k))) (np.of_Z k)
                      && negb (is_zero (np.of_Z k))).
  assert (C : P k = true)
    by (apply (holds_from_spec 9 P 1); [vm_compute; reflexivity | lia]).
  unfold P in C. apply andb_true_iff in C. destruct C as [C Hz].
  apply SFeqb_true in C. destruct C as [C | [_ C]]; [exact C|].
  rewrite C in Hz. discriminate.
Qed.



(** In unit mode [auto] the batch [1, 2000, 3000] is in the bucket of the
    thousands, whenever the logarithm puts 1 in bucket 0 and 2000 and 3000
    in bucket 1. *)
Lemma auto_bucket_1_2000_3000 (log10 : np.float -> np.float) :
  bucket log10 (np.of_Z 1) = 0 ->
  bucket log10 (np.of_Z 2000) = 1 ->
  bucket log10 (np.of_Z 3000) = 1 ->
  auto_bucket log10 [np.of_Z 1; np.of_Z 2000; np.of_Z 3000] = 1%nat.
Proof.
  intros H1 H2 H3. unfold auto_bucket.
  replace (map nonzero_finite [np.of_Z 1; np.of_Z 2000; np.of_Z 3000])
    with [true; true; true] by (vm_compute; reflexivity).
  replace (filter nonzero_finite [np.of_Z 1; np.of_Z 2000; np.of_Z 3000])
    with [np.of_Z 1; np.of_Z 2000; np.of_Z 3000] by (vm_compute; reflexivity).
  cbn [map]. rewrite H1, H2, H3. reflexivity.
Qed.

(** C1, as stated, fails in unit mode [auto]: in the batch
    [1, 2000, 3000] the value 1 is rendered "0.0 K", on its own "1.0".
    This holds for every logarithm that puts 1 in bucket 0 and 2000 and
    3000 in bucket 1, of which [log10_whole] is one. *)
Lemma nnumber_auto_not_elementwise :
  (bucket log10_whole (np.of_Z 1) = 0
   /\ bucket log10_whole (np.of_Z 2000) = 1
   /\ bucket log10_whole (np.of_Z 3000) = 1)
  /\ (forall log10 : np.float -> np.float,
         bucket log10 (np.of_Z 1) = 0 ->
         bucket log10 (np.of_Z 2000) = 1 ->
         bucket log10 (np.of_Z 3000) = 1 ->
         nnumber log10
           [PyFloat (np.of_Z 1); PyFloat (np.of_Z 2000); PyFloat (np.of_Z 3000)]
           1 "auto" default_labels "" "" ","
         = Ok ["0.0 K"; "2.0 K"; "3.0 K"]
         /\ nnumber log10 [PyFloat (np.of_Z 1)] 1 "auto" default_labels "" "" ","
            = Ok ["1.0"]).
Proof.
  split; [repeat split; vm_compute; reflexivity|].
  intros log10 H1 H2 H3. split.
  - rewrite (nnumber_elementwise log10
               [PyFloat (np.of_Z 1); PyFloat (np.of_Z 2000); PyFloat (np.of_Z 3000)]
               [np.of_Z 1; np.of_Z 2000; np.of_Z 3000]
               1 "auto" default_labels "" "" ","
               (fun _ => auto_bucket log10 [np.of_Z 1; np.of_Z 2000; np.of_Z 3000])
               eq_refl);
      [| discriminate | left; split; reflexivity].
    rewrite (auto_bucket_1_2000_3000 log10 H1 H2 H3).
    vm_compute. reflexivity.
  - rewrite (nnumber_elementwise log10 [PyFloat (np.of_Z 1)] [np.of_Z 1] 1 "auto"
               default_labels "" "" ","
               (fun _ => auto_bucket log10 [np.of_Z 1]) eq_refl);
      [| discriminate | left; split; reflexivity].
    assert (E : auto_bucket log10 [np.of_Z 1] = O).
    { unfold auto_bucket.
      replace (map nonzero_finite [np.of_Z 1]) with [true] by (vm_compute; reflexivity).
      replace (filter nonzero_finite [np.of_Z 1]) with [np.of_Z 1]
        by (vm_compute; reflexivity).
      cbn [map]. rewrite H1. reflexivity. }
    rewrite E. vm_compute. reflexivity.
Qed.

(** C1 (amended).  For every batch of numbers that is not empty and every
    configuration whose unit mode is not [auto], the output has the length
    of the batch and, at every position, is what [nnumber] returns for the
    single distinct value [u] of the element there; [u] compares equal to
    the element, and is the element itself unless that is a zero.  The
    empty batch, with the separator "," and neither prefix nor suffix,
    gives the empty result. *)
Theorem nnumber_elementwise_outside_auto :
  forall log10 : np.float -> np.float,
    (forall number xs digits unit unit_labels prefix suffix thousand_separator,
        number <> [] ->
        asanyarray_float number = Ok xs ->
        unit = "custom" \/ (unit <> "auto" /\ In unit (labels_of unit_labels)) ->
        exists out,
          nnumber log10 number digits unit unit_labels prefix suffix
            thousand_separator = Ok out
          /\ List.length out = List.length number
          /\ forall i x,
               nth_error xs i = Some x ->
               exists u s,
                 np.float_same u x = true
                 /\ (is_zero x = false -> u = x)
                 /\ nnumber log10 [PyFloat u] digits unit unit_labels prefix suffix
                      thousand_separator = Ok [s]
                 /\ nth_error out i = Some s)
    /\ (forall digits unit unit_labels,
           recognized_unit unit unit_labels ->
           nnumber log10 [] digits unit unit_labels "" "" "," = Ok []).
Proof.
  intros log10. split.
  2:{ intros digits unit unit_labels Hunit.
      now rewrite (nnumber_empty log10 digits unit unit_labels "" "" "," Hunit). }
  intros number xs digits unit unit_labels prefix suffix sep Hne Hconv Hunit.
  pose proof (asanyarray_float_not_nil number xs Hconv Hne) as Hxs.
  assert (Hix : exists ix : np.float -> nat,
             forall ys,
               (unit = "auto" /\ ix = (fun _ => auto_bucket log10 ys))
               \/ (unit = "custom" /\ ix = custom_bucket log10)
               \/ (unit <> "auto" /\ unit <> "custom" /\ In unit (labels_of unit_labels)
                   /\ ix = (fun _ => Py.index (labels_of unit_labels) unit))).
  { destruct Hunit as [-> | [Hna Hin]].
    - exists (custom_bucket log10). intros ys. right. left. now split.
    - destruct (string_dec unit "custom") as [-> | Hnc].
      + exists (custom_bucket log10). intros ys. right. left. now split.
      + exists (fun _ => Py.index (labels_of unit_labels) unit). intros ys.
        right. right. auto. }
  destruct Hix as [ix Hix].
  eexists. split; [apply (nnumber_elementwise log10 _ _ _ _ _ _ _ _ ix Hconv Hxs (Hix xs))|].
  split.
  - rewrite length_map. now apply mapM_length in Hconv.
  - intros i x Hx.
    assert (Hin : In x xs) by (eapply nth_error_In; eauto).
    destruct (representative_same xs x Hin) as [Hs Hz].
    exists (representative xs x). eexists.
    split; [exact Hs|]. split; [exact Hz|]. split.
    + rewrite (nnumber_elementwise log10 [PyFloat (representative xs x)]
                 [representative xs x] _ _ _ _ _ _ ix eq_refl
                 ltac:(discriminate) (Hix _)).
      cbn [map]. rewrite representative_single. reflexivity.
    + rewrite nth_error_map, Hx. reflexivity.
Qed.

(** The fixed unit "Mn" on a batch with a repeated value. *)
Lemma nnumber_elementwise_outside_auto_witness :
  exists out,
    nnumber log10_whole
      [PyFloat (np.of_Z 1000); PyFloat (np.of_Z 5); PyFloat (np.of_Z 1000)]
      1 "Mn" default_labels "" "" "," = Ok out
    /\ List.length out = 3%nat
    /\ forall i x,
         nth_error [np.of_Z 1000; np.of_Z 5; np.of_Z 1000] i = Some x ->
         exists u s,
           np.float_same u x = true
           /\ (is_zero x = false -> u = x)
           /\ nnumber log10_whole [PyFloat u] 1 "Mn" default_labels "" "" ","
              = Ok [s]
           /\ nth_error out i = Some s.
Proof.
  apply (proj1 (nnumber_elementwise_outside_auto log10_whole)
           [PyFloat (np.of_Z 1000); PyFloat (np.of_Z 5); PyFloat (np.of_Z 1000)]
           [np.of_Z 1000; np.of_Z 5; np.of_Z 1000]).
  - discriminate.
  - reflexivity.
  - right. split; [discriminate|]. simpl. auto.
Defined.

(** The result of the decorated [nnumber] in unit mode [auto], element by
    element. *)
Lemma nnumber_decorated_auto
    (log10 : np.float -> np.float) (batch : list np.float) (digits : nat)
    (unit_labels : list (string * string)) (prefix suffix thousand_separator : string) :
  batch <> [] ->
  nnumber_decorated log10 batch digits "auto" unit_labels prefix suffix
    thousand_separator
  = Ok (map (fun x =>
               render_number unit_labels digits prefix suffix thousand_separator
                 (auto_bucket log10 (distinct_values batch))
                 (representative (distinct_values batch) (representative batch x)))
            batch).
Proof.
  intros Hne.
  unfold nnumber_decorated, utils._unique_optimization.
  change (np.unique np.float_before np.float_same batch)
    with (distinct_values batch,
          map (fun x => np.find_index np.float_same x (distinct_values batch)) batch).
  cbv iota beta.
  rewrite (nnumber_elementwise log10 (map PyFloat (distinct_values batch))
             (distinct_values batch) _ _ _ _ _ _
             (fun _ => auto_bucket log10 (distinct_values batch))
             (asanyarray_float_numbers _)
             (distinct_values_not_nil batch Hne)
             (or_introl (conj eq_refl eq_refl))).
  cbn [Py.bind].
  rewrite (take_map _ (fun x => np.find_index np.float_same x (distinct_values batch))
             "" batch).
  2:{ intros x Hx. rewrite length_map.
      apply (unique_inverse np.float_before np.float_same float_same_refl
               float_same_trans batch x Hx). }
  f_equal. apply map_ext_in. intros x Hx.
  rewrite (nth_map_in _ (distinct_values batch) _ "" x).
  2:{ apply (unique_inverse np.float_before np.float_same float_same_refl
               float_same_trans batch x Hx). }
  reflexivity.
Qed.



(** C4, as stated, fails: with the fixed unit "K" a NaN is rendered
    "nan K", and with the prefix "$" it is rendered "$nan", whatever the
    logarithm. *)
Lemma nnumber_nonfinite_not_bare :
  (forall log10 : np.float -> np.float,
      nnumber log10 [PyFloat np.nan] 1 "K" default_labels "" "" "," = Ok ["nan K"])
  /\ (forall log10 : np.float -> np.float,
         nnumber log10 [PyFloat np.nan] 1 "custom" default_labels "$" "" ","
         = Ok ["$nan"]).
Proof. split; intros log10; vm_compute; reflexivity. Qed.

(** C4 (amended).  A NaN or infinite element of a batch is rendered as its
    literal token "nan", "inf" or "-inf", with no digit grouping, whatever
    the separator.  The unit label of its bucket and the prefix and suffix
    are applied to it as to any other element: the label is empty in unit
    mode [custom] and is the unit itself for a fixed unit. *)
Theorem nnumber_nonfinite_token :
  forall log10 number xs digits unit unit_labels prefix suffix thousand_separator,
    number <> [] ->
    asanyarray_float number = Ok xs ->
    recognized_unit unit unit_labels ->
    exists out,
      nnumber log10 number digits unit unit_labels prefix suffix thousand_separator
      = Ok out
      /\ forall i x,
           nth_error xs i = Some x ->
           np.isfinite x = false ->
           exists label,
             In label (labels_of unit_labels)
             /\ (unit = "custom" -> label = "")
             /\ (unit <> "custom" -> unit <> "auto" -> label = unit)
             /\ nth_error out i
                = Some (prefix ++ token x ++ unit_suffix label ++ suffix).
Proof.
  intros log10 number xs digits unit unit_labels prefix suffix sep Hne Hconv Hunit.
  pose proof (asanyarray_float_not_nil number xs Hconv Hne) as Hxs.
  destruct (nnumber_total log10 number xs digits unit unit_labels prefix suffix sep
              Hconv Hxs Hunit) as [ix [Hix Hout]].
  eexists. split; [exact Hout|].
  intros i x Hx Hfin.
  assert (Hin : In x xs) by (eapply nth_error_In; eauto).
  assert (Hrep : representative xs x = x).
  { apply representative_same; [exact Hin|]. now destruct x. }
  assert (Hk : (ix x < 5)%nat).
  { destruct Hix as [[_ ->] | [[_ ->] | [_ [_ [Hl ->]]]]].
    - apply auto_bucket_bound.
    - apply custom_bucket_bound.
    - rewrite <- (labels_length unit_labels). now apply index_in. }
  exists (nth (ix x) (labels_of unit_labels) "").
  split; [apply nth_In; now rewrite labels_length|].
  split; [|split].
  - intros ->. destruct Hix as [[Hu _] | [[_ ->] | [_ [Hu _]]]]; try congruence.
    unfold custom_bucket, nonzero_finite. rewrite Hfin, andb_false_r. reflexivity.
  - intros Hnc Hna. destruct Hix as [[Hu _] | [[Hu _] | [_ [_ [Hl ->]]]]];
      try congruence.
    now apply index_in.
  - rewrite nth_error_map, Hx. cbn [option_map]. rewrite Hrep.
    now rewrite render_number_nonfinite.
Qed.

(** A missing value and a negative infinity between brackets, with the
    point as grouping separator. *)
Lemma nnumber_nonfinite_token_witness :
  exists out,
    nnumber log10_whole [PyFloat (np.of_Z 7); PyNone; PyFloat (S754_infinity true)]
      1 "custom" default_labels "<" ">" "." = Ok out
    /\ forall i x,
         nth_error [np.of_Z 7; np.nan; S754_infinity true] i = Some x ->
         np.isfinite x = false ->
         exists label,
           In label (labels_of default_labels)
           /\ ("custom" = "custom" -> label = "")
           /\ ("custom" <> "custom" -> "custom" <> "auto" -> label = "custom")
           /\ nth_error out i = Some ("<" ++ token x ++ unit_suffix label ++ ">").
Proof.
  apply (nnumber_nonfinite_token log10_whole
           [PyFloat (np.of_Z 7); PyNone; PyFloat (S754_infinity true)]
           [np.of_Z 7; np.nan; S754_infinity true]).
  - discriminate.
  - reflexivity.
  - right. now left.
Defined.

(** C8, as stated, fails: a batch holding a text is converted before the
    unit keyword is looked at, so with an unrecognized unit the call raises
    the conversion error and not the configuration error, whatever the
    logarithm. *)
Lemma nnumber_text_before_unit :
  ~ recognized_unit "bogus" default_labels
  /\ (forall log10 : np.float -> np.float,
         nnumber log10 [PyStr "abc"] 1 "bogus" default_labels "" "" ","
         = Raise (ValueError "could not convert string to float")).
Proof.
  split; [|reflexivity].
  intros [H | [H | H]]; try discriminate.
  simpl in H. repeat (destruct H as [H | H]; [discriminate|]). exact H.
Qed.

(** C8 (amended).  When every element of the batch converts to a real
    number, an unrecognized unit keyword raises the configuration error
    and no output is produced.  The batch is converted first: a text
    element raises the conversion error whatever the unit keyword.  A
    missing element is no error, it becomes NaN: [nnumber([None])] is
    ["nan"]. *)
Theorem nnumber_errors :
  forall log10 : np.float -> np.float,
    (forall number xs digits unit unit_labels prefix suffix thousand_separator,
        asanyarray_float number = Ok xs ->
        ~ recognized_unit unit unit_labels ->
        nnumber log10 number digits unit unit_labels prefix suffix thousand_separator
        = Raise (ValueError "Invalid unit"))
    /\ (forall number digits unit unit_labels prefix suffix thousand_separator,
           (exists s, In (PyStr s) number) ->
           nnumber log10 number digits unit unit_labels prefix suffix
             thousand_separator
           = Raise (ValueError "could not convert string to float"))
    /\ (forall number,
           (forall o, In o number -> is_text o = false) ->
           asanyarray_float number = Ok (map value_of number))
    /\ value_of PyNone = np.nan
    /\ nnumber log10 [PyNone] 1 "custom" default_labels "" "" "," = Ok ["nan"].
Proof.
  intros log10. split; [|split; [|split; [|split]]].
  - intros. eapply nnumber_invalid_unit; eauto.
  - intros. now apply nnumber_text_raises.
  - apply asanyarray_float_values.
  - reflexivity.
  - vm_compute. reflexivity.
Qed.

(** The unit "kilo" is none of "", "K", "Mn", "Bn", "Tn", "auto",
    "custom". *)
Lemma nnumber_errors_witness :
  nnumber log10_whole [PyFloat (np.of_Z 12); PyNone] 1 "kilo" default_labels "" "" ","
  = Raise (ValueError "Invalid unit").
Proof.
  apply (proj1 (nnumber_errors log10_whole)
           [PyFloat (np.of_Z 12); PyNone] [np.of_Z 12; np.nan]).
  - reflexivity.
  - intros [H | [H | H]]; try discriminate.
    simpl in H. repeat (destruct H as [H | H]; [discriminate|]). exact H.
Defined.

(* ================================================================== *)
(** * Properties of [npercent]                                         *)
(* ================================================================== *)

(** [npercent], element by element: with [show_bps] every element carries
    its basis-points annotation twice. *)
Lemma npercent_elementwise
    (percent : list pyobj) (xs : list np.float) (is_ratio : bool) (digits : nat)
    (show_plus_sign show_growth_factor show_bps : bool) :
  asanyarray_float percent = Ok xs ->
  npercent percent is_ratio digits show_plus_sign show_growth_factor show_bps
  = Ok (map (percent_text digits show_plus_sign show_growth_factor show_bps)
            (if is_ratio then map (fun v => np.mul v (np.of_Z 100)) xs else xs)).
Proof.
  intros Hconv. unfold npercent. rewrite Hconv. cbn [Py.bind].
  set (x := if is_ratio then map (fun v => np.mul v (np.of_Z 100)) xs else xs).
  destruct (Nat.eqb_spec (List.length x) 0) as [E | E].
  - destruct x; [reflexivity | discriminate].
  - clear E. f_equal.
    set (s0 := fun v : np.float =>
                 (if show_plus_sign && np.gt v zero then "+" else "")
                 ++ np.format_f false false digits v ++ "%").
    match goal with
    | |- context [np.char_add_r ?a "%"] =>
        replace (np.char_add_r a "%") with (map s0 x)
    end.
    2:{ unfold s0, np.char_add_r, np.char_add_l. destruct show_plus_sign; cbn [andb].
        - rewrite map_map.
          rewrite (where_map (fun v => np.gt v zero)
                     (fun v => "+" ++ np.format_f false false digits v)
                     (fun v => np.format_f false false digits v)).
          rewrite map_map. apply map_ext. intros v.
          now destruct (np.gt v zero).
        - rewrite map_map. reflexivity. }
    destruct show_growth_factor, show_bps; cbn [orb].
    + unfold np.char_add_l, np.char_add_r.
      rewrite !full_as_map, !map_map.
      rewrite (where_map (fun v => np.gt (np.div v (np.of_Z 100)) zero)
                 (fun _ => " (Growth)") (fun _ => " (Drop)")).
      rewrite (where_map (fun v => np.eq (np.div v (np.of_Z 100)) zero)
                 (fun _ => " (Flat)")).
      rewrite (where_map (fun v => np.le (np.div v (np.of_Z 100)) (np.of_Z (-1)))
                 (fun v => " (" ++ np.format_f false false 1
                                     (np.abs (np.div v (np.of_Z 100))) ++ "x Drop)")).
      rewrite (where_map (fun v => np.ge (np.div v (np.of_Z 100)) (np.of_Z 1))
                 (fun v => " (" ++ np.format_f false false 1
                                     (np.abs (np.div v (np.of_Z 100))) ++ "x Growth)")).
      rewrite !char_add_map. apply map_ext. intros v.
      unfold percent_text, growth_label, bps_label, s0. cbv zeta beta.
      rewrite ?string_app_assoc. reflexivity.
    + unfold np.char_add_l, np.char_add_r.
      rewrite !full_as_map, !map_map.
      rewrite (where_map (fun v => np.gt (np.div v (np.of_Z 100)) zero)
                 (fun _ => " (Growth)") (fun _ => " (Drop)")).
      rewrite (where_map (fun v => np.eq (np.div v (np.of_Z 100)) zero)
                 (fun _ => " (Flat)")).
      rewrite (where_map (fun v => np.le (np.div v (np.of_Z 100)) (np.of_Z (-1)))
                 (fun v => " (" ++ np.format_f false false 1
                                     (np.abs (np.div v (np.of_Z 100))) ++ "x Drop)")).
      rewrite (where_map (fun v => np.ge (np.div v (np.of_Z 100)) (np.of_Z 1))
                 (fun v => " (" ++ np.format_f false false 1
                                     (np.abs (np.div v (np.of_Z 100))) ++ "x Growth)")).
      rewrite !char_add_map. apply map_ext. intros v.
      unfold percent_text, growth_label, s0. cbv zeta beta.
      rewrite ?string_app_assoc, ?string_app_nil_r. reflexivity.
    + unfold np.char_add_l, np.char_add_r.
      rewrite !full_as_map, !map_map.
      rewrite !char_add_map. apply map_ext. intros v.
      unfold percent_text, bps_label, s0. cbv zeta beta.
      rewrite ?string_app_assoc. reflexivity.
    + apply map_ext. intros v. unfold percent_text, s0.
      now rewrite ?string_app_assoc, ?string_app_nil_r.
Qed.

(** C3.  With [show_bps] the basis-points annotation is appended twice:
    [npercent([1.0], is_ratio=False, digits=2, show_bps=True)], and the
    documented scenario on the ratio 0.01, give
    "+1.00% (+100 bps) (+100 bps)". *)
Theorem npercent_bps_twice :
  npercent [PyFloat (np.of_Z 1)] false 2 true false true
  = Ok ["+1.00% (+100 bps) (+100 bps)"]
  /\ npercent [PyFloat (np.div (np.of_Z 1) (np.of_Z 100))] true 2 true false true
     = Ok ["+1.00% (+100 bps) (+100 bps)"]
  /\ npercent [PyFloat (np.of_Z 0)] false 2 true true true
     = Ok ["0.00% (Flat) (0 bps) (0 bps)"].
Proof. repeat split; vm_compute; reflexivity. Qed.

(* ================================================================== *)
(** * ISO dates: the shape of the strings the formatters slice         *)
(* ================================================================== *)

Lemma fmt_02d_chars (n : Z) : 0 <= n <= 99 -> fmt_0d 2 n = two_chars n.
Proof.
  intros H.
  apply String.eqb_eq.
  apply (forall_below (fun k => String.eqb (fmt_0d 2 k) (two_chars k)) 100);
    [vm_compute; reflexivity | lia].
Qed.

Lemma fmt_04d_chars (n : Z) : 0 <= n <= 9999 -> fmt_0d 4 n = four_chars n.
Proof.
  intros H.
  apply String.eqb_eq.
  apply (forall_below (fun k => String.eqb (fmt_0d 4 k) (four_chars k)) 10000);
    [vm_compute; reflexivity | lia].
Qed.

Lemma int_two_chars (n : Z) : 0 <= n <= 99 -> Py.int (two_chars n) = Ok n.
Proof.
  intros H.
  assert (G : (match Py.int (two_chars n) with
               | Ok k => k =? n
               | Raise _ => false
               end) = true).
  { apply (forall_below (fun n => match Py.int (two_chars n) with
                                  | Ok k => k =? n
                                  | Raise _ => false
                                  end) 100);
      [vm_compute; reflexivity | lia]. }
  destruct (Py.int (two_chars n)); [|discriminate].
  apply Z.eqb_eq in G. now subst.
Qed.

(** ** Month and day are in range *)

Lemma yearsdays_range (days : Z) :
  0 <= snd (np.days_to_yearsdays days)
    < (if np.is_leapyear (fst (np.days_to_yearsdays days)) then 366 else 365).
Proof.
  unfold np.days_to_yearsdays.
  change (400 * 365 + 100 - 4 + 1) with 146097.
  change (365 * 30 + 7) with 10957.
  change (100 * 365 + 25 - 1) with 36524.
  change (4 * 365 + 1) with 1461.
  set (q := (days - 10957) / 146097).
  set (r := (days - 10957) mod 146097).
  assert (Hr : 0 <= r < 146097) by (apply Z.mod_pos_bound; lia).
  clearbody q r. clear days.
  unfold np.is_leapyear.
  destruct (Z.leb_spec 366 r) as [H1 | H1]; cbn [fst snd].
  - set (c := (r - 1) / 36524). set (d1 := (r - 1) mod 36524).
    assert (Hc : r - 1 = 36524 * c + d1 /\ 0 <= d1 < 36524).
    { unfold c, d1. split; [apply Z.div_mod; lia | apply Z.mod_pos_bound; lia]. }
    clearbody c d1.
    destruct (Z.leb_spec 365 d1) as [H2 | H2]; cbn [fst snd].
    + set (k := (d1 + 1) / 1461). set (d2 := (d1 + 1) mod 1461).
      assert (Hk : d1 + 1 = 1461 * k + d2 /\ 0 <= d2 < 1461).
      { unfold k, d2. split; [apply Z.div_mod; lia | apply Z.mod_pos_bound; lia]. }
      clearbody k d2.
      destruct (Z.leb_spec 366 d2) as [H3 | H3]; cbn [fst snd].
      * set (j := (d2 - 1) / 365). set (d3 := (d2 - 1) mod 365).
        assert (Hj : d2 - 1 = 365 * j + d3 /\ 0 <= d3 < 365).
        { unfold j, d3. split; [apply Z.div_mod; lia | apply Z.mod_pos_bound; lia]. }
        clearbody j d3.
        assert (E4 : (400 * q + 100 * c + 4 * k + j + 2000) mod 4 = j).
        { replace (400 * q + 100 * c + 4 * k + j + 2000)
            with (j + (100 * q + 25 * c + k + 500) * 4) by lia.
          rewrite Z_mod_plus_full. apply Z.mod_small. lia. }
        rewrite E4.
        destruct (Z.eqb_spec j 0); cbn [andb]; lia.
      * assert (E4 : (400 * q + 100 * c + 4 * k + 2000) mod 4 = 0).
        { replace (400 * q + 100 * c + 4 * k + 2000)
            with (0 + (100 * q + 25 * c + k + 500) * 4) by lia.
          now rewrite Z_mod_plus_full. }
        assert (E100 : (400 * q + 100 * c + 4 * k + 2000) mod 100 = 4 * k).
        { replace (400 * q + 100 * c + 4 * k + 2000)
            with (4 * k + (4 * q + c + 20) * 100) by lia.
          rewrite Z_mod_plus_full. apply Z.mod_small. lia. }
        rewrite E4, E100.
        destruct (Z.eqb_spec (4 * k) 0); cbn [andb orb negb Z.eqb]; lia.
    + assert (E100 : (400 * q + 100 * c + 2000) mod 100 = 0).
      { replace (400 * q + 100 * c + 2000) with (0 + (4 * q + c + 20) * 100) by lia.
        now rewrite Z_mod_plus_full. }
      assert (E400 : (400 * q + 100 * c + 2000) mod 400 = 100 * c).
      { replace (400 * q + 100 * c + 2000) with (100 * c + (q + 5) * 400) by lia.
        rewrite Z_mod_plus_full. apply Z.mod_small. lia. }
      assert (E4 : (400 * q + 100 * c + 2000) mod 4 = 0).
      { replace (400 * q + 100 * c + 2000)
          with (0 + (100 * q + 25 * c + 500) * 4) by lia.
        now rewrite Z_mod_plus_full. }
      rewrite E4, E100, E400.
      destruct (Z.eqb_spec (100 * c) 0); cbn [andb orb negb Z.eqb]; lia.
  - assert (E4 : (400 * q + 2000) mod 4 = 0).
    { replace (400 * q + 2000) with (0 + (100 * q + 500) * 4) by lia.
      now rewrite Z_mod_plus_full. }
    assert (E100 : (400 * q + 2000) mod 100 = 0).
    { replace (400 * q + 2000) with (0 + (4 * q + 20) * 100) by lia.
      now rewrite Z_mod_plus_full. }
    assert (E400 : (400 * q + 2000) mod 400 = 0).
    { replace (400 * q + 2000) with (0 + (q + 5) * 400) by lia.
      now rewrite Z_mod_plus_full. }
    rewrite E4, E100, E400. cbn. lia.
Qed.

Lemma month_day_in_year (leap : bool) (yday : Z) :
  0 <= yday < (if leap then 366 else 365) ->
  1 <= fst (np.month_day (np.days_per_month_table leap) 0 yday) <= 12
  /\ 1 <= snd (np.month_day (np.days_per_month_table leap) 0 yday) <= 31.
Proof.
  intros H. destruct leap; cbn [np.days_per_month_table np.month_day];
    repeat match goal with
           | |- context [if ?a <? ?b then _ else _] =>
               destruct (Z.ltb_spec a b); cbn [fst snd]
           end; cbn [fst snd]; lia.
Qed.

(** Month and day of the month are in range, for every day count. *)
Lemma month_day_range (days : Z) :
  1 <= month_of days <= 12 /\ 1 <= day_of days <= 31.
Proof.
  unfold month_of, day_of, np.civil_of_days.
  pose proof (yearsdays_range days) as H.
  destruct (np.days_to_yearsdays days) as [year yday]. cbn [fst snd] in H.
  pose proof (month_day_in_year (np.is_leapyear year) yday H) as G.
  destruct (np.month_day _ 0 yday). exact G.
Qed.
(** ** Slices of an ISO date with a four-digit year *)

Lemma isoD_chars (days : Z) :
  four_digit_year days ->
  np.datetime_as_string_D days
  = four_chars (year_of days) ++ "-" ++ two_chars (month_of days) ++ "-"
    ++ two_chars (day_of days).
Proof.
  intros Hy. pose proof (month_day_range days) as [Hm Hd].
  unfold four_digit_year in Hy.
  unfold np.datetime_as_string_D, year_of, month_of, day_of in *.
  destruct (np.civil_of_days days) as [[y m] d]. cbn [fst snd] in *.
  rewrite fmt_04d_chars by lia. now rewrite !fmt_02d_chars by lia.
Qed.

Lemma isoD_slices (days : Z) :
  four_digit_year days ->
  Py.slice 0 4 (np.datetime_as_string_D days) = fmt_0d 4 (year_of days)
  /\ Py.int (Py.slice 5 7 (np.datetime_as_string_D days)) = Ok (month_of days)
  /\ Py.slice 8 10 (np.datetime_as_string_D days) = fmt_0d 2 (day_of days)
  /\ Py.slice 2 4 (np.datetime_as_string_D days) = fmt_0d 2 (year_of days mod 100).
Proof.
  intros Hy. rewrite (isoD_chars days Hy).
  pose proof (month_day_range days) as [Hm Hd]. unfold four_digit_year in Hy.
  assert (Hc : 0 <= year_of days mod 100 <= 99)
    by (pose proof (Z.mod_pos_bound (year_of days) 100); lia).
  rewrite (fmt_04d_chars (year_of days)) by lia.
  rewrite (fmt_02d_chars (day_of days)) by lia.
  rewrite (fmt_02d_chars (year_of days mod 100)) by lia.
  repeat split; try reflexivity.
  change (Py.slice 5 7 _) with (two_chars (month_of days)).
  apply int_two_chars. lia.
Qed.

Lemma time_of_day_range (secs : Z) :
  0 <= hour_of secs <= 23 /\ 0 <= minute_of secs <= 59 /\ 0 <= second_of secs <= 59.
Proof.
  unfold hour_of, minute_of, second_of.
  pose proof (Z.mod_pos_bound secs 86400 ltac:(lia)) as H.
  set (sod := secs mod 86400) in *. clearbody sod.
  pose proof (Z.mod_pos_bound sod 3600 ltac:(lia)).
  pose proof (Z.mod_pos_bound sod 60 ltac:(lia)).
  assert (0 <= sod / 3600 <= 23).
  { split; [apply Z.div_pos; lia|]. apply Z.lt_succ_r. apply Z.div_lt_upper_bound; lia. }
  assert (0 <= sod mod 3600 / 60 <= 59).
  { split; [apply Z.div_pos; lia|]. apply Z.lt_succ_r. apply Z.div_lt_upper_bound; lia. }
  lia.
Qed.

Lemma isoS_slices (secs : Z) :
  four_digit_year (secs / 86400) ->
  Py.slice 0 4 (np.datetime_as_string_s secs) = fmt_0d 4 (year_of (secs / 86400))
  /\ Py.int (Py.slice 5 7 (np.datetime_as_string_s secs)) = Ok (month_of (secs / 86400))
  /\ Py.slice 8 10 (np.datetime_as_string_s secs) = fmt_0d 2 (day_of (secs / 86400))
  /\ Py.int (Py.slice 11 13 (np.datetime_as_string_s secs)) = Ok (hour_of secs)
  /\ Py.slice 14 16 (np.datetime_as_string_s secs) = fmt_0d 2 (minute_of secs)
  /\ Py.slice 17 19 (np.datetime_as_string_s secs) = fmt_0d 2 (second_of secs).
Proof.
  intros Hy. unfold np.datetime_as_string_s.
  rewrite (isoD_chars _ Hy).
  pose proof (month_day_range (secs / 86400)) as [Hm Hd]. unfold four_digit_year in Hy.
  pose proof (time_of_day_range secs) as [Hh [Hmi Hs]].
  fold (hour_of secs). fold (minute_of secs). fold (second_of secs).
  rewrite (fmt_04d_chars (year_of (secs / 86400))) by lia.
  rewrite (fmt_02d_chars (day_of (secs / 86400))) by lia.
  rewrite (fmt_02d_chars (hour_of secs)) by lia.
  rewrite (fmt_02d_chars (minute_of secs)) by lia.
  rewrite (fmt_02d_chars (second_of secs)) by lia.
  repeat split; try reflexivity.
  - change (Py.slice 5 7 _) with (two_chars (month_of (secs / 86400))).
    apply int_two_chars. lia.
  - change (Py.slice 11 13 _) with (two_chars (hour_of secs)).
    apply int_two_chars. lia.
Qed.

(** ** Table lookups *)

Lemma getitem_nth {A : Type} (l : list A) (i : Z) (d : A) :
  0 <= i < Z.of_nat (List.length l) ->
  Py.getitem l i = Ok (nth (Z.to_nat i) l d).
Proof.
  intros H. unfold Py.getitem.
  destruct (Z.ltb_spec i 0); [lia|].
  destruct (Z.leb_spec 0 i); [|lia].
  destruct (Z.ltb_spec i (Z.of_nat (List.length l))); [|lia].
  cbn [andb].
  destruct (nth_error l (Z.to_nat i)) eqn:E.
  - now rewrite (nth_error_nth _ _ d E).
  - apply nth_error_None in E. lia.
Qed.

Lemma take_int_map {A B : Type} (a : list B) (ix : A -> Z) (d : B) (l : list A) :
  (forall x, In x l -> 0 <= ix x < Z.of_nat (List.length a)) ->
  np.take_int a (map ix l) = Ok (map (fun x => nth (Z.to_nat (ix x)) a d) l).
Proof.
  intros H. unfold np.take_int. rewrite <- (map_map ix (fun i => nth (Z.to_nat i) a d)).
  apply mapM_ok. intros i Hi. apply in_map_iff in Hi. destruct Hi as [x [<- Hx]].
  apply getitem_nth. now apply H.
Qed.

Lemma weekday_names (u : time_unit) (l : list np.datetime64) :
  _get_weekday_name_vec u l = Ok (map (fun d => weekday_name_int64 (days_of u d)) l).
Proof.
  unfold _get_weekday_name_vec. rewrite map_map.
  apply (take_int_map _ (fun d => np.int64 (days_of u d + 3) mod 7) "" l).
  intros x _. cbn [List.length]. apply Z.mod_pos_bound. lia.
Qed.

(** ** The arithmetic of int64 where it does not wrap around *)

Lemma int64_exact (z : Z) : - 2 ^ 63 <= z < 2 ^ 63 -> np.int64 z = z.
Proof.
  intros H. unfold np.int64. rewrite Z.mod_small by lia. lia.
Qed.

Lemma weekday_name_int64_exact (v : Z) :
  - 2 ^ 63 <= v + 3 < 2 ^ 63 -> weekday_name_int64 v = weekday_name v.
Proof.
  intros H. unfold weekday_name_int64, weekday_name. now rewrite int64_exact.
Qed.

(** Where the sum with 3 and the difference with today are int64, the code
    computes the exact text. *)
Lemma day_text_int64_exact (show_relative_day : bool) (today v : Z) :
  - 2 ^ 63 <= v + 3 < 2 ^ 63 ->
  - 2 ^ 63 < today - v < 2 ^ 63 ->
  day_text_int64 show_relative_day today (np.DT v)
  = day_text show_relative_day today (np.DT v).
Proof.
  intros H1 H2. cbn [day_text_int64 day_text].
  rewrite weekday_name_int64_exact by exact H1.
  destruct show_relative_day; [|reflexivity].
  now rewrite int64_exact by lia.
Qed.

(** The year of a day count lies in the 400 years of its cycle. *)
Lemma year_of_cycle (days : Z) :
  400 * ((days - 10957) / 146097) + 2000
  <= fst (np.days_to_yearsdays days)
  <= 400 * ((days - 10957) / 146097) + 2399.
Proof.
  unfold np.days_to_yearsdays.
  change (400 * 365 + 100 - 4 + 1) with 146097.
  change (365 * 30 + 7) with 10957.
  change (100 * 365 + 25 - 1) with 36524.
  change (4 * 365 + 1) with 1461.
  set (q := (days - 10957) / 146097).
  set (r := (days - 10957) mod 146097).
  assert (Hr : 0 <= r < 146097) by (apply Z.mod_pos_bound; lia).
  clearbody q r. clear days.
  destruct (Z.leb_spec 366 r) as [H1 | H1]; cbn [fst snd]; [|lia].
  set (c := (r - 1) / 36524). set (d1 := (r - 1) mod 36524).
  assert (Hc : r - 1 = 36524 * c + d1 /\ 0 <= d1 < 36524).
  { unfold c, d1. split; [apply Z.div_mod; lia | apply Z.mod_pos_bound; lia]. }
  clearbody c d1.
  destruct (Z.leb_spec 365 d1) as [H2 | H2]; cbn [fst snd]; [|lia].
  set (k := (d1 + 1) / 1461). set (d2 := (d1 + 1) mod 1461).
  assert (Hk : d1 + 1 = 1461 * k + d2 /\ 0 <= d2 < 1461).
  { unfold k, d2. split; [apply Z.div_mod; lia | apply Z.mod_pos_bound; lia]. }
  clearbody k d2.
  destruct (Z.leb_spec 366 d2) as [H3 | H3]; cbn [fst snd]; [|lia].
  set (j := (d2 - 1) / 365). set (d3 := (d2 - 1) mod 365).
  assert (Hj : d2 - 1 = 365 * j + d3 /\ 0 <= d3 < 365).
  { unfold j, d3. split; [apply Z.div_mod; lia | apply Z.mod_pos_bound; lia]. }
  clearbody j d3. lia.
Qed.

(** The day count of a date with a four-digit year is far from the ends
    of int64. *)
Lemma four_digit_year_range (v : Z) :
  four_digit_year v -> -1000000 <= v <= 3000000.
Proof.
  unfold four_digit_year, year_of, np.civil_of_days. intros H.
  pose proof (year_of_cycle v) as Hc.
  destruct (np.days_to_yearsdays v) as [year yday]. cbn [fst snd] in Hc.
  destruct (np.month_day _ 0 yday). cbn [fst snd] in H.
  pose proof (Z.div_mod (v - 10957) 146097 ltac:(lia)) as Hd.
  pose proof (Z.mod_pos_bound (v - 10957) 146097 ltac:(lia)) as Hm.
  lia.
Qed.

Lemma weekday_name_int64_year (v : Z) :
  four_digit_year v -> weekday_name_int64 v = weekday_name v.
Proof.
  intros H. apply four_digit_year_range in H.
  apply weekday_name_int64_exact. lia.
Qed.

Lemma hour12_range (h : Z) : 0 <= h <= 23 -> 1 <= hour12 h <= 12.
Proof.
  intros H. unfold hour12.
  destruct (Z.eqb_spec h 0); [lia|]. destruct (Z.ltb_spec 12 h); lia.
Qed.

Lemma hours_labels_nth (h : Z) :
  0 <= h <= 12 -> nth (Z.to_nat h) hours_labels "" = fmt_0d 2 h.
Proof.
  intros H. apply String.eqb_eq.
  apply (forall_below
           (fun h => String.eqb (nth (Z.to_nat h) hours_labels "") (fmt_0d 2 h)) 13);
    [vm_compute; reflexivity | lia].
Qed.

(* ================================================================== *)
(** * The date formatters, element by element                          *)
(* ================================================================== *)

Lemma mapM_map {A B C : Type} (f : A -> B) (g : B -> result C) (l : list A) :
  mapM g (map f l) = mapM (fun x => g (f x)) l.
Proof.
  induction l as [|x r IH]; simpl; [reflexivity|now rewrite IH].
Qed.

Lemma all_nat_of_any_false (date : list np.datetime64) :
  np.any (map valid date) = false -> forall d, In d date -> d = np.NaT.
Proof.
  intros H d Hd. pose proof (any_map_false valid date H d Hd) as E.
  destruct d; [reflexivity | discriminate].
Qed.

(** [result[mask] = s] on a result filled with "NaT": the valid positions
    get their text, the others keep the sentinel. *)
Lemma put_mask_valid (date : list np.datetime64) (F : np.datetime64 -> string) :
  np.put_mask (np.full (List.length date) "NaT") (map valid date)
    (map F (filter valid date))
  = map (fun d => if valid d then F d else "NaT") date.
Proof. rewrite full_as_map. apply put_mask_map. Qed.

Lemma in_valid (date : list np.datetime64) (d : np.datetime64) :
  In d (filter valid date) -> exists v, d = np.DT v /\ In (np.DT v) date.
Proof.
  intros H. apply filter_In in H. destruct H as [Hin Hv].
  destruct d as [|v]; [discriminate|]. now exists v.
Qed.

Lemma ndate_elementwise (date : list np.datetime64) (show_weekday show_month_year : bool) :
  (forall v, In (np.DT v) date -> four_digit_year v) ->
  ndate (Datetime64 date) show_weekday show_month_year
  = Ok (map (date_cell_text show_weekday show_month_year) date).
Proof.
  intros Hy. unfold ndate. cbn [size is_datetime64 negb].
  destruct (Nat.eqb_spec (List.length date) 0) as [E | E].
  { destruct date; [reflexivity | discriminate]. }
  clear E. fold valid.
  destruct (np.any (map valid date)) eqn:Hany; cbn [negb].
  2:{ rewrite full_as_map. f_equal. apply map_ext_in. intros d Hd.
      now rewrite (all_nat_of_any_false date Hany d Hd). }
  rewrite boolean_index_filter.
  set (vs := filter valid date).
  assert (Hvs : forall d, In d vs -> four_digit_year (count_of d)).
  { intros d Hd. destruct (in_valid date d Hd) as [v [-> Hv]]. now apply Hy. }
  rewrite !map_map.
  assert (Hmm : mapM (fun s => Py.int (Py.slice 5 7 s))
                  (map (fun d => np.datetime_as_string_D (count_of d)) vs)
                = Ok (map (fun d => month_of (count_of d)) vs)).
  { rewrite mapM_map. apply mapM_ok. intros d Hd. now apply isoD_slices, Hvs. }
  assert (Hmon : np.take_int months_full (map (fun d => month_of (count_of d)) vs)
                 = Ok (map (fun d => month_name (month_of (count_of d))) vs)).
  { apply (take_int_map months_full (fun d => month_of (count_of d)) "" vs).
    intros d _. pose proof (month_day_range (count_of d)).
    change (Z.of_nat (List.length months_full)) with 13. lia. }
  assert (Hfinal : forall F : np.datetime64 -> string,
             (forall d, In d vs -> F d
                                   = date_text show_weekday show_month_year (count_of d)) ->
             Ok (np.put_mask (np.full (List.length date) "NaT") (map valid date) (map F vs))
             = Ok (map (date_cell_text show_weekday show_month_year) date)).
  { intros F HF. f_equal.
    rewrite (map_ext_in F (fun d => date_text show_weekday show_month_year (count_of d))
               vs HF).
    unfold vs. rewrite put_mask_valid. apply map_ext. intros d. now destruct d. }
  destruct show_month_year.
  - rewrite Hmm. cbn [Py.bind]. rewrite Hmon. cbn [Py.bind].
    unfold np.char_add_r. rewrite map_map, char_add_map.
    apply Hfinal. intros d Hd. unfold date_text.
    destruct (isoD_slices _ (Hvs d Hd)) as [_ [_ [_ ->]]].
    now rewrite string_app_assoc.
  - rewrite Hmm. cbn [Py.bind]. rewrite Hmon. cbn [Py.bind].
    unfold np.char_add_r, np.char_add_l. rewrite !map_map, !char_add_map.
    rewrite !map_map, !char_add_map.
    destruct show_weekday.
    + rewrite weekday_names. cbn [Py.bind].
      rewrite !map_map, !char_add_map.
      apply Hfinal. intros d Hd. unfold date_text, long_date.
      destruct (isoD_slices _ (Hvs d Hd)) as [-> [_ [-> _]]].
      destruct (in_valid date d Hd) as [v [-> _]]. cbn [days_of count_of].
      rewrite (weekday_name_int64_year v (Hvs _ Hd)).
      now rewrite ?string_app_assoc.
    + apply Hfinal. intros d Hd. unfold date_text, long_date.
      destruct (isoD_slices _ (Hvs d Hd)) as [-> [_ [-> _]]].
      now rewrite ?string_app_assoc, ?string_app_nil_r.
Qed.

Lemma hour12_two_steps (h : Z) :
  (fun h => if 12 <? h then h - 12 else h) ((fun h => if h =? 0 then 12 else h) h)
  = hour12 h.
Proof.
  unfold hour12. cbv beta. destruct (Z.eqb_spec h 0); [reflexivity|].
  reflexivity.
Qed.

Lemma ntimestamp_elementwise (timestamp : list np.datetime64)
    (show_weekday show_date show_hours show_minutes show_seconds
     show_timezone : bool) :
  (forall v, In (np.DT v) timestamp -> four_digit_year (v / 86400)) ->
  ntimestamp (Datetime64 timestamp) show_weekday show_date show_hours
    show_minutes show_seconds show_timezone
  = Ok (map (timestamp_cell_text show_weekday show_date show_hours show_minutes
               show_seconds) timestamp).
Proof.
  intros Hy. unfold ntimestamp. cbn [size is_datetime64 negb].
  destruct (Nat.eqb_spec (List.length timestamp) 0) as [E | E].
  { destruct timestamp; [reflexivity | discriminate]. }
  clear E. fold valid.
  destruct (np.any (map valid timestamp)) eqn:Hany; cbn [negb].
  2:{ rewrite full_as_map. f_equal. apply map_ext_in. intros d Hd.
      now rewrite (all_nat_of_any_false timestamp Hany d Hd). }
  rewrite boolean_index_filter.
  set (vs := filter valid timestamp).
  assert (Hvs : forall d, In d vs -> four_digit_year (count_of d / 86400)).
  { intros d Hd. destruct (in_valid timestamp d Hd) as [v [-> Hv]]. now apply Hy. }
  rewrite !map_map.
  assert (Hmm : mapM (fun s => Py.int (Py.slice 5 7 s))
                  (map (fun d => np.datetime_as_string_s (count_of d)) vs)
                = Ok (map (fun d => month_of (count_of d / 86400)) vs)).
  { rewrite mapM_map. apply mapM_ok. intros d Hd. now apply isoS_slices, Hvs. }
  assert (Hmon : np.take_int months_full
                   (map (fun d => month_of (count_of d / 86400)) vs)
                 = Ok (map (fun d => month_name (month_of (count_of d / 86400))) vs)).
  { apply (take_int_map months_full (fun d => month_of (count_of d / 86400)) "" vs).
    intros d _. pose proof (month_day_range (count_of d / 86400)).
    change (Z.of_nat (List.length months_full)) with 13. lia. }
  assert (Hhh : mapM Py.int
                  (map (fun d => Py.slice 11 13 (np.datetime_as_string_s (count_of d))) vs)
                = Ok (map (fun d => hour_of (count_of d)) vs)).
  { rewrite mapM_map. apply mapM_ok. intros d Hd. now apply isoS_slices, Hvs. }
  rewrite Hhh. rewrite Hmm. cbn [Py.bind]. rewrite Hmon. cbn [Py.bind].
  rewrite !map_map.
  rewrite (map_ext _ _ (fun d => hour12_two_steps (hour_of (count_of d)))).
  assert (Hlab : np.take_int hours_labels
                   (map (fun d => hour12 (hour_of (count_of d))) vs)
                 = Ok (map (fun d => fmt_0d 2 (hour12 (hour_of (count_of d)))) vs)).
  { rewrite (take_int_map hours_labels (fun d => hour12 (hour_of (count_of d))) "" vs).
    - f_equal. apply map_ext. intros d. apply hours_labels_nth.
      pose proof (time_of_day_range (count_of d)).
      pose proof (hour12_range (hour_of (count_of d))). lia.
    - intros d _. pose proof (time_of_day_range (count_of d)).
      pose proof (hour12_range (hour_of (count_of d))).
      change (Z.of_nat (List.length hours_labels)) with 13. lia. }
  rewrite Hlab. cbn [Py.bind].
  rewrite !length_map, !full_as_map.
  rewrite (where_map (fun d => 12 <=? hour_of (count_of d))
             (fun _ => " PM") (fun _ => " AM")).
  rewrite weekday_names.
  assert (Hfinal : forall F : np.datetime64 -> string,
             (forall d, In d vs ->
                        F d = timestamp_text show_weekday show_date show_hours
                                show_minutes show_seconds (count_of d)) ->
             Ok (np.put_mask (map (fun _ => "NaT") timestamp) (map valid timestamp)
                   (map F vs))
             = Ok (map (timestamp_cell_text show_weekday show_date show_hours
                          show_minutes show_seconds) timestamp)).
  { intros F HF. f_equal.
    rewrite (map_ext_in F _ vs HF).
    unfold vs. rewrite put_mask_map. apply map_ext. intros d. now destruct d. }
  unfold np.char_add_r, np.char_add_l.
  destruct show_date, show_hours, show_minutes, show_seconds, show_weekday;
    cbn [Py.bind app fold_left hd tl];
    rewrite ?map_map, ?char_add_map;
    repeat (rewrite ?map_map; rewrite ?char_add_map);
    apply Hfinal; intros d Hd; unfold timestamp_text, long_date;
    destruct (isoS_slices _ (Hvs d Hd)) as [Hs1 [_ [Hs3 [_ [Hs5 Hs6]]]]];
    rewrite ?Hs1, ?Hs3, ?Hs5, ?Hs6;
    destruct (in_valid timestamp d Hd) as [v [-> _]]; cbn [days_of count_of];
    rewrite ?(weekday_name_int64_year (v / 86400) (Hvs _ Hd));
    unfold month_name;
    rewrite ?string_app_assoc, ?string_app_nil_r; reflexivity.
Qed.

Lemma relative_alias (diff : Z) :
  (if (-8 <=? diff) && (diff <=? -2) then "Coming "
   else if diff =? -1 then "Tomorrow, "
   else if diff =? 0 then "Today, "
   else if diff =? 1 then "Yesterday, "
   else if (2 <=? diff) && (diff <=? 8) then "Last "
   else "")
  = relative_prefix diff.
Proof.
  unfold relative_prefix.
  destruct (Z.leb_spec (-8) diff), (Z.leb_spec diff (-2)), (Z.eqb_spec diff (-1)),
    (Z.eqb_spec diff 0), (Z.eqb_spec diff 1), (Z.leb_spec 2 diff),
    (Z.leb_spec diff 8); cbn [andb]; try reflexivity; lia.
Qed.

Lemma nday_elementwise (date : list np.datetime64) (show_relative_day : bool)
    (c : clock) (reads : nat) :
  nday (Datetime64 date) show_relative_day c reads
  = (Ok (map (day_text_int64 show_relative_day (c reads)) date),
     if show_relative_day && np.any (map valid date) then S reads else reads).
Proof.
  unfold nday. cbn [size is_datetime64 negb].
  destruct (Nat.eqb_spec (List.length date) 0) as [E | E].
  { destruct date; [|discriminate]. cbn. now rewrite andb_false_r. }
  clear E. fold valid.
  destruct (np.any (map valid date)) eqn:Hany; cbn [negb].
  2:{ rewrite andb_false_r, full_as_map. f_equal. f_equal.
      apply map_ext_in. intros d Hd.
      now rewrite (all_nat_of_any_false date Hany d Hd). }
  rewrite andb_true_r, boolean_index_filter, weekday_names.
  set (vs := filter valid date).
  destruct show_relative_day.
  - unfold datetime64_today. cbv beta iota zeta.
    rewrite !map_map, !length_map, !full_as_map.
    rewrite (put_mask_scalar_map
               (fun d => (2 <=? np.int64 (c reads - days_of unit_D d))
                         && (np.int64 (c reads - days_of unit_D d) <=? 8))
               (fun _ => "") "Last " vs).
    rewrite (put_mask_scalar_map
               (fun d => np.int64 (c reads - days_of unit_D d) =? 1) _ "Yesterday, " vs).
    rewrite (put_mask_scalar_map
               (fun d => np.int64 (c reads - days_of unit_D d) =? 0) _ "Today, " vs).
    rewrite (put_mask_scalar_map
               (fun d => np.int64 (c reads - days_of unit_D d) =? -1) _ "Tomorrow, " vs).
    rewrite (put_mask_scalar_map
               (fun d => (-8 <=? np.int64 (c reads - days_of unit_D d))
                         && (np.int64 (c reads - days_of unit_D d) <=? -2)) _ "Coming " vs).
    rewrite char_add_map. f_equal. f_equal.
    unfold vs. rewrite put_mask_map. apply map_ext. intros d.
    destruct d as [|v]; [reflexivity|].
    cbn [valid np.isnat negb day_text_int64 days_of].
    now rewrite relative_alias.
  - f_equal. f_equal. unfold vs. rewrite put_mask_valid. apply map_ext. intros d.
    now destruct d.
Qed.

(** ** Normalization of the input of a date formatter *)

Lemma astype_readable (a : list cell) :
  (forall cl, In cl a -> is_ctext cl = false) ->
  astype_datetime64 (Object a) = Ok (Datetime64 (map to_datetime64 a)).
Proof.
  intros H. unfold astype_datetime64.
  rewrite (mapM_ok _ to_datetime64 a); [reflexivity|].
  intros cl Hcl. specialize (H cl Hcl). destruct cl; [reflexivity..|discriminate].
Qed.

Lemma astype_unreadable (a : list cell) :
  (exists cl, In cl a /\ is_ctext cl = true) ->
  astype_datetime64 (Object a) = Raise (ValueError "Error parsing datetime string").
Proof.
  intros [cl [Hin Ht]]. unfold astype_datetime64.
  rewrite (mapM_raise _ a (ValueError "Error parsing datetime string")); [reflexivity| |].
  - intros x _. destruct x; eauto.
  - exists cl. split; [exact Hin|]. destruct cl; [discriminate..|reflexivity].
Qed.

Lemma readable_dec (a : list cell) :
  (forall cl, In cl a -> is_ctext cl = false)
  \/ (exists cl, In cl a /\ is_ctext cl = true).
Proof.
  induction a as [|x r [IH | [cl [Hin Ht]]]].
  - left. intros cl [].
  - destruct (is_ctext x) eqn:E.
    + right. exists x. split; [now left | exact E].
    + left. intros cl [<- | Hcl]; [exact E | now apply IH].
  - right. exists cl. split; [now right | exact Ht].
Qed.

(** The batch cannot be normalized exactly when it holds an unreadable
    element. *)
Lemma normalized_none (x : array) : normalized x = None <-> has_unreadable x.
Proof.
  unfold normalized, has_unreadable. destruct x as [a | a].
  - cbn. split; [discriminate | intros [i []]].
  - destruct (readable_dec a) as [H | H].
    + rewrite (astype_readable a H). split; [discriminate|].
      intros [i [s Hs]]. apply nth_error_In in Hs. specialize (H _ Hs). discriminate.
    + rewrite (astype_unreadable a H). split; [|reflexivity]. intros _.
      destruct H as [cl [Hin Ht]]. destruct cl as [| |s]; try discriminate.
      apply In_nth_error in Hin. destruct Hin as [i Hi]. exists i. cbn. eauto.
Qed.

(** A normalized batch has the length of the input, and is not-a-time at
    the positions where the input is. *)
Lemma normalized_some (x : array) (a : list np.datetime64) :
  normalized x = Some a ->
  List.length a = size x
  /\ forall i, nth_error a i = Some np.NaT <-> not_a_time_at x i.
Proof.
  unfold normalized. destruct x as [b | b].
  - cbn. intros H. inversion H. subst. split; [reflexivity|]. intros i. reflexivity.
  - destruct (readable_dec b) as [H | H].
    + rewrite (astype_readable b H). intros E. inversion E. subst. clear E.
      split; [apply length_map|].
      intros i. cbn [not_a_time_at]. rewrite nth_error_map.
      destruct (nth_error b i) as [cl|] eqn:E; cbn [option_map].
      * assert (Hcl : is_ctext cl = false) by (apply H; eapply nth_error_In; eauto).
        destruct cl; try discriminate; split; intros G; try discriminate; reflexivity.
      * split; discriminate.
    + rewrite (astype_unreadable b H). discriminate.
Qed.

Lemma normalized_datetime64 (a : list np.datetime64) :
  normalized (Datetime64 a) = Some a.
Proof. reflexivity. Qed.

Lemma normalized_object (a : list cell) :
  (normalized (Object a) = Some (map to_datetime64 a)
   /\ astype_datetime64 (Object a) = Ok (Datetime64 (map to_datetime64 a)))
  \/ (normalized (Object a) = None
      /\ exists e, astype_datetime64 (Object a) = Raise e).
Proof.
  unfold normalized. destruct (readable_dec a) as [H | H].
  - left. now rewrite (astype_readable a H).
  - right. rewrite (astype_unreadable a H). eauto.
Qed.

(** A formatter sees its input through the normalization: a batch that
    cannot be normalized renders "NaT" everywhere. *)
Lemma ndate_normalize (x : array) (show_weekday show_month_year : bool) :
  ndate x show_weekday show_month_year
  = match normalized x with
    | Some a => ndate (Datetime64 a) show_weekday show_month_year
    | None => Ok (np.full (size x) "NaT")
    end.
Proof.
  destruct x as [a | a]; [reflexivity|].
  destruct a as [|c0 r]; [reflexivity|].
  destruct (normalized_object (c0 :: r)) as [[-> E] | [-> [e E]]];
    unfold ndate; cbn [size is_datetime64 negb List.length Nat.eqb map];
    rewrite E; reflexivity.
Qed.

Lemma ntimestamp_normalize (x : array)
    (show_weekday show_date show_hours show_minutes show_seconds
     show_timezone : bool) :
  ntimestamp x show_weekday show_date show_hours show_minutes show_seconds
    show_timezone
  = match normalized x with
    | Some a =>
        ntimestamp (Datetime64 a) show_weekday show_date show_hours show_minutes
          show_seconds show_timezone
    | None => Ok (np.full (size x) "NaT")
    end.
Proof.
  destruct x as [a | a]; [reflexivity|].
  destruct a as [|c0 r]; [reflexivity|].
  destruct (normalized_object (c0 :: r)) as [[-> E] | [-> [e E]]];
    unfold ntimestamp; cbn [size is_datetime64 negb List.length Nat.eqb map];
    rewrite E; reflexivity.
Qed.

Lemma nday_normalize (x : array) (show_relative_day : bool) (c : clock) (reads : nat) :
  nday x show_relative_day c reads
  = match normalized x with
    | Some a => nday (Datetime64 a) show_relative_day c reads
    | None => (Ok (np.full (size x) "NaT"), reads)
    end.
Proof.
  destruct x as [a | a]; [reflexivity|].
  destruct a as [|c0 r]; [reflexivity|].
  destruct (normalized_object (c0 :: r)) as [[-> E] | [-> [e E]]];
    unfold nday; cbn [size is_datetime64 negb List.length Nat.eqb map];
    rewrite E; reflexivity.
Qed.

(** ** The sentinel stands at the invalid positions only *)

Lemma has_char_app (c : ascii) (a b : string) :
  has_char c (a ++ b) = has_char c a || has_char c b.
Proof.
  induction a as [|x r IH]; simpl; [reflexivity|].
  now rewrite IH, orb_assoc.
Qed.

Lemma not_nat_of_char (c : ascii) (s : string) :
  has_char c "NaT" = false -> has_char c s = true -> s <> "NaT".
Proof. intros H1 H2 ->. congruence. Qed.

Lemma timestamp_text_not_sentinel
    (show_weekday show_date show_hours show_minutes show_seconds : bool) (v : Z) :
  timestamp_text show_weekday show_date show_hours show_minutes show_seconds v
  <> "NaT".
Proof.
  apply (not_nat_of_char " "); [reflexivity|].
  unfold timestamp_text. rewrite !has_char_app.
  replace (has_char " " (if 12 <=? hour_of v then " PM" else " AM")) with true
    by (now destruct (12 <=? hour_of v)).
  now rewrite !orb_true_r.
Qed.

Lemma date_text_not_sentinel (show_weekday show_month_year : bool) (v : Z) :
  date_text show_weekday show_month_year v <> "NaT".
Proof.
  unfold date_text, long_date. destruct show_month_year.
  - apply (not_nat_of_char "'"); [reflexivity|].
    rewrite !has_char_app. cbn. now rewrite orb_true_r.
  - apply (not_nat_of_char " "); [reflexivity|].
    rewrite !has_char_app. cbn. now rewrite ?orb_true_r.
Qed.

Lemma weekday_name_cases (v : Z) : In (weekday_name_int64 v) weekday_table.
Proof.
  unfold weekday_name_int64. apply nth_In.
  pose proof (Z.mod_pos_bound (np.int64 (v + 3)) 7 ltac:(lia)).
  change (List.length weekday_table) with 7%nat. lia.
Qed.

Lemma day_text_not_sentinel (show_relative_day : bool) (today v : Z) :
  day_text_int64 show_relative_day today (np.DT v) <> "NaT".
Proof.
  cbn [day_text_int64].
  set (prefixes := [""; "Today, "; "Yesterday, "; "Last "; "Tomorrow, "; "Coming "]).
  assert (C : forallb (fun p => forallb (fun n => negb (String.eqb (p ++ n) "NaT"))
                                  weekday_table) prefixes = true) by reflexivity.
  assert (P : forall p, In p prefixes -> p ++ weekday_name_int64 v <> "NaT").
  { intros p Hp E. rewrite forallb_forall in C. specialize (C p Hp).
    rewrite forallb_forall in C. specialize (C _ (weekday_name_cases v)).
    apply negb_true_iff, String.eqb_neq in C. contradiction. }
  apply P. unfold prefixes. destruct show_relative_day; [|cbn; auto].
  unfold relative_prefix. cbn [In].
  repeat match goal with |- context [if ?b then _ else _] => destruct b end; auto 10.
Qed.

Lemma sentinel_positions (F : np.datetime64 -> string) (a : list np.datetime64) :
  F np.NaT = "NaT" -> (forall v, F (np.DT v) <> "NaT") ->
  forall i, nth_error (map F a) i = Some "NaT" <-> nth_error a i = Some np.NaT.
Proof.
  intros HN HV i. rewrite nth_error_map.
  destruct (nth_error a i) as [[|v]|]; cbn [option_map].
  - rewrite HN. tauto.
  - split; intros H; inversion H. now apply HV in H1.
  - split; discriminate.
Qed.

Lemma nth_error_full {A : Type} (n i : nat) (v : A) :
  (i < n)%nat -> nth_error (np.full n v) i = Some v.
Proof.
  unfold np.full. revert i. induction n as [|n IH]; intros i H; [lia|].
  destruct i; [reflexivity|]. cbn. apply IH. lia.
Qed.

Lemma length_full {A : Type} (n : nat) (v : A) : List.length (np.full n v) = n.
Proof. apply repeat_length. Qed.

(* ================================================================== *)
(** * Properties of the date formatters                                *)
(* ================================================================== *)

(** C6, as stated, fails for a valid timestamp whose year has five digits:
    the ISO text of 10000-01-01T00:00:00 is one character longer, the
    slice for the hour is "T0", and the call raises. *)
Lemma ntimestamp_five_digit_year :
  np.datetime_as_string_s 253402300800 = "10000-01-01T00:00:00"
  /\ Py.slice 11 13 (np.datetime_as_string_s 253402300800) = "T0"
  /\ ntimestamp (Datetime64 [np.DT 253402300800]) true true true true true false
     = Raise (ValueError "invalid literal for int() with base 10").
Proof. repeat split; vm_compute; reflexivity. Qed.

(** C6 (amended).  For every batch whose valid timestamps have a
    four-digit year (0000 to 9999), each valid timestamp is rendered as the
    date part, the zero-padded 12-hour hour, the minute, the second (each
    if requested), then always the AM/PM marker (PM iff hour >= 12), then
    the weekday (if requested), in this order; [show_timezone] has no
    effect.  Hour 0 is written 12, hours 1 to 12 unchanged, hours 13 to 23
    minus 12.  The documented scenario evaluates to the documented
    string. *)
Theorem ntimestamp_fixed_order :
  (forall timestamp show_weekday show_date show_hours show_minutes show_seconds
          show_timezone,
      (forall v, In (np.DT v) timestamp -> four_digit_year (v / 86400)) ->
      ntimestamp (Datetime64 timestamp) show_weekday show_date show_hours
        show_minutes show_seconds show_timezone
      = Ok (map (timestamp_cell_text show_weekday show_date show_hours
                   show_minutes show_seconds) timestamp))
  /\ hour12 0 = 12
  /\ (forall h, 1 <= h <= 12 -> hour12 h = h)
  /\ (forall h, 13 <= h <= 23 -> hour12 h = h - 12)
  /\ np.datetime_as_string_s 1672576245 = "2023-01-01T12:30:45"
  /\ ntimestamp (Datetime64 [np.DT 1672576245]) true true true true true false
     = Ok ["Jan 01, 2023 12H 30M 45S PM (Sun)"]
  /\ ntimestamp (Object [CInstant 1672576245]) true true true true true false
     = Ok ["Jan 01, 2023 12H 30M 45S PM (Sun)"].
Proof.
  split; [|split; [|split; [|split; [|split; [|split]]]]].
  - intros. now apply ntimestamp_elementwise.
  - reflexivity.
  - intros h H. unfold hour12.
    destruct (Z.eqb_spec h 0); [lia|]. destruct (Z.ltb_spec 12 h); lia.
  - intros h H. unfold hour12.
    destruct (Z.eqb_spec h 0); [lia|]. destruct (Z.ltb_spec 12 h); lia.
  - vm_compute. reflexivity.
  - vm_compute. reflexivity.
  - vm_compute. reflexivity.
Qed.

(** 2023-01-01T14:30:05 lies in a year of four digits. *)
Lemma four_digit_year_2023 : four_digit_year (1672583405 / 86400).
Proof. unfold four_digit_year. vm_compute. split; discriminate. Qed.

(** A batch of 2023-01-01T14:30:05 and a not-a-time, without date and
    weekday. *)
Lemma ntimestamp_fixed_order_witness :
  ntimestamp (Datetime64 [np.DT 1672583405; np.NaT]) false false true true true true
  = Ok (map (timestamp_cell_text false false true true true)
            [np.DT 1672583405; np.NaT]).
Proof.
  apply (proj1 ntimestamp_fixed_order).
  intros v [H | [H | []]]; [|discriminate].
  inversion H. subst. exact four_digit_year_2023.
Defined.

(** C7, as stated, fails: one unreadable element makes the conversion of
    the whole batch fail, and the readable date beside it renders "NaT"
    too. *)
Lemma ndate_unreadable_poisons_batch :
  ndate (Object [CInstant 19358; CText "not-a-date"]) true false = Ok ["NaT"; "NaT"]
  /\ ~ fails_normalization (Object [CInstant 19358; CText "not-a-date"]) 0
  /\ ndate (Object [CInstant 19358]) true false = Ok ["Jan 01, 2023 (Sun)"].
Proof.
  split; [vm_compute; reflexivity|]. split; [|vm_compute; reflexivity].
  intros [[s H] | H]; discriminate.
Qed.

(** C7 (amended).  A batch that holds an unreadable element cannot be
    normalized at all, and every position of the output is "NaT", the
    readable ones included.  A batch that normalizes renders "NaT" at
    exactly the positions whose element is not-a-time ([ndate] and
    [ntimestamp]: when the valid dates have four-digit years).  In both
    cases the call returns, and the output has the length of the input. *)
Theorem sentinel_at_invalid_positions :
  forall x : array,
    (has_unreadable x ->
     normalized x = None
     /\ (forall show_relative_day c reads,
            nday x show_relative_day c reads = (Ok (np.full (size x) "NaT"), reads))
     /\ (forall show_weekday show_month_year,
            ndate x show_weekday show_month_year = Ok (np.full (size x) "NaT"))
     /\ (forall show_weekday show_date show_hours show_minutes show_seconds
                show_timezone,
            ntimestamp x show_weekday show_date show_hours show_minutes
              show_seconds show_timezone
            = Ok (np.full (size x) "NaT")))
    /\ (~ has_unreadable x ->
        exists a,
          normalized x = Some a
          /\ (forall show_relative_day c reads,
                 exists out,
                   fst (nday x show_relative_day c reads) = Ok out
                   /\ List.length out = size x
                   /\ forall i, nth_error out i = Some "NaT" <-> not_a_time_at x i)
          /\ (forall show_weekday show_month_year,
                 (forall v, In (np.DT v) a -> four_digit_year v) ->
                 exists out,
                   ndate x show_weekday show_month_year = Ok out
                   /\ List.length out = size x
                   /\ forall i, nth_error out i = Some "NaT" <-> not_a_time_at x i)
          /\ (forall show_weekday show_date show_hours show_minutes show_seconds
                     show_timezone,
                 (forall v, In (np.DT v) a -> four_digit_year (v / 86400)) ->
                 exists out,
                   ntimestamp x show_weekday show_date show_hours show_minutes
                     show_seconds show_timezone = Ok out
                   /\ List.length out = size x
                   /\ forall i, nth_error out i = Some "NaT" <-> not_a_time_at x i)).
Proof.
  intros x. split.
  - intros Hu. apply normalized_none in Hu. split; [exact Hu|].
    split; [|split]; intros.
    + now rewrite nday_normalize, Hu.
    + now rewrite ndate_normalize, Hu.
    + now rewrite ntimestamp_normalize, Hu.
  - intros Hr.
    destruct (normalized x) as [a|] eqn:Hn.
    2:{ exfalso. apply Hr. now apply normalized_none. }
    destruct (normalized_some x a Hn) as [Hlen Hnat].
    exists a. split; [reflexivity|]. split; [|split].
    + intros srd c reads. rewrite nday_normalize, Hn, nday_elementwise.
      eexists. split; [reflexivity|]. split; [now rewrite length_map|].
      intros i. rewrite <- Hnat. apply sentinel_positions; [reflexivity|].
      intros v. apply day_text_not_sentinel.
    + intros swd smy Hy. rewrite ndate_normalize, Hn, (ndate_elementwise a swd smy Hy).
      eexists. split; [reflexivity|]. split; [now rewrite length_map|].
      intros i. rewrite <- Hnat. apply sentinel_positions; [reflexivity|].
      intros v. apply date_text_not_sentinel.
    + intros swd sd sh sm ss stz Hy.
      rewrite ntimestamp_normalize, Hn, (ntimestamp_elementwise a swd sd sh sm ss stz Hy).
      eexists. split; [reflexivity|]. split; [now rewrite length_map|].
      intros i. rewrite <- Hnat. apply sentinel_positions; [reflexivity|].
      intros v. apply timestamp_text_not_sentinel.
Qed.

(** A list of two dates of 2024 and a missing one holds nothing
    unreadable. *)
Lemma batch_2024_readable :
  ~ has_unreadable (Object [CInstant 19723; CNone; CInstant 19729]).
Proof.
  intros [i [s H]].
  destruct i as [|[|[|i]]]; cbn in H; try discriminate. now destruct i.
Qed.

(** The readable list 2024-01-01, None, 2024-01-07. *)
Lemma sentinel_at_invalid_positions_witness :
  exists a,
    normalized (Object [CInstant 19723; CNone; CInstant 19729]) = Some a
    /\ (forall show_relative_day c reads,
           exists out,
             fst (nday (Object [CInstant 19723; CNone; CInstant 19729])
                    show_relative_day c reads) = Ok out
             /\ List.length out = size (Object [CInstant 19723; CNone; CInstant 19729])
             /\ forall i,
                  nth_error out i = Some "NaT"
                  <-> not_a_time_at (Object [CInstant 19723; CNone; CInstant 19729]) i)
    /\ (forall show_weekday show_month_year,
           (forall v, In (np.DT v) a -> four_digit_year v) ->
           exists out,
             ndate (Object [CInstant 19723; CNone; CInstant 19729])
               show_weekday show_month_year = Ok out
             /\ List.length out = size (Object [CInstant 19723; CNone; CInstant 19729])
             /\ forall i,
                  nth_error out i = Some "NaT"
                  <-> not_a_time_at (Object [CInstant 19723; CNone; CInstant 19729]) i)
    /\ (forall show_weekday show_date show_hours show_minutes show_seconds
               show_timezone,
           (forall v, In (np.DT v) a -> four_digit_year (v / 86400)) ->
           exists out,
             ntimestamp (Object [CInstant 19723; CNone; CInstant 19729])
               show_weekday show_date show_hours show_minutes show_seconds
               show_timezone = Ok out
             /\ List.length out = size (Object [CInstant 19723; CNone; CInstant 19729])
             /\ forall i,
                  nth_error out i = Some "NaT"
                  <-> not_a_time_at (Object [CInstant 19723; CNone; CInstant 19729]) i).
Proof.
  exact (proj2 (sentinel_at_invalid_positions
                  (Object [CInstant 19723; CNone; CInstant 19729]))
           batch_2024_readable).
Defined.


(** A batch whose valid dates are in range is rendered in exact
    arithmetic. *)
Lemma nday_in_range (date : list np.datetime64) (show_relative_day : bool)
    (c : clock) (reads : nat) :
  (forall v, In (np.DT v) date -> day_in_range v) ->
  nday (Datetime64 date) show_relative_day c reads
  = (Ok (map (day_text show_relative_day (c reads)) date),
     if show_relative_day && np.any (map valid date) then S reads else reads).
Proof.
  intros H. rewrite nday_elementwise. f_equal. f_equal.
  apply map_ext_in. intros d Hd. destruct d as [|v]; [reflexivity|].
  specialize (H v Hd). unfold day_in_range in H.
  pose proof (today_in_range c reads) as Hc.
  apply day_text_int64_exact; lia.
Qed.



(** C10.  On an empty batch every formatter returns the empty batch,
    whatever the options, and [nday] does not read the clock. *)
Theorem empty_batch_empty_result :
  (forall is_ratio digits show_plus_sign show_growth_factor show_bps,
      npercent [] is_ratio digits show_plus_sign show_growth_factor show_bps = Ok [])
  /\ (forall show_relative_day c reads,
         nday (Datetime64 []) show_relative_day c reads = (Ok [], reads)
         /\ nday (Object []) show_relative_day c reads = (Ok [], reads))
  /\ (forall show_weekday show_month_year,
         ndate (Datetime64 []) show_weekday show_month_year = Ok []
         /\ ndate (Object []) show_weekday show_month_year = Ok [])
  /\ (forall show_weekday show_date show_hours show_minutes show_seconds
             show_timezone,
         ntimestamp (Datetime64 []) show_weekday show_date show_hours show_minutes
           show_seconds show_timezone = Ok []
         /\ ntimestamp (Object []) show_weekday show_date show_hours show_minutes
              show_seconds show_timezone = Ok []).
Proof.
  split; [|split; [|split]]; intros.
  - destruct is_ratio; reflexivity.
  - split; reflexivity.
  - split; reflexivity.
  - split; reflexivity.
Qed.

(* ================================================================== *)
(** * Further properties                                               *)
(* ================================================================== *)

(** Length preservation: whenever every element of a batch that is not
    empty converts and the unit is recognized, [nnumber] returns one string
    per element. *)
Theorem nnumber_length :
  forall log10 number xs digits unit unit_labels thousand_separator,
    number <> [] ->
    asanyarray_float number = Ok xs ->
    recognized_unit unit unit_labels ->
    exists out,
      nnumber log10 number digits unit unit_labels "" "" thousand_separator = Ok out
      /\ List.length out = List.length number.
Proof.
  intros log10 number xs digits unit unit_labels sep Hne Hconv Hunit.
  destruct (nnumber_total log10 number xs digits unit unit_labels "" "" sep
              Hconv (asanyarray_float_not_nil number xs Hconv Hne) Hunit)
    as [ix [_ Hout]].
  eexists. split; [exact Hout|].
  rewrite length_map. now apply mapM_length in Hconv.
Qed.

(** Three elements, one of them missing, in unit mode [auto]. *)
Lemma nnumber_length_witness :
  exists out,
    nnumber log10_whole [integer 1; PyNone; integer 3] 1 "auto" default_labels
      "" "" "," = Ok out
    /\ List.length out = 3%nat.
Proof.
  apply (nnumber_length log10_whole [integer 1; PyNone; integer 3]
           [np.of_Z 1; np.nan; np.of_Z 3]).
  - discriminate.
  - reflexivity.
  - now left.
Defined.



(** The percent formatter, element by element: sign, rounded percentage,
    "%", then the growth-factor annotation and the basis-points annotation
    when requested. *)
Theorem npercent_text :
  forall percent xs is_ratio digits show_plus_sign show_growth_factor show_bps,
    asanyarray_float percent = Ok xs ->
    npercent percent is_ratio digits show_plus_sign show_growth_factor show_bps
    = Ok (map (percent_text digits show_plus_sign show_growth_factor show_bps)
              (if is_ratio then map (fun v => np.mul v (np.of_Z 100)) xs else xs)).
Proof. intros. now apply npercent_elementwise. Qed.

(** The ratios -4.01 and 2.56 with their growth factors. *)
Lemma npercent_text_witness :
  npercent [decimal (-401) 2; decimal 256 2] true 1 true true false
  = Ok (map (percent_text 1 true true false)
            (map (fun v => np.mul v (np.of_Z 100))
                 [np.div (np.of_Z (-401)) (np.of_Z 100);
                  np.div (np.of_Z 256) (np.of_Z 100)])).
Proof.
  exact (npercent_text [decimal (-401) 2; decimal 256 2]
           [np.div (np.of_Z (-401)) (np.of_Z 100); np.div (np.of_Z 256) (np.of_Z 100)]
           true 1%nat true true false eq_refl).
Defined.

(** The date formatter, element by element: "<Mon> <DD>, <YYYY>", followed
    by " (<Weekday>)" with [show_weekday]; with [show_month_year] the
    compact "<Mon>'<YY>", whatever [show_weekday]. *)
Theorem ndate_text :
  forall date show_weekday show_month_year,
    (forall v, In (np.DT v) date -> four_digit_year v) ->
    ndate (Datetime64 date) show_weekday show_month_year
    = Ok (map (date_cell_text show_weekday show_month_year) date).
Proof. intros. now apply ndate_elementwise. Qed.

(** 2023-05-15 lies in a year of four digits. *)
Lemma four_digit_year_may_2023 : four_digit_year 19492.
Proof. unfold four_digit_year. vm_compute. split; discriminate. Qed.

(** 2023-05-15 and a not-a-time, in the compact form. *)
Lemma ndate_text_witness :
  ndate (Datetime64 [np.DT 19492; np.NaT]) true true
  = Ok (map (date_cell_text true true) [np.DT 19492; np.NaT]).
Proof.
  apply ndate_text.
  intros v [H | [H | []]]; [|discriminate].
  inversion H. subst. exact four_digit_year_may_2023.
Defined.

(** The unique index: the distinct value at [inverse[i]] compares equal to
    [batch[i]], and [inverse] has the length of the batch. *)
Theorem unique_index_invariant :
  forall batch : list np.float,
    List.length (snd (np.unique_float batch)) = List.length batch
    /\ forall i x,
         nth_error batch i = Some x ->
         exists j u,
           nth_error (snd (np.unique_float batch)) i = Some j
           /\ nth_error (fst (np.unique_float batch)) j = Some u
           /\ np.float_same u x = true.
Proof.
  intros batch. split.
  - apply (unique_inverse_length np.float_before np.float_same).
  - intros i x Hx.
    assert (Hin : In x batch) by (eapply nth_error_In; eauto).
    destruct (unique_inverse np.float_before np.float_same float_same_refl
                float_same_trans batch x Hin) as [Hlt Hsame].
    exists (np.find_index np.float_same x (fst (np.unique_float batch))).
    exists (nth (np.find_index np.float_same x (fst (np.unique_float batch)))
              (fst (np.unique_float batch)) x).
    split; [|split].
    + cbn [snd np.unique_float np.unique]. rewrite nth_error_map, Hx. reflexivity.
    + apply nth_error_nth'. exact Hlt.
    + apply Hsame.
Qed.

(* ================================================================== *)
(** * The characters of a formatted number                             *)
(* ================================================================== *)

Lemma list_of_string_app (a b : string) :
  np.list_of_string (a ++ b) = (np.list_of_string a ++ np.list_of_string b)%list.
Proof. induction a as [|c r IH]; cbn; [reflexivity | now rewrite IH]. Qed.

Lemma list_of_string_of_list (l : list ascii) :
  np.list_of_string (np.string_of_list l) = l.
Proof. induction l as [|c r IH]; cbn; [reflexivity | now rewrite IH]. Qed.

Lemma string_of_list_of_string (s : string) :
  np.string_of_list (np.list_of_string s) = s.
Proof. induction s as [|c r IH]; cbn; [reflexivity | now rewrite IH]. Qed.

Lemma all_chars_app (P : ascii -> bool) (a b : string) :
  all_chars P (a ++ b) = all_chars P a && all_chars P b.
Proof. unfold all_chars. now rewrite list_of_string_app, forallb_app. Qed.

Lemma all_chars_weaken (P Q : ascii -> bool) (s : string) :
  (forall c, P c = true -> Q c = true) ->
  all_chars P s = true -> all_chars Q s = true.
Proof.
  unfold all_chars. intros H. rewrite !forallb_forall. auto.
Qed.

Lemma digit_char_digit (n : Z) : digit (digit_char (n mod 10)) = true.
Proof.
  pose proof (Z.mod_pos_bound n 10 ltac:(lia)) as H.
  assert (C : n mod 10 = 0 \/ n mod 10 = 1 \/ n mod 10 = 2 \/ n mod 10 = 3
              \/ n mod 10 = 4 \/ n mod 10 = 5 \/ n mod 10 = 6 \/ n mod 10 = 7
              \/ n mod 10 = 8 \/ n mod 10 = 9) by lia.
  repeat destruct C as [C | C]; rewrite C; reflexivity.
Qed.

Lemma digits_acc_digits (fuel : nat) (n : Z) (acc : string) :
  all_chars digit acc = true -> all_chars digit (digits_acc fuel n acc) = true.
Proof.
  revert n acc. induction fuel as [|f IH]; intros n acc H; [exact H|].
  cbn [digits_acc].
  assert (H' : all_chars digit (String (digit_char (n mod 10)) acc) = true).
  { unfold all_chars in *. cbn [np.list_of_string forallb].
    now rewrite digit_char_digit, H. }
  destruct (n <? 10); [exact H' | now apply IH].
Qed.

Lemma str_nat_digits (n : Z) : all_chars digit (str_nat n) = true.
Proof. unfold str_nat. now apply digits_acc_digits. Qed.

Lemma zeros_digits (n : nat) : all_chars digit (zeros n) = true.
Proof. induction n as [|n IH]; [reflexivity | exact IH]. Qed.

Lemma zfill_digits (w : nat) (s : string) :
  all_chars digit s = true -> all_chars digit (zfill w s) = true.
Proof.
  intros H. unfold zfill. now rewrite all_chars_app, zeros_digits, H.
Qed.

Lemma substring_chars (P : ascii -> bool) (s : string) :
  all_chars P s = true -> forall a n, all_chars P (substring a n s) = true.
Proof.
  unfold all_chars. induction s as [|c r IH]; intros H a n.
  - destruct a, n; reflexivity.
  - cbn [np.list_of_string forallb] in H. apply andb_prop in H. destruct H as [Hc Hr].
    destruct a as [|a].
    + destruct n as [|n]; [reflexivity|].
      cbn [substring np.list_of_string forallb]. rewrite Hc. now apply IH.
    + cbn [substring]. now apply IH.
Qed.

Lemma group3_rev_chars (l : list ascii) (k : nat) :
  forallb digit l = true ->
  forallb (fun c => digit c || Ascii.eqb c ",") (np.group3_rev l k) = true
  /\ filter (fun c => negb (Ascii.eqb c ",")) (np.group3_rev l k) = l.
Proof.
  revert k. induction l as [|c r IH]; intros k H; [split; reflexivity|].
  cbn [forallb] in H. apply andb_prop in H. destruct H as [Hc Hr].
  assert (Hn : Ascii.eqb c "," = false).
  { destruct (Ascii.eqb_spec c ",") as [-> | ?]; [discriminate | reflexivity]. }
  assert (G : forall j,
             forallb (fun c => digit c || Ascii.eqb c ",") (c :: np.group3_rev r j) = true
             /\ filter (fun c => negb (Ascii.eqb c ",")) (c :: np.group3_rev r j) = c :: r).
  { intros j. destruct (IH j Hr) as [I1 I2]. cbn [forallb filter].
    rewrite Hc, Hn, I1, I2. split; reflexivity. }
  cbn [np.group3_rev].
  destruct k as [|[|[|[|k]]]]; apply G.
Qed.

Lemma forallb_rev {A : Type} (p : A -> bool) (l : list A) :
  forallb p (rev l) = forallb p l.
Proof.
  induction l as [|a r IH]; [reflexivity|].
  cbn [rev forallb]. rewrite forallb_app, IH. cbn. now rewrite andb_true_r, andb_comm.
Qed.

Lemma filter_rev_list {A : Type} (p : A -> bool) (l : list A) :
  filter p (rev l) = rev (filter p l).
Proof.
  induction l as [|a r IH]; [reflexivity|].
  cbn [rev filter]. rewrite filter_app, IH. cbn [filter].
  destruct (p a); [reflexivity | now rewrite app_nil_r].
Qed.

Lemma list_of_string_replace_empty (c : ascii) (s : string) :
  np.list_of_string (Py.replace c "" s)
  = filter (fun x => negb (Ascii.eqb x c)) (np.list_of_string s).
Proof.
  induction s as [|x r IH]; [reflexivity|].
  cbn [Py.replace np.list_of_string filter]. destruct (Ascii.eqb x c); cbn; now rewrite IH.
Qed.

(** Grouping adds commas only: taking them out gives the digits back. *)
Lemma group3_chars (s : string) :
  all_chars digit s = true ->
  all_chars (fun c => digit c || Ascii.eqb c ",") (np.group3 s) = true
  /\ Py.replace "," "" (np.group3 s) = s.
Proof.
  intros H. unfold np.group3.
  assert (Hr : forallb digit (rev (np.list_of_string s)) = true)
    by (now rewrite forallb_rev).
  destruct (group3_rev_chars _ 0 Hr) as [G1 G2]. split.
  - unfold all_chars. now rewrite list_of_string_of_list, forallb_rev.
  - rewrite <- (string_of_list_of_string (Py.replace _ _ _)).
    rewrite list_of_string_replace_empty, list_of_string_of_list, filter_rev_list, G2.
    now rewrite rev_involutive, string_of_list_of_string.
Qed.

Lemma replace_app (c : ascii) (new a b : string) :
  Py.replace c new (a ++ b) = Py.replace c new a ++ Py.replace c new b.
Proof.
  induction a as [|x r IH]; [reflexivity|].
  cbn [String.append Py.replace]. rewrite IH.
  destruct (Ascii.eqb x c); [now rewrite string_app_assoc | reflexivity].
Qed.

Lemma replace_absent (c : ascii) (new s : string) :
  all_chars (fun x => negb (Ascii.eqb x c)) s = true -> Py.replace c new s = s.
Proof.
  unfold all_chars. induction s as [|x r IH]; [reflexivity|].
  cbn [np.list_of_string forallb Py.replace]. intros H.
  apply andb_prop in H. destruct H as [Hx Hr].
  apply negb_true_iff in Hx. rewrite Hx. now rewrite IH.
Qed.

(** The integer and the fractional part of a fixed-point text. *)
Lemma fixed_text_parts (digits : nat) (n : Z) :
  exists ip fp,
    all_chars digit ip = true /\ all_chars digit fp = true
    /\ forall grouping,
         np.fixed_text grouping digits n
         = (if grouping then np.group3 ip else ip)
           ++ match digits with O => "" | S _ => "." ++ fp end.
Proof.
  unfold np.fixed_text.
  set (s := zfill (S digits) (str_nat n)).
  assert (Hs : all_chars digit s = true) by (apply zfill_digits, str_nat_digits).
  exists (substring 0 (String.length s - digits) s),
    (substring (String.length s - digits) digits s).
  split; [now apply substring_chars|]. split; [now apply substring_chars|].
  intros grouping. destruct digits; [now rewrite string_app_nil_r | reflexivity].
Qed.

Lemma digit_not (c : ascii) (x : ascii) :
  digit x = false -> digit c = true -> negb (Ascii.eqb c x) = true.
Proof.
  intros Hx Hc. destruct (Ascii.eqb_spec c x) as [-> | ?]; [congruence | reflexivity].
Qed.

(** Without its commas, a grouped fixed-point text is the plain one. *)
Lemma fixed_text_ungrouped (digits : nat) (n : Z) :
  Py.replace "," "" (np.fixed_text true digits n) = np.fixed_text false digits n.
Proof.
  destruct (fixed_text_parts digits n) as [ip [fp [Hip [Hfp E]]]].
  rewrite !E. rewrite replace_app.
  destruct (group3_chars ip Hip) as [_ ->]. f_equal.
  destruct digits; [reflexivity|].
  change ("." ++ fp) with (String "." fp). cbn [Py.replace]. cbn.
  f_equal. apply replace_absent.
  eapply all_chars_weaken; [|exact Hfp]. intros c. now apply digit_not.
Qed.

(** [format(v, ",.<d>f")] without its commas is [format(v, ".<d>f")]. *)
Lemma format_f_ungrouped (digits : nat) (v : np.float) :
  Py.replace "," "" (np.format_f false true digits v)
  = np.format_f false false digits v.
Proof.
  destruct v as [s|s| |s m e]; cbn [np.format_f].
  - rewrite replace_app, fixed_text_ungrouped. now destruct s.
  - now destruct s.
  - reflexivity.
  - rewrite replace_app, fixed_text_ungrouped. now destruct s.
Qed.

Lemma fixed_text_chars (digits : nat) (n : Z) :
  all_chars number_char (np.fixed_text true digits n) = true.
Proof.
  destruct (fixed_text_parts digits n) as [ip [fp [Hip [Hfp E]]]].
  rewrite E, all_chars_app.
  destruct (group3_chars ip Hip) as [G _].
  assert (G' : all_chars number_char (np.group3 ip) = true).
  { eapply all_chars_weaken; [|exact G]. intros c H. unfold number_char.
    apply orb_prop in H. destruct H as [-> | ->]; [reflexivity|].
    now rewrite orb_true_r. }
  assert (F' : all_chars number_char fp = true).
  { eapply all_chars_weaken; [|exact Hfp]. intros c Hc. unfold number_char.
    now rewrite Hc. }
  rewrite G'. destruct digits; [reflexivity|]. now rewrite all_chars_app, F'.
Qed.

Lemma format_f_chars (digits : nat) (v : np.float) :
  all_chars number_char (np.format_f false true digits v) = true.
Proof.
  destruct v as [s|s| |s m e]; cbn [np.format_f].
  - rewrite all_chars_app, fixed_text_chars. now destruct s.
  - now destruct s.
  - reflexivity.
  - rewrite all_chars_app, fixed_text_chars. now destruct s.
Qed.

(** The three replacements through the placeholder [X] exchange commas and
    points in a text that holds no [X]. *)
Lemma replace_through_placeholder (s : string) :
  all_chars (fun c => negb (Ascii.eqb c "X")) s = true ->
  Py.replace "X" "." (Py.replace "." "," (Py.replace "," "X" s)) = swap_separators s.
Proof.
  unfold all_chars. induction s as [|c r IH]; [reflexivity|].
  cbn [np.list_of_string forallb]. intros H. apply andb_prop in H.
  destruct H as [Hc Hr]. apply negb_true_iff in Hc. specialize (IH Hr).
  cbn [Py.replace swap_separators]. unfold swap_char.
  destruct (Ascii.eqb_spec c ",") as [-> | N1].
  - cbn. now rewrite IH.
  - destruct (Ascii.eqb_spec c ".") as [-> | N2].
    + cbn. now rewrite IH.
    + cbn [Py.replace]. apply Ascii.eqb_neq in N2. rewrite N2. cbn [Py.replace].
      rewrite Hc. now rewrite IH.
Qed.

Lemma regroup_point (digits : nat) (v : np.float) :
  regroup "." (np.format_f false true digits v)
  = swap_separators (np.format_f false true digits v).
Proof.
  unfold regroup. cbn [String.eqb Ascii.eqb Bool.eqb].
  apply replace_through_placeholder.
  eapply all_chars_weaken; [|apply format_f_chars].
  intros c Hc. destruct (Ascii.eqb_spec c "X") as [-> | ?]; [discriminate | reflexivity].
Qed.

Lemma regroup_empty (digits : nat) (v : np.float) :
  regroup "" (np.format_f false true digits v) = _nround v digits.
Proof. unfold regroup, _nround. cbn [String.eqb]. apply format_f_ungrouped. Qed.

(* ================================================================== *)
(** * Further properties of [nnumber]                                  *)
(* ================================================================== *)

Lemma unit_bucket_bound (log10 : np.float -> np.float) (unit : string)
    (unit_labels : list (string * string)) (xs : list np.float) (u : np.float) :
  recognized_unit unit unit_labels ->
  (unit_bucket log10 unit unit_labels xs u < 5)%nat.
Proof.
  intros H. unfold unit_bucket.
  destruct (String.eqb_spec unit "auto"); [apply auto_bucket_bound|].
  destruct (String.eqb_spec unit "custom"); [apply custom_bucket_bound|].
  destruct H as [H | [H | H]]; [contradiction | contradiction |].
  rewrite <- (labels_length unit_labels). now apply index_in.
Qed.

(** [nnumber], element by element, for every recognized unit and every
    batch that is not empty. *)
Lemma nnumber_by_unit_bucket
    (log10 : np.float -> np.float)
    (number : list pyobj) (xs : list np.float) (digits : nat) (unit : string)
    (unit_labels : list (string * string)) (prefix suffix thousand_separator : string) :
  asanyarray_float number = Ok xs ->
  xs <> [] ->
  recognized_unit unit unit_labels ->
  nnumber log10 number digits unit unit_labels prefix suffix thousand_separator
  = Ok (map (fun x =>
               render_number unit_labels digits prefix suffix thousand_separator
                 (unit_bucket log10 unit unit_labels xs (representative xs x))
                 (representative xs x)) xs).
Proof.
  intros Hconv Hne Hunit.
  apply (nnumber_elementwise log10 number xs digits unit unit_labels prefix suffix
           thousand_separator (unit_bucket log10 unit unit_labels xs) Hconv Hne).
  unfold unit_bucket.
  destruct (String.eqb_spec unit "auto") as [-> | Ha]; [left; now split|].
  destruct (String.eqb_spec unit "custom") as [-> | Hc];
    [right; left; split; reflexivity|].
  right. right. destruct Hunit as [H | [H | H]]; [contradiction | contradiction |].
  repeat split; auto.
Qed.

(** Without prefix and suffix, the text of a number is the number followed
    by its unit. *)
Lemma render_number_plain
    (unit_labels : list (string * string)) (digits : nat)
    (thousand_separator : string) (k : nat) (v : np.float) :
  render_number unit_labels digits "" "" thousand_separator k v
  = regroup thousand_separator
      (np.format_f false true digits (np.mul v (nth k factors zero)))
    ++ unit_suffix (nth k (labels_of unit_labels) "").
Proof.
  unfold render_number. cbn [String.append]. now rewrite string_app_nil_r.
Qed.





(** ** Negated values *)

Lemma shr_1_nonneg (mrs : shr_record) : 0 <= shr_m mrs -> 0 <= shr_m (shr_1 mrs).
Proof.
  destruct mrs as [m r s]. cbn [shr_m]. intros H.
  destruct m as [|p|p]; [cbn; lia | | lia].
  destruct p; cbn; lia.
Qed.

Lemma iter_pos_shr_1_nonneg (p : positive) (mrs : shr_record) :
  0 <= shr_m mrs -> 0 <= shr_m (iter_pos shr_1 p mrs).
Proof.
  revert mrs. induction p as [p IH | p IH |]; intros mrs H; cbn [iter_pos];
    repeat first [apply IH | apply shr_1_nonneg]; exact H.
Qed.

Lemma shr_fexp_nonneg (m e : Z) (l : location) :
  0 <= m -> 0 <= shr_m (fst (shr_fexp np.prec np.emax m e l)).
Proof.
  intros H. unfold shr_fexp, shr.
  assert (H0 : 0 <= shr_m (shr_record_of_loc m l)).
  { destruct l as [|[| |]]; exact H. }
  destruct (fexp np.prec np.emax (Zdigits2 m + e) - e); cbn [fst]; auto.
  now apply iter_pos_shr_1_nonneg.
Qed.

Lemma round_nearest_even_nonneg (m : Z) (l : location) :
  0 <= m -> 0 <= round_nearest_even m l.
Proof.
  intros H. unfold round_nearest_even.
  destruct l as [|[| |]]; try lia. destruct (IntDef.Z.even m); lia.
Qed.

(** Rounding gives a number with the sign it is asked for. *)
Lemma binary_round_aux_sign (s : bool) (m e : Z) (l : location) :
  0 <= m ->
  positive_sign (binary_round_aux np.prec np.emax false m e l) = true
  /\ binary_round_aux np.prec np.emax (negb s) m e l
     = SFopp (binary_round_aux np.prec np.emax s m e l).
Proof.
  intros H. unfold binary_round_aux.
  pose proof (shr_fexp_nonneg m e l H) as H1.
  destruct (shr_fexp np.prec np.emax m e l) as [mrs' e']. cbn [fst] in H1.
  pose proof (shr_fexp_nonneg
                (round_nearest_even (shr_m mrs') (loc_of_shr_record mrs')) e' loc_Exact
                (round_nearest_even_nonneg _ _ H1)) as H2.
  destruct (shr_fexp np.prec np.emax _ e' loc_Exact) as [mrs'' e'']. cbn [fst] in H2.
  destruct (shr_m mrs'') as [|p|p]; [split; reflexivity | | lia].
  destruct (e'' <=? np.emax - np.prec); split; reflexivity.
Qed.

Lemma mul_opp (v : np.float) (m : positive) (e : Z) :
  positive_sign v = true ->
  positive_sign (np.mul v (S754_finite false m e)) = true
  /\ np.mul (SFopp v) (S754_finite false m e)
     = SFopp (np.mul v (S754_finite false m e)).
Proof.
  destruct v as [s|s| |s m' e']; cbn [positive_sign]; intros H; try discriminate;
    apply negb_true_iff in H; subst s.
  - split; reflexivity.
  - split; reflexivity.
  - unfold np.mul. cbn [SFmul SFopp xorb negb].
    apply (binary_round_aux_sign false). lia.
Qed.

Lemma format_f_opp (grouping : bool) (digits : nat) (w : np.float) :
  positive_sign w = true ->
  np.format_f false grouping digits (SFopp w)
  = "-" ++ np.format_f false grouping digits w.
Proof.
  destruct w as [s|s| |s m e]; cbn [positive_sign]; intros H; try discriminate;
    apply negb_true_iff in H; subst s; reflexivity.
Qed.

Lemma regroup_minus (thousand_separator t : string) :
  regroup thousand_separator ("-" ++ t) = "-" ++ regroup thousand_separator t.
Proof.
  unfold regroup.
  destruct (String.eqb thousand_separator ","); [reflexivity|].
  destruct (String.eqb thousand_separator "."); reflexivity.
Qed.

Lemma unit_bucket_opp (log10 : np.float -> np.float) (unit : string)
    (unit_labels : list (string * string)) (v : np.float) :
  unit_bucket log10 unit unit_labels [SFopp v] (SFopp v)
  = unit_bucket log10 unit unit_labels [v] v.
Proof.
  assert (Hn : nonzero_finite (SFopp v) = nonzero_finite v)
    by (destruct v as [s|s| |s m e]; try destruct s; reflexivity).
  assert (Hb : bucket log10 (SFopp v) = bucket log10 v)
    by (destruct v as [s|s| |s m e]; reflexivity).
  unfold unit_bucket, auto_bucket, custom_bucket.
  cbn [map filter np.any existsb]. rewrite Hn.
  destruct (nonzero_finite v); cbn [map]; now rewrite ?Hb.
Qed.

(** The negation of a value is formatted as the value with a minus sign in
    front, also when the number rounds to zero. *)
Theorem nnumber_negated :
  forall log10 v digits unit unit_labels thousand_separator,
    positive_sign v = true ->
    recognized_unit unit unit_labels ->
    exists body,
      nnumber log10 [PyFloat v] digits unit unit_labels "" "" thousand_separator
      = Ok [body]
      /\ nnumber log10 [PyFloat (SFopp v)] digits unit unit_labels "" ""
           thousand_separator
         = Ok ["-" ++ body].
Proof.
  intros log10 v digits unit ul sep Hv Hunit.
  rewrite (nnumber_by_unit_bucket log10 [PyFloat v] [v] digits unit ul "" "" sep
             eq_refl ltac:(discriminate) Hunit).
  rewrite (nnumber_by_unit_bucket log10 [PyFloat (SFopp v)] [SFopp v] digits unit ul
             "" "" sep eq_refl ltac:(discriminate) Hunit).
  cbn [map]. rewrite !representative_single, unit_bucket_opp, !render_number_plain.
  set (k := unit_bucket log10 unit ul [v] v).
  destruct (factor_positive k (unit_bucket_bound log10 unit ul [v] v Hunit))
    as [m [e Hf]].
  rewrite Hf.
  destruct (mul_opp v m e Hv) as [Hp ->].
  rewrite (format_f_opp true digits _ Hp), regroup_minus.
  eexists. split; reflexivity.
Qed.

(** The amount 0.04, which rounds to zero at one decimal. *)
Lemma nnumber_negated_witness :
  exists body,
    nnumber log10_whole [PyFloat (np.div (np.of_Z 4) (np.of_Z 100))] 1 "custom"
      default_labels "" "" ","
    = Ok [body]
    /\ nnumber log10_whole [PyFloat (SFopp (np.div (np.of_Z 4) (np.of_Z 100)))] 1
         "custom" default_labels "" "" ","
       = Ok ["-" ++ body].
Proof.
  apply (nnumber_negated log10_whole).
  - vm_compute. reflexivity.
  - right. now left.
Defined.

(** ** Unit mode [auto] as a fixed unit *)

Lemma index_nth (l : list string) (k : nat) :
  NoDup l -> (k < List.length l)%nat -> Py.index l (nth k l "") = k.
Proof.
  revert k. induction l as [|y r IH]; intros k Hnd Hk; [cbn in Hk; lia|].
  inversion Hnd as [|? ? Hy Hr]. subst.
  destruct k as [|k]; cbn [nth Py.index].
  - now rewrite String.eqb_refl.
  - cbn [List.length] in Hk.
    destruct (String.eqb_spec y (nth k r "")) as [E | E].
    + exfalso. apply Hy. rewrite E. apply nth_In. lia.
    + f_equal. apply IH; [exact Hr | lia].
Qed.

(** Unit mode [auto] is a fixed unit: the batch is formatted as with the
    label of its most frequent bucket given for the unit, the buckets being
    the ones the code computes from the logarithm of the library. *)
Theorem nnumber_auto_is_fixed_unit :
  forall log10 number xs digits unit_labels thousand_separator,
    asanyarray_float number = Ok xs ->
    NoDup (labels_of unit_labels) ->
    ~ In "auto" (labels_of unit_labels) ->
    ~ In "custom" (labels_of unit_labels) ->
    exists k,
      is_mode k (buckets_of log10 xs)
      /\ (k < 5)%nat
      /\ nnumber log10 number digits "auto" unit_labels "" "" thousand_separator
         = nnumber log10 number digits (nth k (labels_of unit_labels) "") unit_labels
             "" "" thousand_separator.
Proof.
  intros log10 number xs digits ul sep Hconv Hnd Hna Hnc.
  exists (auto_bucket log10 xs).
  pose proof (auto_bucket_bound log10 xs) as Hk.
  split; [apply auto_bucket_is_mode|]. split; [exact Hk|].
  set (k := auto_bucket log10 xs) in *.
  assert (Hin : In (nth k (labels_of ul) "") (labels_of ul)).
  { apply nth_In. rewrite labels_length. exact Hk. }
  destruct number as [|o number'].
  { rewrite !nnumber_empty; [reflexivity | right; now right | now left]. }
  assert (Hne : xs <> [])
    by (apply (asanyarray_float_not_nil (o :: number')); [exact Hconv | discriminate]).
  rewrite (nnumber_by_unit_bucket log10 _ xs digits "auto" ul "" "" sep Hconv Hne)
    by now left.
  rewrite (nnumber_by_unit_bucket log10 _ xs digits (nth k (labels_of ul) "") ul ""
             "" sep Hconv Hne) by (right; now right).
  f_equal. apply map_ext. intros x. unfold unit_bucket. cbn [String.eqb].
  destruct (String.eqb_spec (nth k (labels_of ul) "") "auto") as [E | _];
    [rewrite E in Hin; contradiction|].
  destruct (String.eqb_spec (nth k (labels_of ul) "") "custom") as [E | _];
    [rewrite E in Hin; contradiction|].
  rewrite index_nth; [reflexivity | exact Hnd | now rewrite labels_length].
Qed.

Lemma default_labels_distinct : NoDup (labels_of default_labels).
Proof.
  cbn. repeat constructor; cbn; intros H;
    repeat (destruct H as [H | H]; [discriminate|]); exact H.
Qed.

(** The batch 1500, 1500000, 2500000 with the default labels: the most
    frequent bucket is the one of millions. *)
Lemma nnumber_auto_is_fixed_unit_witness :
  exists k,
    is_mode k (buckets_of log10_whole
                 [np.of_Z 1500; np.of_Z 1500000; np.of_Z 2500000])
    /\ (k < 5)%nat
    /\ nnumber log10_whole [integer 1500; integer 1500000; integer 2500000] 1 "auto"
         default_labels "" "" ","
       = nnumber log10_whole [integer 1500; integer 1500000; integer 2500000] 1
           (nth k (labels_of default_labels) "") default_labels "" "" ",".
Proof.
  apply (nnumber_auto_is_fixed_unit log10_whole).
  - reflexivity.
  - exact default_labels_distinct.
  - cbn. intros H. repeat (destruct H as [H | H]; [discriminate|]). exact H.
  - cbn. intros H. repeat (destruct H as [H | H]; [discriminate|]). exact H.
Defined.

(* ================================================================== *)
(** * The order of a batch                                             *)
(* ================================================================== *)

(** In a batch whose zeros all have one sign, every element is its own
    distinct value. *)
Lemma representative_exact (xs : list np.float) (x : np.float) :
  (forall a b, In a xs -> In b xs -> is_zero a = true -> is_zero b = true -> a = b) ->
  In x xs -> representative xs x = x.
Proof.
  intros Hz Hin.
  destruct (representative_same xs x Hin) as [Hs Hnz].
  destruct (is_zero x) eqn:E; [|now apply Hnz].
  apply float_same_true in Hs. destruct Hs as [Hs | [Ha Hb]]; [exact Hs|].
  apply Hz; auto. apply distinct_values_in. now apply representative_in.
Qed.

Lemma Permutation_filter_list {A : Type} (p : A -> bool) (l l' : list A) :
  Permutation l l' -> Permutation (filter p l) (filter p l').
Proof.
  induction 1 as [|x l l' _ IH|x y l|l l' l'' _ IH1 _ IH2]; cbn [filter].
  - constructor.
  - destruct (p x); [now constructor | exact IH].
  - destruct (p x), (p y); try apply Permutation_refl. apply perm_swap.
  - now apply Permutation_trans with (filter p l').
Qed.

Lemma auto_bucket_permutation (log10 : np.float -> np.float) (xs ys : list np.float) :
  Permutation xs ys -> auto_bucket log10 xs = auto_bucket log10 ys.
Proof.
  intros H.
  apply (is_mode_unique (buckets_of log10 ys)); [|apply auto_bucket_is_mode].
  assert (P : Permutation (buckets_of log10 xs) (buckets_of log10 ys)).
  { unfold buckets_of. now apply Permutation_map, Permutation_filter_list. }
  pose proof (proj1 (Permutation_count_occ Z.eq_dec _ _) P) as C.
  destruct (auto_bucket_is_mode log10 xs) as [M1 M2]. split.
  - intros j. rewrite <- !C. apply M1.
  - intros j Hj. rewrite <- !C. now apply M2.
Qed.

(** The text of an element does not depend on where the element stands in
    the batch: on every reordering of a batch whose zeros all have one sign,
    [nnumber] returns the same text for the same value. *)
Theorem nnumber_order_independent :
  forall log10 xs ys digits unit unit_labels thousand_separator,
    xs <> [] ->
    Permutation xs ys ->
    (forall a b, In a xs -> In b xs -> is_zero a = true -> is_zero b = true -> a = b) ->
    recognized_unit unit unit_labels ->
    exists text : np.float -> string,
      nnumber log10 (map PyFloat xs) digits unit unit_labels "" "" thousand_separator
      = Ok (map text xs)
      /\ nnumber log10 (map PyFloat ys) digits unit unit_labels "" ""
           thousand_separator
         = Ok (map text ys).
Proof.
  intros log10 xs ys digits unit ul sep Hne HP Hz Hunit.
  assert (Hne' : ys <> []).
  { intros ->. apply Permutation_sym, Permutation_nil in HP. contradiction. }
  exists (fun x => render_number ul digits "" "" sep
                     (unit_bucket log10 unit ul xs x) x).
  split.
  - rewrite (nnumber_by_unit_bucket log10 _ xs digits unit ul "" "" sep
               (asanyarray_float_numbers xs) Hne Hunit).
    f_equal. apply map_ext_in. intros x Hx. now rewrite representative_exact.
  - rewrite (nnumber_by_unit_bucket log10 _ ys digits unit ul "" "" sep
               (asanyarray_float_numbers ys) Hne' Hunit).
    f_equal. apply map_ext_in. intros y Hy.
    assert (Hz' : forall a b, In a ys -> In b ys -> is_zero a = true ->
                              is_zero b = true -> a = b).
    { intros a b Ha Hb Za Zb.
      apply Hz; auto; apply (Permutation_in _ (Permutation_sym HP)); assumption. }
    rewrite (representative_exact ys y Hz' Hy).
    unfold unit_bucket. now rewrite (auto_bucket_permutation log10 xs ys HP).
Qed.

Lemma one_zero_sign_1500 :
  forall a b,
    In a [np.of_Z 1500; np.of_Z 2000000; np.of_Z 3000000] ->
    In b [np.of_Z 1500; np.of_Z 2000000; np.of_Z 3000000] ->
    is_zero a = true -> is_zero b = true -> a = b.
Proof.
  intros a b Ha Hb Za Zb. exfalso.
  repeat (destruct Ha as [<- | Ha]; [discriminate|]). destruct Ha.
Qed.

(** The batch 1500, 2000000, 3000000 and its reverse, in unit mode
    [auto]. *)
Lemma nnumber_order_independent_witness :
  exists text : np.float -> string,
    nnumber log10_whole (map PyFloat [np.of_Z 1500; np.of_Z 2000000; np.of_Z 3000000])
      1 "auto" default_labels "" "" ","
    = Ok (map text [np.of_Z 1500; np.of_Z 2000000; np.of_Z 3000000])
    /\ nnumber log10_whole
         (map PyFloat [np.of_Z 3000000; np.of_Z 2000000; np.of_Z 1500]) 1 "auto"
         default_labels "" "" ","
       = Ok (map text [np.of_Z 3000000; np.of_Z 2000000; np.of_Z 1500]).
Proof.
  apply (nnumber_order_independent log10_whole).
  - discriminate.
  - apply (Permutation_rev [np.of_Z 1500; np.of_Z 2000000; np.of_Z 3000000]).
  - exact one_zero_sign_1500.
  - now left.
Defined.

(* ================================================================== *)
(** * Batches are formatted element by element                         *)
(* ================================================================== *)

(** [npercent] and the date formatters format a batch element by
    element: the result for two batches put end to end is the two results
    put end to end; [nday] judges both against the same reading of the
    clock. *)
Theorem formatters_concatenate :
  (forall xs ys is_ratio digits show_plus_sign show_growth_factor show_bps,
      exists o1 o2,
        npercent (map PyFloat xs) is_ratio digits show_plus_sign show_growth_factor
          show_bps = Ok o1
        /\ npercent (map PyFloat ys) is_ratio digits show_plus_sign show_growth_factor
             show_bps = Ok o2
        /\ npercent (map PyFloat (xs ++ ys)%list) is_ratio digits show_plus_sign
             show_growth_factor show_bps = Ok (o1 ++ o2)%list)
  /\ (forall a b show_relative_day c reads,
         exists o1 o2,
           fst (nday (Datetime64 a) show_relative_day c reads) = Ok o1
           /\ fst (nday (Datetime64 b) show_relative_day c reads) = Ok o2
           /\ fst (nday (Datetime64 (a ++ b)%list) show_relative_day c reads)
              = Ok (o1 ++ o2)%list)
  /\ (forall a b show_weekday show_month_year,
         (forall v, In (np.DT v) (a ++ b)%list -> four_digit_year v) ->
         exists o1 o2,
           ndate (Datetime64 a) show_weekday show_month_year = Ok o1
           /\ ndate (Datetime64 b) show_weekday show_month_year = Ok o2
           /\ ndate (Datetime64 (a ++ b)%list) show_weekday show_month_year
              = Ok (o1 ++ o2)%list)
  /\ (forall a b show_weekday show_date show_hours show_minutes show_seconds
             show_timezone,
         (forall v, In (np.DT v) (a ++ b)%list -> four_digit_year (v / 86400)) ->
         exists o1 o2,
           ntimestamp (Datetime64 a) show_weekday show_date show_hours show_minutes
             show_seconds show_timezone = Ok o1
           /\ ntimestamp (Datetime64 b) show_weekday show_date show_hours show_minutes
                show_seconds show_timezone = Ok o2
           /\ ntimestamp (Datetime64 (a ++ b)%list) show_weekday show_date show_hours
                show_minutes show_seconds show_timezone
              = Ok (o1 ++ o2)%list).
Proof.
  split; [|split; [|split]].
  - intros xs ys r d sp sg sb.
    rewrite !(npercent_elementwise _ _ r d sp sg sb (asanyarray_float_numbers _)).
    eexists. eexists. split; [reflexivity|]. split; [reflexivity|].
    f_equal. destruct r; now rewrite ?map_app.
  - intros a b srd c reads. rewrite !nday_elementwise. cbn [fst].
    eexists. eexists. split; [reflexivity|]. split; [reflexivity|].
    now rewrite map_app.
  - intros a b sw sm Hy.
    rewrite !ndate_elementwise by (intros v Hv; apply Hy, in_or_app; auto).
    rewrite (ndate_elementwise _ sw sm Hy).
    eexists. eexists. split; [reflexivity|]. split; [reflexivity|].
    now rewrite map_app.
  - intros a b sw sd sh sm ss tz Hy.
    rewrite !ntimestamp_elementwise by (intros v Hv; apply Hy, in_or_app; auto).
    rewrite (ntimestamp_elementwise _ sw sd sh sm ss tz Hy).
    eexists. eexists. split; [reflexivity|]. split; [reflexivity|].
    now rewrite map_app.
Qed.

(** Two batches of one date each, 2023-05-15 and a not-a-time. *)
Lemma formatters_concatenate_witness :
  exists o1 o2,
    ndate (Datetime64 [np.DT 19492]) true false = Ok o1
    /\ ndate (Datetime64 [np.NaT]) true false = Ok o2
    /\ ndate (Datetime64 ([np.DT 19492] ++ [np.NaT])%list) true false
       = Ok (o1 ++ o2)%list.
Proof.
  apply (proj1 (proj2 (proj2 formatters_concatenate))).
  intros v [H | [H | []]]; [|discriminate].
  inversion H. subst. exact four_digit_year_may_2023.
Defined.

(* ================================================================== *)
(** * Further properties of the date formatters                        *)
(* ================================================================== *)

(** The three formatters agree on a timestamp: the date part of
    [ntimestamp] is what [ndate] returns for the day of the timestamp, and
    the weekday of both is the name [nday] returns for that day. *)
Theorem date_formatters_agree :
  forall secs show_hours show_minutes show_seconds show_timezone c reads,
    four_digit_year (secs / 86400) ->
    exists d w t,
      ndate (Datetime64 [np.DT (secs / 86400)]) false false = Ok [d]
      /\ nday (Datetime64 [np.DT (secs / 86400)]) false c reads = (Ok [w], reads)
      /\ ndate (Datetime64 [np.DT (secs / 86400)]) true false
         = Ok [d ++ " (" ++ w ++ ")"]
      /\ ntimestamp (Datetime64 [np.DT secs]) false false show_hours show_minutes
           show_seconds show_timezone = Ok [t]
      /\ ntimestamp (Datetime64 [np.DT secs]) true true show_hours show_minutes
           show_seconds show_timezone
         = Ok [d ++ " " ++ t ++ " (" ++ w ++ ")"].
Proof.
  intros secs sh sm ss tz c reads Hy.
  assert (Hd : forall v, In (np.DT v) [np.DT (secs / 86400)] -> four_digit_year v).
  { intros v [H | []]. inversion H. now subst. }
  assert (Ht : forall v, In (np.DT v) [np.DT secs] -> four_digit_year (v / 86400)).
  { intros v [H | []]. inversion H. now subst. }
  exists (long_date (secs / 86400)), (weekday_name (secs / 86400)),
    (timestamp_text false false sh sm ss secs).
  rewrite !(ndate_elementwise _ _ _ Hd), !(ntimestamp_elementwise _ _ _ _ _ _ _ Ht),
    nday_elementwise.
  cbn [map date_cell_text timestamp_cell_text day_text_int64 andb].
  rewrite (weekday_name_int64_year _ Hy).
  unfold date_text, timestamp_text.
  repeat split; rewrite ?string_app_nil_r, ?string_app_assoc; reflexivity.
Qed.

(** The timestamp 2023-01-01T14:30:05. *)
Lemma date_formatters_agree_witness :
  exists d w t,
    ndate (Datetime64 [np.DT (1672583405 / 86400)]) false false = Ok [d]
    /\ nday (Datetime64 [np.DT (1672583405 / 86400)]) false (clock_at 0) 0
       = (Ok [w], 0%nat)
    /\ ndate (Datetime64 [np.DT (1672583405 / 86400)]) true false
       = Ok [d ++ " (" ++ w ++ ")"]
    /\ ntimestamp (Datetime64 [np.DT 1672583405]) false false true true true true
       = Ok [t]
    /\ ntimestamp (Datetime64 [np.DT 1672583405]) true true true true true true
       = Ok [d ++ " " ++ t ++ " (" ++ w ++ ")"].
Proof.
  apply (date_formatters_agree 1672583405 true true true true (clock_at 0) 0%nat).
  unfold four_digit_year. vm_compute. split; discriminate.
Defined.

(** The text of a date [diff] days before a day whose count is [t]
    modulo 7. *)
Lemma day_text_by_diff (today v : Z) :
  day_text true today (np.DT v)
  = relative_prefix (today - v)
    ++ nth (Z.to_nat ((today mod 7 - (today - v) + 3) mod 7)) weekday_table "".
Proof.
  cbn [day_text]. unfold weekday_name. do 3 f_equal.
  replace (today mod 7 - (today - v) + 3) with (v + 3 + - (today / 7) * 7)
    by (pose proof (Z.div_mod today 7 ltac:(lia)); lia).
  now rewrite Z.mod_add by lia.
Qed.

(** Within eight days of today, the relative day tells two dates
    apart: different dates get different texts. *)
Theorem nday_relative_day_injective :
  forall v1 v2 (c : clock) reads,
    -8 <= c reads - v1 <= 8 ->
    -8 <= c reads - v2 <= 8 ->
    v1 <> v2 ->
    exists t1 t2,
      nday (Datetime64 [np.DT v1; np.DT v2]) true c reads = (Ok [t1; t2], S reads)
      /\ t1 <> t2.
Proof.
  intros v1 v2 c reads H1 H2 Hne.
  rewrite nday_elementwise. cbn [map valid np.isnat negb np.any existsb andb orb].
  eexists. eexists. split; [reflexivity|].
  pose proof (today_in_range c reads) as Hc.
  rewrite !day_text_int64_exact by lia.
  rewrite !day_text_by_diff.
  set (today := c reads) in *.
  pose (text := fun t d =>
                  relative_prefix d
                  ++ nth (Z.to_nat ((t - d + 3) mod 7)) weekday_table "").
  assert (C : holds_from 7
                (fun t =>
                   holds_from 17
                     (fun d1 =>
                        holds_from 17
                          (fun d2 =>
                             (d1 =? d2) || negb (String.eqb (text t d1) (text t d2)))
                          (-8))
                     (-8))
                0 = true) by (vm_compute; reflexivity).
  pose proof (Z.mod_pos_bound today 7 ltac:(lia)) as Ht.
  pose proof (holds_from_spec _ _ _ C (today mod 7) ltac:(lia)) as C1.
  cbv beta in C1.
  pose proof (holds_from_spec _ _ _ C1 (today - v1) ltac:(lia)) as C2.
  cbv beta in C2.
  pose proof (holds_from_spec _ _ _ C2 (today - v2) ltac:(lia)) as C3.
  cbv beta in C3.
  apply orb_prop in C3. destruct C3 as [E | E].
  - apply Z.eqb_eq in E. lia.
  - apply negb_true_iff, String.eqb_neq in E. exact E.
Qed.

(** Yesterday and the same weekday a week before, seen from day 20000. *)
Lemma nday_relative_day_injective_witness :
  exists t1 t2,
    nday (Datetime64 [np.DT 19999; np.DT 19992]) true (clock_at 20000) 0
    = (Ok [t1; t2], 1%nat)
    /\ t1 <> t2.
Proof.
  apply (nday_relative_day_injective 19999 19992 (clock_at 20000) 0%nat);
    cbn; lia.
Defined.

(* ================================================================== *)
(** * Properties of [_infer_type]                                      *)
(* ================================================================== *)

Lemma prefix_has_char (c : ascii) (sub s : string) :
  String.prefix sub s = true -> has_char c sub = true -> has_char c s = true.
Proof.
  revert s. induction sub as [|a r IH]; intros s Hp Hc; [discriminate|].
  destruct s as [|b t]; [discriminate|].
  cbn [String.prefix] in Hp. destruct (ascii_dec a b) as [<- | _]; [|discriminate].
  cbn [has_char] in *. apply orb_prop in Hc. destruct Hc as [-> | Hc]; [reflexivity|].
  rewrite (IH t Hp Hc). apply orb_true_r.
Qed.

Lemma contains_has_char (c : ascii) (sub s : string) :
  has_char c sub = true -> has_char c s = false -> f_py.contains sub s = false.
Proof.
  intros Hc. induction s as [|x r IH]; intros Hs.
  - cbn [f_py.contains]. destruct (String.prefix sub "") eqn:E; [|reflexivity].
    now rewrite (prefix_has_char c sub "" E Hc) in Hs.
  - cbn [f_py.contains]. destruct (String.prefix sub (String x r)) eqn:E.
    + now rewrite (prefix_has_char c sub _ E Hc) in Hs.
    + cbn [has_char] in Hs. apply orb_false_iff in Hs. destruct Hs as [_ Hr].
      now apply IH.
Qed.

(** In the text of a [datetime64] dtype, the only place for "[D]" is the
    unit. *)
Lemma contains_day_unit (u : string) :
  has_char "[" u = false -> has_char "]" u = false ->
  (f_py.contains "[D]" (f_py.str_datetime64 (Some u)) = true <-> u = "D")
  /\ (f_py.contains "datetime64[D]" (f_py.str_datetime64 (Some u)) = true <-> u = "D").
Proof.
  intros Ho Hc.
  assert (Hs : has_char "[" (u ++ "]") = false) by (now rewrite has_char_app, Ho).
  assert (T1 : f_py.contains "[D]" (u ++ "]") = false)
    by (now apply (contains_has_char "[")).
  assert (T2 : f_py.contains "datetime64[D]" (u ++ "]") = false)
    by (now apply (contains_has_char "[")).
  assert (Hpre : String.prefix "D]" (u ++ "]") = true <-> u = "D").
  { destruct u as [|x r]; [split; discriminate|].
    cbn [String.append String.prefix].
    destruct (ascii_dec "D" x) as [<- | Hx].
    - destruct r as [|y r']; [split; reflexivity|].
      cbn [String.append String.prefix].
      destruct (ascii_dec "]" y) as [<- | Hy].
      + cbn in Hc. discriminate.
      + split; [discriminate | intros E; inversion E].
    - split; [discriminate | intros E; inversion E; congruence]. }
  unfold f_py.str_datetime64.
  change ("datetime64[" ++ u ++ "]")
    with (String "d" (String "a" (String "t" (String "e" (String "t" (String "i"
          (String "m" (String "e" (String "6" (String "4" (String "["
          (u ++ "]")))))))))))).
  split.
  - cbn. rewrite T1, orb_false_r. exact Hpre.
  - cbn. rewrite T2, orb_false_r. exact Hpre.
Qed.

(** The inferred format type is one of date, ts, number and string,
    never day or percent; a [datetime64] scalar or array whose unit holds no
    bracket is a date exactly when the unit is [D]; an array of objects, as
    numpy makes of a list that mixes numbers and [None], is a string. *)
Theorem infer_type_cases :
  (forall x t,
      f_py._infer_type x = Ok t -> In t ["date"; "ts"; "number"; "string"])
  /\ (forall u,
         has_char "[" u = false -> has_char "]" u = false ->
         (f_py._infer_type (f_py.a_datetime64 (Some u)) = Ok "date" <-> u = "D")
         /\ (f_py._infer_type (f_py.a_array (Ok (f_py.datetime64 (Some u)))) = Ok "date"
             <-> u = "D"))
  /\ f_py._infer_type (f_py.a_array (Ok f_py.object_)) = Ok "string".
Proof.
  split; [|split; [|reflexivity]].
  - intros x t H. destruct x as [|u| |[[u| | | |]|e]]; cbn in H;
      repeat match type of H with
             | context [if ?b then _ else _] => destruct b
             end;
      inversion H; subst; cbn; auto.
  - intros u Ho Hc. destruct (contains_day_unit u Ho Hc) as [H1 H2].
    cbn [f_py._infer_type Py.bind]. split.
    + rewrite <- H2. clear H1 H2.
      destruct (f_py.contains "datetime64[D]" _); split; intros E;
        try reflexivity; discriminate.
    + rewrite <- H1. clear H1 H2.
      destruct (f_py.contains "[D]" _); split; intros E;
        try reflexivity; discriminate.
Qed.

(** A scalar of unit [D], and an array of seconds. *)
Lemma infer_type_cases_witness :
  In "date" ["date"; "ts"; "number"; "string"]
  /\ (f_py._infer_type (f_py.a_array (Ok (f_py.datetime64 (Some "s")))) = Ok "date"
      <-> "s" = "D").
Proof.
  split.
  - apply (proj1 infer_type_cases (f_py.a_datetime64 (Some "D"))). reflexivity.
  - apply (proj1 (proj2 infer_type_cases) "s"); reflexivity.
Defined.

(* ================================================================== *)
(** * Properties of [nstring]                                          *)
(* ================================================================== *)

Import PyText strings.

Lemma single_spaced_sub_spaces (s : str) :
  single_spaced (sub_spaces_from s false) false = true
  /\ forall b, single_spaced (sub_spaces_from s true) b = true.
Proof.
  induction s as [|c r [IH1 IH2]]; [split; reflexivity|].
  split.
  - cbn [sub_spaces_from]. destruct (isspace c) eqn:E.
    + cbn [single_spaced]. change (isspace 32) with true. cbn. apply IH2.
    + cbn [single_spaced]. rewrite E. apply IH1.
  - intros b. cbn [sub_spaces_from]. destruct (isspace c) eqn:E.
    + apply IH2.
    + cbn [single_spaced]. rewrite E. apply IH1.
Qed.

Lemma single_spaced_lstrip (s : str) (p q : bool) :
  single_spaced s p = true -> single_spaced (lstrip s) q = true.
Proof.
  revert p. induction s as [|c r IH]; intros p H; [reflexivity|].
  cbn [lstrip]. cbn [single_spaced] in H. destruct (isspace c) eqn:E.
  - apply andb_prop in H. destruct H as [_ H]. now apply (IH true).
  - cbn [single_spaced]. now rewrite E.
Qed.

Lemma rstrip_cons (c : N) (r : str) :
  rstrip (c :: r) = [] \/ rstrip (c :: r) = c :: rstrip r.
Proof.
  cbn [rstrip]. destruct (rstrip r); [|now right].
  destruct (isspace c); [now left | now right].
Qed.

Lemma single_spaced_rstrip (s : str) (p : bool) :
  single_spaced s p = true -> single_spaced (rstrip s) p = true.
Proof.
  revert p. induction s as [|c r IH]; intros p H; [reflexivity|].
  destruct (rstrip_cons c r) as [-> | ->]; [reflexivity|].
  cbn [single_spaced] in *. destruct (isspace c).
  - apply andb_prop in H. destruct H as [H1 H2]. rewrite H1. now apply IH.
  - now apply IH.
Qed.

Lemma starts_with_space_lstrip (s : str) : starts_with_space (lstrip s) = false.
Proof.
  induction s as [|c r IH]; [reflexivity|].
  cbn [lstrip]. destruct (isspace c) eqn:E; [exact IH | exact E].
Qed.

Lemma starts_with_space_rstrip (s : str) :
  starts_with_space s = false -> starts_with_space (rstrip s) = false.
Proof.
  destruct s as [|c r]; [reflexivity|]. intros H.
  destruct (rstrip_cons c r) as [-> | ->]; [reflexivity | exact H].
Qed.

Lemma ends_with_space_rstrip (s : str) : ends_with_space (rstrip s) = false.
Proof.
  induction s as [|c r IH]; [reflexivity|].
  cbn [rstrip]. destruct (rstrip r) as [|d r'] eqn:E.
  - destruct (isspace c) eqn:Ec; [reflexivity | exact Ec].
  - exact IH.
Qed.

Lemma sub_spaces_single_spaced (s : str) (p : bool) :
  single_spaced s p = true -> sub_spaces_from s p = s.
Proof.
  revert p. induction s as [|c r IH]; intros p H; [reflexivity|].
  cbn [single_spaced] in H. cbn [sub_spaces_from]. destruct (isspace c).
  - apply andb_prop in H. destruct H as [H H3]. apply andb_prop in H.
    destruct H as [H1 H2]. destruct p; [discriminate|].
    apply N.eqb_eq in H2. subst c. now rewrite (IH true).
  - now rewrite (IH false).
Qed.

Lemma lstrip_fixed (s : str) : starts_with_space s = false -> lstrip s = s.
Proof.
  destruct s as [|c r]; [reflexivity|]. cbn. now intros ->.
Qed.

Lemma rstrip_fixed (s : str) : ends_with_space s = false -> rstrip s = s.
Proof.
  induction s as [|c r IH]; [reflexivity|]. intros H.
  cbn [rstrip]. destruct r as [|d r'].
  - cbn in *. now rewrite H.
  - rewrite IH by exact H. reflexivity.
Qed.

(** The text [strip (sub_spaces s)] is a fixed point of the space
    cleaning. *)
Lemma strip_sub_spaces_tidy (s : str) :
  let t := strip (sub_spaces s) in
  single_spaced t false = true
  /\ starts_with_space t = false
  /\ ends_with_space t = false.
Proof.
  cbv zeta. unfold strip, sub_spaces. split; [|split].
  - apply single_spaced_rstrip.
    apply (single_spaced_lstrip _ false). apply single_spaced_sub_spaces.
  - apply starts_with_space_rstrip, starts_with_space_lstrip.
  - apply ends_with_space_rstrip.
Qed.

Lemma strip_sub_spaces_fixed (t : str) :
  single_spaced t false = true -> starts_with_space t = false ->
  ends_with_space t = false ->
  strip (sub_spaces t) = t.
Proof.
  intros H1 H2 H3. unfold strip, sub_spaces.
  rewrite (sub_spaces_single_spaced t false H1).
  rewrite (lstrip_fixed t H2). now apply rstrip_fixed.
Qed.

Lemma in_sub_spaces (s : str) (b : bool) (c : N) :
  In c (sub_spaces_from s b) -> c = 32%N \/ (In c s /\ isspace c = false).
Proof.
  revert b. induction s as [|d r IH]; intros b H; [destruct H|].
  cbn [sub_spaces_from] in H. destruct (isspace d) eqn:E.
  - destruct b.
    + destruct (IH _ H) as [-> | [Hin Hs]]; [now left | right; split; [now right | exact Hs]].
    + destruct H as [<- | H]; [now left|].
      destruct (IH _ H) as [-> | [Hin Hs]]; [now left | right; split; [now right | exact Hs]].
  - destruct H as [<- | H]; [right; split; [now left | exact E]|].
    destruct (IH _ H) as [-> | [Hin Hs]]; [now left | right; split; [now right | exact Hs]].
Qed.

Lemma in_lstrip (s : str) (c : N) : In c (lstrip s) -> In c s.
Proof.
  induction s as [|d r IH]; [auto|]. cbn [lstrip].
  destruct (isspace d); [intros H; right; auto | auto].
Qed.

Lemma in_rstrip (s : str) (c : N) : In c (rstrip s) -> In c s.
Proof.
  induction s as [|d r IH]; [auto|]. intros H.
  destruct (rstrip_cons d r) as [E | E]; rewrite E in H; [destruct H|].
  destruct H as [<- | H]; [now left | right; auto].
Qed.

Lemma in_strip_sub_spaces (s : str) (c : N) :
  In c (strip (sub_spaces s)) -> c = 32%N \/ (In c s /\ isspace c = false).
Proof.
  intros H. apply in_rstrip, in_lstrip in H. now apply in_sub_spaces in H.
Qed.

Lemma filter_fixed {A : Type} (p : A -> bool) (l : list A) :
  (forall x, In x l -> p x = true) -> filter p l = l.
Proof.
  induction l as [|a r IH]; intros H; [reflexivity|].
  cbn. rewrite (H a) by now left. rewrite IH; [reflexivity|].
  intros x Hx. apply H. now right.
Qed.

(** [nstring] applies the single-text helpers of the module, in the order
    case, special characters, non-English characters, spaces. *)
Lemma nstring_elementwise (U : casing) (text : list str) (case : option string)
    (remove_specials : bool) (keep_chars : str) (ascii_only : bool) :
  nstring U text case remove_specials keep_chars ascii_only
  = map (fun s =>
           cleaned remove_specials keep_chars ascii_only
             (match case with
              | Some c => _convert_case_single U s c
              | None => s
              end))
        text.
Proof.
  unfold nstring. apply map_ext. intros s.
  assert (Hcase : match case with
                  | Some c => if Py.truthy c then _convert_case_single U s c else s
                  | None => s
                  end
                  = match case with
                    | Some c => _convert_case_single U s c
                    | None => s
                    end).
  { destruct case as [c|]; [|reflexivity]. destruct c; reflexivity. }
  rewrite Hcase. clear Hcase.
  set (t := match case with Some c => _ | None => s end). clearbody t.
  unfold cleaned, _clean_text_single, _strip_non_english_single, _clean_space_single,
    re_sub_outside.
  assert (Hnil : forall u : str, (if negb (truthy u) then [] else u) = u)
    by (intros [|? ?]; reflexivity).
  assert (Hf : forall p (u : str), (if negb (truthy u) then [] else filter p u) = filter p u)
    by (intros p [|? ?]; reflexivity).
  assert (Hs : forall u : str,
             (if negb (truthy u) then [] else strip (sub_spaces u)) = strip (sub_spaces u))
    by (intros [|? ?]; reflexivity).
  rewrite !Hf, Hs. reflexivity.
Qed.

Lemma single_spaced_adjacent (l : str) (c1 c2 : N) (r : str) (p : bool) :
  single_spaced (l ++ c1 :: c2 :: r)%list p = true ->
  isspace c1 = true -> isspace c2 = false.
Proof.
  revert p. induction l as [|d l IH]; intros p H H1.
  - cbn [app single_spaced] in H. rewrite H1 in H.
    destruct (isspace c2); [|reflexivity].
    apply andb_prop in H. destruct H as [_ H]. discriminate.
  - cbn [app single_spaced] in H. destruct (isspace d).
    + apply andb_prop in H. destruct H as [_ H]. now apply (IH true).
    + now apply (IH false).
Qed.

Lemma ends_with_space_last (l : str) (c : N) :
  ends_with_space (l ++ [c])%list = isspace c.
Proof.
  induction l as [|d l IH]; [reflexivity|].
  cbn [app]. destruct (l ++ [c])%list eqn:E.
  - now destruct l.
  - exact IH.
Qed.

Lemma cleaned_tidy (remove_specials : bool) (keep_chars : str) (ascii_only : bool)
    (s : str) :
  exists t, cleaned remove_specials keep_chars ascii_only s = strip (sub_spaces t)
            /\ (forall c, In c t -> In c s)
            /\ (remove_specials = true ->
                forall c, In c t -> clean_text_class keep_chars c = true)
            /\ (ascii_only = true -> forall c, In c t -> english_class c = true).
Proof.
  unfold cleaned, _clean_text_single, _strip_non_english_single, _clean_space_single,
    re_sub_outside.
  assert (Hf : forall p (u : str), (if negb (truthy u) then [] else filter p u) = filter p u)
    by (intros p [|? ?]; reflexivity).
  assert (Hs : forall u : str,
             (if negb (truthy u) then [] else strip (sub_spaces u)) = strip (sub_spaces u))
    by (intros [|? ?]; reflexivity).
  rewrite !Hf, Hs.
  eexists. split; [reflexivity|].
  destruct remove_specials, ascii_only; (split; [|split]); try discriminate;
    intros; repeat match goal with
                   | H : In _ (filter _ _) |- _ => apply filter_In in H; destruct H
                   end; auto.
Qed.

(** Whatever the options, a text returned by [nstring] has no
    whitespace at either end, and its only whitespace is single U+0020
    characters: never two whitespace characters in a row. *)
Theorem nstring_single_spaced :
  forall U text case remove_specials keep_chars ascii_only out,
    In out (nstring U text case remove_specials keep_chars ascii_only) ->
    (forall c, In c out -> isspace c = true -> c = 32%N)
    /\ (forall c r, out = c :: r -> isspace c = false)
    /\ (forall l c, out = (l ++ [c])%list -> isspace c = false)
    /\ (forall l c1 c2 r,
           out = (l ++ c1 :: c2 :: r)%list -> isspace c1 = true -> isspace c2 = false).
Proof.
  intros U text case rs keep ao out Hin.
  rewrite nstring_elementwise in Hin. apply in_map_iff in Hin.
  destruct Hin as [s [<- _]].
  destruct (cleaned_tidy rs keep ao
              (match case with Some c => _convert_case_single U s c | None => s end))
    as [t [-> _]].
  destruct (strip_sub_spaces_tidy t) as [H1 [H2 H3]]. cbv zeta in *.
  split; [|split; [|split]].
  - intros c Hc Hs. destruct (in_strip_sub_spaces t c Hc) as [-> | [_ Hn]];
      [reflexivity | congruence].
  - intros c r E. rewrite E in H2. exact H2.
  - intros l c E. rewrite E, ends_with_space_last in H3. exact H3.
  - intros l c1 c2 r E Hs. rewrite E in H1.
    exact (single_spaced_adjacent _ _ _ _ _ H1 Hs).
Qed.

(** A text with spaces and a tab around two words. *)
Lemma nstring_single_spaced_witness :
  (forall c, In c (of_string "a b") -> isspace c = true -> c = 32%N)
  /\ (forall c r, of_string "a b" = c :: r -> isspace c = false)
  /\ (forall l c, of_string "a b" = (l ++ [c])%list -> isspace c = false)
  /\ (forall l c1 c2 r,
         of_string "a b" = (l ++ c1 :: c2 :: r)%list ->
         isspace c1 = true -> isspace c2 = false).
Proof.
  apply (nstring_single_spaced ascii_casing
           [(of_string "  a " ++ 9%N :: of_string " b ")%list] None false [] false
           (of_string "a b")).
  left. vm_compute. reflexivity.
Defined.

(** Formatting a batch that [nstring] returned, with the same
    cleaning options and no case, changes nothing. *)
Theorem nstring_idempotent :
  forall U text case remove_specials keep_chars ascii_only,
    nstring U (nstring U text case remove_specials keep_chars ascii_only)
      None remove_specials keep_chars ascii_only
    = nstring U text case remove_specials keep_chars ascii_only.
Proof.
  intros U text case rs keep ao.
  rewrite (nstring_elementwise U (nstring _ _ _ _ _ _)).
  rewrite nstring_elementwise, map_map. apply map_ext. intros s.
  set (s0 := match case with Some c => _convert_case_single U s c | None => s end).
  clearbody s0.
  destruct (cleaned_tidy rs keep ao s0) as [t [-> [_ [Hrs Hao]]]].
  set (out := strip (sub_spaces t)).
  assert (Hout : forall c, In c out -> c = 32%N \/ In c t).
  { intros c Hc. destruct (in_strip_sub_spaces t c Hc) as [-> | [H _]]; auto. }
  destruct (strip_sub_spaces_tidy t) as [H1 [H2 H3]]. cbv zeta in *. fold out in H1, H2, H3.
  unfold cleaned, _clean_text_single, _strip_non_english_single, _clean_space_single,
    re_sub_outside.
  cbv zeta.
  assert (Hf : forall p (u : str), (if negb (truthy u) then [] else filter p u) = filter p u)
    by (intros p [|? ?]; reflexivity).
  assert (Hs : forall u : str,
             (if negb (truthy u) then [] else strip (sub_spaces u)) = strip (sub_spaces u))
    by (intros [|? ?]; reflexivity).
  rewrite !Hf, Hs.
  assert (E1 : filter (clean_text_class keep) out = out \/ rs = false).
  { destruct rs; [left | now right]. apply filter_fixed. intros c Hc.
    destruct (Hout c Hc) as [-> | Ht]; [reflexivity | now apply Hrs]. }
  assert (E2 : filter english_class out = out \/ ao = false).
  { destruct ao; [left | now right]. apply filter_fixed. intros c Hc.
    destruct (Hout c Hc) as [-> | Ht]; [reflexivity | now apply Hao]. }
  destruct rs, ao; destruct E1 as [E1 | E1]; destruct E2 as [E2 | E2];
    try discriminate; rewrite ?E1, ?E2;
  now apply strip_sub_spaces_fixed.
Qed.

(** With [remove_specials], a returned text holds only ASCII letters
    and digits, U+0020 and characters of [keep_chars]; with [ascii_only],
    only the characters U+0020 to U+007E. *)
Theorem nstring_characters :
  forall U text case remove_specials keep_chars ascii_only out c,
    In out (nstring U text case remove_specials keep_chars ascii_only) ->
    In c out ->
    (remove_specials = true ->
     alnum c = true \/ c = 32%N \/ In c keep_chars)
    /\ (ascii_only = true -> (32 <= c <= 126)%N).
Proof.
  intros U text case rs keep ao out c Hin Hc.
  rewrite nstring_elementwise in Hin. apply in_map_iff in Hin.
  destruct Hin as [s [<- _]].
  destruct (cleaned_tidy rs keep ao
              (match case with Some c => _convert_case_single U s c | None => s end))
    as [t [E [_ [Hrs Hao]]]].
  rewrite E in Hc. clear E.
  destruct (in_strip_sub_spaces t c Hc) as [-> | [Ht Hn]].
  - split; intros _; [auto | lia].
  - split; intros H.
    + specialize (Hrs H c Ht). unfold clean_text_class in Hrs. rewrite Hn in Hrs.
      rewrite orb_false_r in Hrs. apply orb_prop in Hrs. destruct Hrs as [Ha | Hk]; [auto|].
      right. right. apply existsb_exists in Hk. destruct Hk as [x [Hx Heq]].
      apply N.eqb_eq in Heq. now subst.
    + specialize (Hao H c Ht). unfold english_class in Hao.
      apply andb_prop in Hao. destruct Hao as [Ha Hb].
      apply N.leb_le in Ha, Hb. lia.
Qed.

(** The exclamation mark of "a-b!", kept on request. *)
Lemma nstring_characters_witness :
  (true = true ->
   alnum 33%N = true \/ 33%N = 32%N \/ In 33%N (of_string "!"))
  /\ (true = true -> (32 <= 33 <= 126)%N).
Proof.
  apply (nstring_characters ascii_casing [of_string "a-b!"] None true (of_string "!")
           true (of_string "ab!") 33%N).
  - left. vm_compute. reflexivity.
  - vm_compute. auto.
Defined.

(** [nstring] is the composition of the single-text helpers of the
    module. *)
Theorem nstring_composes_helpers :
  forall U text case remove_specials keep_chars ascii_only,
    nstring U text case remove_specials keep_chars ascii_only
    = map (fun s =>
             let s := match case with
                      | Some c => _convert_case_single U s c
                      | None => s
                      end in
             let s := if remove_specials then _clean_text_single s keep_chars else s in
             let s := if ascii_only then _strip_non_english_single s else s in
             _clean_space_single s)
          text.
Proof. intros. apply nstring_elementwise. Qed.

(** With [ascii_only] and no case, a character outside U+0020 to
    U+007E leaves no trace, not even a space: a tab or a newline between
    two words glues them. *)
Theorem nstring_ascii_only_glues :
  forall U a b c remove_specials keep_chars,
    (c < 32 \/ 126 < c)%N ->
    nstring U [(a ++ c :: b)%list] None remove_specials keep_chars true
    = nstring U [(a ++ b)%list] None remove_specials keep_chars true.
Proof.
  intros U a b c rs keep Hc. unfold nstring, re_sub_outside. cbn [map].
  assert (Hec : english_class c = false).
  { unfold english_class. destruct (N.leb_spec 32 c), (N.leb_spec c 126);
      cbn; try reflexivity; lia. }
  assert (E : forall p : N -> bool,
             filter english_class (filter p (a ++ c :: b)%list)
             = filter english_class (filter p (a ++ b)%list)).
  { intros p. rewrite !filter_app. cbn [filter]. destruct (p c); [|reflexivity].
    cbn [filter]. now rewrite Hec. }
  destruct rs.
  - now rewrite E.
  - specialize (E (fun _ => true)).
    assert (Ht : forall l : str, filter (fun _ => true) l = l).
    { intros l. apply filter_fixed. reflexivity. }
    rewrite !Ht in E. now rewrite E.
Qed.

(** A tab between two words. *)
Lemma nstring_ascii_only_glues_witness :
  nstring ascii_casing [(of_string "a" ++ 9%N :: of_string "b")%list] None false [] true
  = nstring ascii_casing [(of_string "a" ++ of_string "b")%list] None false [] true.
Proof. apply nstring_ascii_only_glues. left. reflexivity. Defined.

(** ** The words of a text *)

Lemma rstrip_not_space (c : N) (t : str) :
  isspace c = false -> rstrip (c :: t) = c :: rstrip t.
Proof.
  intros H. cbn [rstrip]. rewrite H. now destruct (rstrip t).
Qed.

Lemma rstrip_space (c : N) (t : str) :
  isspace c = true ->
  rstrip (c :: t) = match rstrip t with [] => [] | r => c :: r end.
Proof.
  intros H. cbn [rstrip]. rewrite H. reflexivity.
Qed.

Lemma rstrip_after_word (a t : str) :
  a <> [] -> (forall c, In c a -> isspace c = false) ->
  rstrip (a ++ t)%list = (a ++ rstrip t)%list.
Proof.
  induction a as [|c r IH]; intros Hne Ha; [congruence|].
  cbn [app]. rewrite rstrip_not_space by (apply Ha; now left).
  destruct r as [|d r']; [reflexivity|].
  rewrite IH; [reflexivity | discriminate | intros x Hx; apply Ha; now right].
Qed.

Lemma lstrip_sub_spaces (s : str) :
  lstrip (sub_spaces_from s false) = sub_spaces_from s true.
Proof.
  assert (G : forall t, lstrip (sub_spaces_from t true) = sub_spaces_from t true).
  { induction t as [|c r IH]; [reflexivity|]. cbn [sub_spaces_from].
    destruct (isspace c) eqn:E; [exact IH|]. cbn [lstrip]. now rewrite E. }
  destruct s as [|c r]; [reflexivity|]. cbn [sub_spaces_from].
  destruct (isspace c) eqn:E.
  - cbn [lstrip]. change (isspace 32) with true. cbv iota. apply G.
  - cbn [lstrip]. now rewrite E.
Qed.

Lemma join_cons (sep w : str) (l : list str) :
  join sep (w :: l) = match l with [] => w | _ => (w ++ sep ++ join sep l)%list end.
Proof. reflexivity. Qed.

Lemma rev_not_nil {A : Type} (w : list A) : w <> [] -> rev w <> [].
Proof.
  intros H E. apply (f_equal (@List.length A)) in E. rewrite length_rev in E.
  destruct w; [congruence | discriminate].
Qed.

(** The words of a split are not empty. *)
Lemma split_from_words (s : str) :
  forall w u, In u (split_from s w) -> u <> [].
Proof.
  induction s as [|c r IH]; intros w u H; cbn [split_from] in H.
  - destruct w as [|x w']; [destruct H|].
    destruct H as [<- | []]. now apply rev_not_nil.
  - destruct (isspace c).
    + destruct w as [|x w']; [now apply (IH [])|].
      destruct H as [<- | H]; [now apply rev_not_nil | now apply (IH [])].
    + now apply (IH (c :: w)).
Qed.

Lemma join_not_nil (sep : str) (l : list str) :
  l <> [] -> (forall u, In u l -> u <> []) -> join sep l <> [].
Proof.
  destruct l as [|u l']; [congruence|]. intros _ H.
  assert (Hu : u <> []) by (apply H; now left).
  rewrite join_cons. destruct l'; [exact Hu|].
  destruct u; [congruence | discriminate].
Qed.

(** The words [split] finds, joined by single spaces, are the text with
    its whitespace runs replaced and its ends stripped. *)
Lemma join_split_from (s : str) :
  join [32%N] (split_from s []) = rstrip (sub_spaces_from s true)
  /\ forall w,
       w <> [] -> (forall c, In c w -> isspace c = false) ->
       join [32%N] (split_from s w) = (rev w ++ rstrip (sub_spaces_from s false))%list.
Proof.
  induction s as [|c r [IH0 IH1]].
  - split; [reflexivity|]. intros w Hne Hw. cbn [split_from sub_spaces_from rstrip].
    destruct w as [|x w']; [congruence|]. cbn [join]. now rewrite app_nil_r.
  - split.
    + cbn [split_from sub_spaces_from]. destruct (isspace c) eqn:E; [exact IH0|].
      rewrite (IH1 [c]); [|discriminate|intros x [<- | []]; exact E].
      cbn [rev app]. now rewrite rstrip_not_space.
    + intros w Hne Hw. cbn [split_from sub_spaces_from].
      destruct (isspace c) eqn:E.
      * destruct w as [|x w'] eqn:Ew; [congruence|]. rewrite <- Ew.
        rewrite join_cons, rstrip_space by reflexivity. rewrite <- IH0.
        destruct (split_from r []) as [|u l] eqn:El; [cbn [join]; now rewrite app_nil_r|].
        assert (Hj : join [32%N] (u :: l) <> []).
        { apply join_not_nil; [discriminate|]. intros v Hv.
          apply (split_from_words r [] v). now rewrite El. }
        destruct (join [32%N] (u :: l)) eqn:Ej; [contradiction | reflexivity].
      * rewrite (IH1 (c :: w));
          [|discriminate|intros x [<- | Hx]; [exact E | now apply Hw]].
        cbn [rev]. rewrite <- app_assoc. cbn [app].
        now rewrite rstrip_not_space.
Qed.

(** The space cleaning keeps the words of a text and puts one space
    between them: [_clean_space_single(s)] is [' '.join(s.split())], and so
    is every text [nstring] returns when no other option is set. *)
Theorem clean_space_joins_words :
  (forall s, _clean_space_single s = join (of_string " ") (split s))
  /\ (forall U text keep_chars,
         nstring U text None false keep_chars false
         = map (fun s => join (of_string " ") (split s)) text).
Proof.
  assert (G : forall s, strip (sub_spaces s) = join (of_string " ") (split s)).
  { intros s. unfold strip, sub_spaces, split. rewrite lstrip_sub_spaces.
    symmetry. apply join_split_from. }
  split.
  - intros s. rewrite <- G. destruct s; reflexivity.
  - intros U text keep. unfold nstring. apply map_ext. intros s. apply G.
Qed.

(* ================================================================== *)
(** * The tests of the repository, evaluated on the embedding          *)
(* ================================================================== *)

(** The number formatter is evaluated with the logarithm [log10_whole],
    which gives every value of the tests the bucket of its exact
    logarithm. *)

(** [tests/test_numbers.py]. *)

Example test_nnumber_fixed_unit :
  nnumber log10_whole [decimal 123456789123456 6] 1 "Mn" default_labels "$" "" ","
  = Ok ["$123.5 Mn"].
Proof. vm_compute. reflexivity. Qed.

Example test_nnumber_separators :
  nnumber log10_whole [integer 10000] 0 "" default_labels "" "" "." = Ok ["10.000"].
Proof. vm_compute. reflexivity. Qed.

Example test_nnumber_values :
  nnumber log10_whole [integer (-1000000); integer 0; integer 1000000] 1 "custom"
    default_labels "" "" ","
  = Ok ["-1.0 Mn"; "0.0"; "1.0 Mn"]
  /\ nnumber log10_whole [PyFloat np.nan; PyFloat np.inf; PyFloat (SFopp np.inf)] 1 "custom"
       default_labels "" "" ","
     = Ok ["nan"; "inf"; "-inf"].
Proof. split; vm_compute; reflexivity. Qed.

Example test_nnumber_units :
  nnumber log10_whole [integer 1500; integer 1500000; integer 1500000000] 1 "K"
    default_labels "" "" ","
  = Ok ["1.5 K"; "1,500.0 K"; "1,500,000.0 K"]
  /\ nnumber log10_whole [integer 1500; integer 1500000; integer 1500000000] 1 "Mn"
       default_labels "" "" ","
     = Ok ["0.0 Mn"; "1.5 Mn"; "1,500.0 Mn"]
  /\ nnumber log10_whole [integer 1500; integer 1500000; integer 1500000000] 3 "Bn"
       default_labels "" "" ","
     = Ok ["0.000 Bn"; "0.002 Bn"; "1.500 Bn"].
Proof. repeat split; vm_compute; reflexivity. Qed.

Example test_nnumber_formatting :
  nnumber log10_whole [decimal 1234567 3] 1 "custom" default_labels "USD " " Only" ","
  = Ok ["USD 1.2 K Only"]
  /\ nnumber log10_whole [integer 1000000000] 1 "K" default_labels "" "" "."
     = Ok ["1.000.000,0 K"]
  /\ nnumber log10_whole [integer 1000000000] 1 "K" default_labels "" "" "_"
     = Ok ["1_000_000.0 K"].
Proof. repeat split; vm_compute; reflexivity. Qed.

Example test_nnumber_errors :
  nnumber log10_whole [PyStr "abc"] 1 "custom" default_labels "" "" ","
  = Raise (ValueError "could not convert string to float")
  /\ nnumber log10_whole [PyNone] 1 "custom" default_labels "" "" "," = Ok ["nan"].
Proof. split; vm_compute; reflexivity. Qed.

Example test_npercent :
  npercent [decimal 223 3] true 1 true false false = Ok ["+22.3%"]
  /\ npercent [decimal 223 1] false 1 true false false = Ok ["+22.3%"]
  /\ npercent [decimal (-401) 2; decimal 256 2] true 1 true true false
     = Ok ["-401.0% (4.0x Drop)"; "+256.0% (2.6x Growth)"]
  /\ npercent [decimal 5 2] true 2 false false false = Ok ["5.00%"].
Proof. repeat split; vm_compute; reflexivity. Qed.

Example test_npercent_growth_factor_extended :
  npercent [integer (-1000); integer (-1); decimal (-5) 1; integer 0; decimal 1 2;
            integer 1; integer 1000] true 1 true true false
  = Ok ["-100000.0% (1000.0x Drop)"; "-100.0% (1.0x Drop)"; "-50.0% (Drop)";
        "0.0% (Flat)"; "+1.0% (Growth)"; "+100.0% (1.0x Growth)";
        "+100000.0% (1000.0x Growth)"].
Proof. vm_compute. reflexivity. Qed.

(** [tests/test_f.py], on the formatters the dispatcher calls. *)

Example test_f_inference_number :
  nnumber log10_whole [integer 1345000000000] 1 "custom" default_labels "" "" ","
  = Ok ["1.3 Tn"]
  /\ nnumber log10_whole [decimal 123456 2] 2 "" default_labels "" "" "," = Ok ["1,234.56"]
  /\ nnumber log10_whole [decimal 123456 2] 2 "" default_labels "" "" "_" = Ok ["1_234.56"]
  /\ nnumber log10_whole [integer 1000; PyNone; integer 2000] 1 "custom" default_labels "" "" ","
     = Ok ["1.0 K"; "nan"; "2.0 K"].
Proof. repeat split; vm_compute; reflexivity. Qed.

Example test_f_inference_ts :
  ntimestamp (Object [CInstant 1762690068]) true true true true true true
  = Ok ["Nov 09, 2025 12H 07M 48S PM (Sun)"].
Proof. vm_compute. reflexivity. Qed.

(** [tests/test_dates.py]. *)

Example test_ndate :
  ndate (datetime64_array [19358; 19359]) false false
  = Ok ["Jan 01, 2023"; "Jan 02, 2023"]
  /\ ndate (datetime64_array [19358]) true false = Ok ["Jan 01, 2023 (Sun)"]
  /\ ndate (Object [CInstant 19716]) true false = Ok ["Dec 25, 2023 (Mon)"]
  /\ ndate (Object [CInstant 19492]) true true = Ok ["May'23"]
  /\ ndate (Object [CNone; CNone]) true false = Ok ["NaT"; "NaT"].
Proof. repeat split; vm_compute; reflexivity. Qed.

Example test_nday :
  nday (datetime64_array [19358]) false (clock_at 0) 0 = (Ok ["Sun"], 0%nat)
  /\ nday (Object [CInstant 20454]) false (clock_at 0) 0 = (Ok ["Thu"], 0%nat)
  /\ nday (Object [CInstant 20000; CInstant 19999; CInstant 20001; CInstant 20005])
       true (clock_at 20000) 0
     = (Ok ["Today, Fri"; "Yesterday, Thu"; "Tomorrow, Sat"; "Coming Wed"], 1%nat).
Proof. repeat split; vm_compute; reflexivity. Qed.

Example test_ntimestamp_components :
  ntimestamp (Object [CInstant 1672583405]) false false true true true true
  = Ok ["02H 30M 05S PM"]
  /\ ntimestamp (Object [CInstant 1672583405]) false true true true false true
     = Ok ["Jan 01, 2023 02H 30M PM"]
  /\ ntimestamp (Object [CInstant 1672583405]) false true false false false true
     = Ok ["Jan 01, 2023  PM"].
Proof. repeat split; vm_compute; reflexivity. Qed.

(** [tests/test_strings.py]. *)

Example test_nstring_case :
  nstring ascii_casing [of_string "hello world"; of_string "GOODBYE"]
    (Some "title") false [] false
  = [of_string "Hello World"; of_string "Goodbye"].
Proof. vm_compute. reflexivity. Qed.

Example test_nstring_specials :
  nstring ascii_casing [of_string "hello!!! world@"] None true [] false
  = [of_string "hello world"].
Proof. vm_compute. reflexivity. Qed.

Example test_nstring_start_case :
  nstring ascii_casing [of_string "all Models are Wrong"] (Some "start") false [] false
  = [of_string "All Models Are Wrong"].
Proof. vm_compute. reflexivity. Qed.

Example test_nstring_cases :
  nstring ascii_casing [of_string "tEst CasE"] (Some "lower") false [] false
  = [of_string "test case"]
  /\ nstring ascii_casing [of_string "tEst CasE"] (Some "upper") false [] false
     = [of_string "TEST CASE"]
  /\ nstring ascii_casing [of_string "tEst CasE"] (Some "initcap") false [] false
     = [of_string "Test case"]
  /\ nstring ascii_casing [of_string "tEst CasE"] (Some "title") false [] false
     = [of_string "Test Case"].
Proof. repeat split; vm_compute; reflexivity. Qed.

Example test_nstring_cleaning :
  nstring ascii_casing [of_string "Hello @World! 123"] None true [] false
  = [of_string "Hello World 123"]
  /\ nstring ascii_casing [of_string "Hello @World! 123"] None true (of_string "!") false
     = [of_string "Hello World! 123"]
  /\ nstring ascii_casing [(of_string "Hello unicode " ++ [233%N])%list] None false [] true
     = [of_string "Hello unicode"].
Proof. repeat split; vm_compute; reflexivity. Qed.

(** Further evaluations. *)

Example nnumber_separators :
  nnumber log10_whole [decimal 1234567891 3; integer 12] 2 "" default_labels "" "" ""
  = Ok ["1234567.89"; "12.00"]
  /\ nnumber log10_whole [decimal 1234567891 3] 2 "" default_labels "" "" "."
     = Ok ["1.234.567,89"].
Proof. split; vm_compute; reflexivity. Qed.

Example nnumber_negative_zero :
  nnumber log10_whole [PyFloat (SFopp (np.div (np.of_Z 4) (np.of_Z 100)))] 1 "custom"
    default_labels "" "" "," = Ok ["-0.0"].
Proof. vm_compute. reflexivity. Qed.

(** The largest float below 1000, 999.9999999999999: a library whose
    logarithm of it rounds to 3 puts it in the bucket of the thousands,
    and it is rendered "1.0 K". *)
Example nnumber_below_thousand :
  forall log10 : np.float -> np.float,
    log10 (S754_finite false 8796093022207999 (-43)) = np.of_Z 3 ->
    nnumber log10 [PyFloat (S754_finite false 8796093022207999 (-43))] 1 "custom"
      default_labels "" "" ","
    = Ok ["1.0 K"].
Proof.
  intros log10 H.
  rewrite (nnumber_elementwise log10
             [PyFloat (S754_finite false 8796093022207999 (-43))]
             [S754_finite false 8796093022207999 (-43)] 1 "custom" default_labels
             "" "" "," (custom_bucket log10) eq_refl);
    [| discriminate | right; left; split; reflexivity].
  cbn [map]. rewrite representative_single.
  assert (B : custom_bucket log10 (S754_finite false 8796093022207999 (-43)) = 1%nat).
  { unfold custom_bucket. cbn [nonzero_finite np.ne np.eq SFeqb SFcompare zero negb
                                 np.isfinite andb].
    now rewrite (bucket_of_whole log10 _ 3) by (try lia; exact H). }
  rewrite B. vm_compute. reflexivity.
Qed.

(** The empty batch: empty with the default separator, prefix and suffix;
    with another separator the replacement is applied to an array of
    floats, and raises. *)
Example nnumber_empty_batch :
  forall log10 : np.float -> np.float,
    nnumber log10 [] 1 "custom" default_labels "" "" "," = Ok []
    /\ nnumber log10 [] 1 "auto" default_labels "" "" "," = Ok []
    /\ exists e, nnumber log10 [] 1 "custom" default_labels "" "" "." = Raise e.
Proof.
  intros log10. split; [reflexivity|]. split; [reflexivity|].
  eexists. reflexivity.
Qed.
